(** * HDF5 readable resource: a shallow embedding of [hdf5_kernels.cc]

    The development follows the source file top to bottom:
    - [HDF5Iterate]: the link walker handed to [H5Literate];
    - [HDF5ReadableResource]: [Init], [Components], [Spec] and [Read];
    - [HDF5ReadableInfoOp]: the kernel that reports the components, their
      shapes and their value types;
    - [HDF5ReadableReadOp]: the kernel that normalises [start]/[stop]
      and calls [Read].

    The HDF5 library itself is not part of the source.  It appears here as
    plain data (an object graph, data types, data spaces) together with an
    oracle saying which library calls throw. *)

From Stdlib Require Import ZArith Lia Ascii.
From Stdlib.Strings Require Import Byte.
From stdpp Require Import base option list gmap strings fin_maps.

#[local] Set Warnings "-clear-no-such-hyp".

Local Open Scope string_scope.
Local Open Scope Z_scope.

(** ** Machine integers *)

Module Int.

(** [int64] values are integers in [[-2^63, 2^63)]; [hsize_t] and [size_t]
    are 64-bit unsigned. *)
Definition in_int64 (z : Z) : Prop := - 2 ^ 63 <= z < 2 ^ 63.
Definition in_hsize (z : Z) : Prop := 0 <= z < 2 ^ 64.

(** Two's complement result of an [int64] operation. *)
Definition wrap_int64 (z : Z) : Z := (z + 2 ^ 63) mod 2 ^ 64 - 2 ^ 63.

(** The conversion [int64 -> hsize_t] the compiler inserts when both are
    compared or assigned. *)
Definition to_hsize (z : Z) : Z := z mod 2 ^ 64.

Definition add_int64 (a b : Z) : Z := wrap_int64 (a + b).
Definition sub_int64 (a b : Z) : Z := wrap_int64 (a - b).

End Int.

(** ** Status values of the host framework *)

Inductive Code := OK | INVALID_ARGUMENT | UNIMPLEMENTED.

(** The arguments handed to [errors::InvalidArgument(...)]; the framework
    concatenates them, numbers in decimal. *)
Inductive MsgArg :=
| MStr (s : string)
| MInt (z : Z).

Record Status := mkStatus { code : Code; message : list MsgArg }.

Definition OkStatus : Status := mkStatus OK [].
Definition InvalidArgument (args : list MsgArg) : Status :=
  mkStatus INVALID_ARGUMENT args.
Definition Unimplemented (args : list MsgArg) : Status :=
  mkStatus UNIMPLEMENTED args.

Definition ok (s : Status) : bool :=
  match code s with OK => true | _ => false end.

(** Decimal rendering, as [StrCat] does it. *)
Definition digit_string (d : Z) : string :=
  String (Ascii.ascii_of_nat (48 + Z.to_nat d)) EmptyString.

Fixpoint decimal_digits (fuel : nat) (z : Z) : string :=
  match fuel with
  | O => ""
  | S fuel' =>
      if z <? 10 then digit_string z
      else decimal_digits fuel' (z / 10) +:+ digit_string (z mod 10)
  end.

Definition decimal (z : Z) : string :=
  if z <? 0 then "-" +:+ decimal_digits 20 (- z) else decimal_digits 20 z.

Definition render_arg (a : MsgArg) : string :=
  match a with
  | MStr s => s
  | MInt z => decimal z
  end.

Definition error_message (s : Status) : string :=
  foldr (λ a acc, render_arg a +:+ acc) "" (message s).

(** [haystack.find(needle) != npos] *)
Definition contains (needle haystack : string) : bool :=
  match String.index 0 needle haystack with
  | Some _ => true
  | None => false
  end.

(** ** Index-checked vectors

    [absl::InlinedVector::operator[]] requires [i < size()].  An access
    outside that range has no defined result; the model stops with
    [OutOfRange] there. *)

Inductive Fault :=
| OutOfRange (vec : string) (index size : nat)
| CheckFailed (what : string).

Definition Checked (A : Type) : Type := Fault + A.

Definition cbind {A B} (m : Checked A) (k : A → Checked B) : Checked B :=
  match m with
  | inl e => inl e
  | inr a => k a
  end.

Notation "x ←? m ; k" := (cbind m (λ x, k))
  (at level 100, m at next level, right associativity, only parsing).

Definition vec_get (name : string) (v : list Z) (i : nat) : Checked Z :=
  match v !! i with
  | Some x => inr x
  | None => inl (OutOfRange name i (length v))
  end.

Definition vec_set (name : string) (v : list Z) (i : nat) (x : Z)
  : Checked (list Z) :=
  if decide (i < length v)%nat then inr (<[i := x]> v)
  else inl (OutOfRange name i (length v)).

(** [for (int64 i = lo; i < hi; i++) body] *)
Fixpoint for_loop {St : Type} (n i : nat) (body : nat → St → Checked St)
  (s : St) : Checked St :=
  match n with
  | O => inr s
  | S n' => s' ←? body i s; for_loop n' (S i) body s'
  end.

Definition for_range {St : Type} (lo hi : nat) (body : nat → St → Checked St)
  (s : St) : Checked St :=
  for_loop (hi - lo) lo body s.

(** ** Tensors of the host framework *)

(** An [int64] input tensor: its shape and its elements in row-major
    order. *)
Record Int64Tensor := mkInt64Tensor { ts_shape : list Z; ts_flat : list Z }.

(** [tensor->shape().dims()] *)
Definition Tensor_dims (t : Int64Tensor) : nat := length (ts_shape t).
(** [tensor->NumElements()] *)
Definition NumElements (t : Int64Tensor) : nat := length (ts_flat t).
(** [tensor->flat<int64>()(i)], for [i < NumElements()] *)
Definition flat (t : Int64Tensor) (i : nat) : Z := default 0 (ts_flat t !! i).

Definition Int64Tensor_wf (t : Int64Tensor) : Prop :=
  Z.of_nat (length (ts_flat t)) = foldr Z.mul 1 (ts_shape t).

(** A [TensorShape] is its list of dimension sizes. *)
Definition dim_size (shape : list Z) (i : nat) : Z := default 0 (shape !! i).

(** [shape.set_dim(i, size)], which checks [size >= 0]. *)
Definition set_dim (shape : list Z) (i : nat) (size : Z) : Checked (list Z) :=
  if decide (0 <= size) then vec_set "shape" shape i size
  else inl (CheckFailed "set_dim").

(** [TensorShape(dim_sizes)], which checks that no size is negative. *)
Definition TensorShape (dim_sizes : list Z) : Checked (list Z) :=
  if decide (Forall (λ d, 0 <= d) dim_sizes) then inr dim_sizes
  else inl (CheckFailed "TensorShape").

(** ** The container library, as the kernels see it *)

Module H5.

Definition haddr_t := Z.
Definition herr_t := Z.
Definition pointer := Z.

Inductive H5T_class_t :=
| H5T_NO_CLASS | H5T_INTEGER | H5T_FLOAT | H5T_TIME | H5T_STRING
| H5T_BITFIELD | H5T_OPAQUE | H5T_COMPOUND | H5T_REFERENCE | H5T_ENUM
| H5T_VLEN | H5T_ARRAY.

(** The numeric value of the enumerator, which is what gets printed. *)
Definition class_tag (c : H5T_class_t) : Z :=
  match c with
  | H5T_NO_CLASS => -1 | H5T_INTEGER => 0 | H5T_FLOAT => 1 | H5T_TIME => 2
  | H5T_STRING => 3 | H5T_BITFIELD => 4 | H5T_OPAQUE => 5
  | H5T_COMPOUND => 6 | H5T_REFERENCE => 7 | H5T_ENUM => 8 | H5T_VLEN => 9
  | H5T_ARRAY => 10
  end.

#[global] Instance class_eq_dec : EqDecision H5T_class_t.
Proof. solve_decision. Defined.

(** [IntType::getSign]: [H5T_SGN_NONE] is 0, [H5T_SGN_2] is 1. *)
Inductive H5T_sign_t := H5T_SGN_NONE | H5T_SGN_2.

Definition sign_is_set (s : H5T_sign_t) : bool :=
  match s with H5T_SGN_NONE => false | H5T_SGN_2 => true end.

(** [StrType::getStrpad]; the values 3..15 are reserved. *)
Inductive H5T_str_t :=
| H5T_STR_NULLTERM | H5T_STR_NULLPAD | H5T_STR_SPACEPAD
| H5T_STR_RESERVED (n : Z).

Definition strpad_tag (s : H5T_str_t) : Z :=
  match s with
  | H5T_STR_NULLTERM => 0 | H5T_STR_NULLPAD => 1 | H5T_STR_SPACEPAD => 2
  | H5T_STR_RESERVED n => n
  end.

(** The type of a compound member.  [H5Tequal] compares the class, the
    size and every other property of the two types; [mt_rest] stands for
    those other properties (byte order, precision, ...). *)
Record MemberType := mkMemberType {
  mt_class : H5T_class_t;
  mt_size : Z;
  mt_rest : Z;
}.

#[global] Instance MemberType_eq_dec : EqDecision MemberType.
Proof. solve_decision. Defined.

(** A data type handle.  The fields are the answers of the getters the
    source calls; a getter of another class than [getClass] is never
    consulted by the source. *)
Record DataType := mkDataType {
  getClass : H5T_class_t;
  getSize : Z;
  getSign : H5T_sign_t;                          (* IntType *)
  isVariableStr : bool;                          (* StrType *)
  getStrpad : H5T_str_t;                         (* StrType *)
  comp_members : list (string * MemberType);     (* CompType *)
  enum_members : list (string * Z);              (* EnumType *)
}.

(** [CompType] getters. *)
Definition comp_getNmembers (t : DataType) : Z :=
  Z.of_nat (length (comp_members t)).
Definition getMemberName (t : DataType) (i : nat) : string :=
  default "" (fst <$> comp_members t !! i).
Definition getMemberDataType (t : DataType) (i : nat) : MemberType :=
  default (mkMemberType H5T_NO_CLASS 0 0) (snd <$> comp_members t !! i).
Definition getMemberClass (t : DataType) (i : nat) : H5T_class_t :=
  mt_class (getMemberDataType t i).

(** [EnumType] getters.  [getMemberIndex] and [nameOf] throw when there is
    no such member, and [nameOf(value, size)] also when the name does not
    fit a buffer of [size] characters; [None] stands for the throw. *)
Definition enum_getNmembers (t : DataType) : Z :=
  Z.of_nat (length (enum_members t)).

Fixpoint index_of_name (name : string) (ms : list (string * Z)) (i : Z)
  : option Z :=
  match ms with
  | [] => None
  | (n, _) :: ms' =>
      if decide (n = name) then Some i else index_of_name name ms' (i + 1)
  end.

Definition getMemberIndex (t : DataType) (name : string) : option Z :=
  index_of_name name (enum_members t) 0.

Definition getMemberValue (t : DataType) (i : nat) : option Z :=
  snd <$> enum_members t !! i.

Fixpoint name_of_value (v : Z) (ms : list (string * Z)) : option string :=
  match ms with
  | [] => None
  | (n, w) :: ms' => if decide (w = v) then Some n else name_of_value v ms'
  end.

Definition nameOf (t : DataType) (v : Z) (size : nat) : option string :=
  match name_of_value v (enum_members t) with
  | Some name =>
      if decide (String.length name < size)%nat then Some name else None
  | None => None
  end.

(** Data spaces: an extent and the selection made in it. *)
Inductive Selection :=
| SelectAll
| SelectHyperslab (count start : list Z).

Inductive DataSpace :=
| ALL                                            (* H5::DataSpace::ALL *)
| Simple (dims : list Z) (sel : Selection).

(** Exceptions of the C++ API. *)
Inductive ExceptionClass :=
| FileIException | GroupIException | DataSetIException
| DataTypeIException | DataSpaceIException.

Record Exception := mkException {
  exc_class : ExceptionClass;
  getCDetailMsg : string;
}.

(** The library calls made on an open data set and on the handles obtained
    from it, and the exception class each one is declared to throw. *)
Inductive Call :=
| DataSet_getDataType | DataSet_getSpace | DataSet_getStrType
| DataSet_read | DataSet_vlenReclaim
| DataSpace_getSimpleExtentNdims | DataSpace_getSimpleExtentDims
| DataSpace_create | DataSpace_selectHyperslab.

Definition declared_class (c : Call) : ExceptionClass :=
  match c with
  | DataSet_getDataType | DataSet_getSpace | DataSet_getStrType
  | DataSet_read | DataSet_vlenReclaim => DataSetIException
  | DataSpace_getSimpleExtentNdims | DataSpace_getSimpleExtentDims
  | DataSpace_create | DataSpace_selectHyperslab => DataSpaceIException
  end.

(** [hvl_t] *)
Record hvl_t := mkHvl { len : Z; p : pointer }.

(** An open data set: its type, its extent, what [read] delivers into the
    caller's buffer for a memory and a file space, the blocks the library
    allocated for variable-length data, and which calls fail (with the
    detail message of the exception). *)
Record DataSet := mkDataSet {
  ds_type : DataType;
  ds_dims : list Z;
  ds_bytes : DataSpace → DataSpace → list Byte.byte;
  ds_pointers : DataSpace → DataSpace → list pointer;
  ds_hvl : DataSpace → DataSpace → list hvl_t;
  ds_heap : pointer → list Byte.byte;
  ds_throws : Call → option string;
}.

(** The object graph.  A link is a name and the address it resolves to; an
    address without an object is a link that does not resolve. *)
Inductive Object :=
| Group (links : list (string * haddr_t))
| DataSetObject (d : DataSet)
| NamedDatatype
| OtherObject.

Inductive H5O_type_t :=
| H5O_TYPE_UNKNOWN | H5O_TYPE_GROUP | H5O_TYPE_DATASET
| H5O_TYPE_NAMED_DATATYPE.

Record H5O_info_t := mkInfo { type : H5O_type_t; addr : haddr_t }.

Definition type_of (o : Object) : H5O_type_t :=
  match o with
  | Group _ => H5O_TYPE_GROUP
  | DataSetObject _ => H5O_TYPE_DATASET
  | NamedDatatype => H5O_TYPE_NAMED_DATATYPE
  | OtherObject => H5O_TYPE_UNKNOWN
  end.

Record H5File := mkH5File {
  root : haddr_t;
  objects : gmap haddr_t Object;
}.

(** [H5Oget_info_by_name]: on failure the out-parameter is left as it
    was, which in [Iterate] is an uninitialised local. *)
Definition H5Oget_info_by_name (f : H5File) (uninit : H5O_info_t)
  (target : haddr_t) : herr_t * H5O_info_t :=
  match objects f !! target with
  | Some o => (0, mkInfo (type_of o) target)
  | None => (-1, uninit)
  end.

(** Path lookup for [H5File::openDataSet]. *)
Fixpoint path_components (s cur : string) : list string :=
  match s with
  | EmptyString => if decide (cur = "") then [] else [cur]
  | String c s' =>
      if decide (c = "/"%char)
      then (if decide (cur = "") then path_components s' ""
            else cur :: path_components s' "")
      else path_components s' (cur +:+ String c EmptyString)
  end.

Fixpoint find_link (name : string) (links : list (string * haddr_t))
  : option haddr_t :=
  match links with
  | [] => None
  | (n, a) :: links' =>
      if decide (n = name) then Some a else find_link name links'
  end.

Fixpoint resolve (f : H5File) (a : haddr_t) (names : list string)
  : option haddr_t :=
  match names with
  | [] => Some a
  | n :: names' =>
      match objects f !! a with
      | Some (Group links) =>
          match find_link n links with
          | Some a' => resolve f a' names'
          | None => None
          end
      | _ => None
      end
  end.

Definition openDataSet (f : H5File) (path : string) : Exception + DataSet :=
  match resolve f (root f) (path_components path "") with
  | Some a =>
      match objects f !! a with
      | Some (DataSetObject d) => inr d
      | _ => inl (mkException FileIException "H5Dopen2 failed")
      end
  | None => inl (mkException FileIException "H5Dopen2 failed")
  end.

End H5.

(** ** [HDF5Iterate]: the callback of [H5Literate] *)

Module HDF5Iterate.
Import H5.

Record t := mk {
  datasets_ : list string;
  groups_ : gmap haddr_t string;
  parent_ : haddr_t;
}.

(** The constructor: [parent_(root)] and [groups_[root] = ""]. *)
Definition new (root : haddr_t) : t :=
  mk [] {[ root := "" ]} root.

(** [std::unordered_map::operator[]]: a missing key is inserted with the
    empty string. *)
Definition at_key (g : gmap haddr_t string) (k : haddr_t)
  : string * gmap haddr_t string :=
  match g !! k with
  | Some v => (v, g)
  | None => ("", <[k := ""]> g)
  end.

(** [Iterate], lines 83-112, for the link [name] resolving to [target].
    [literate_by_name] is the nested [H5Literate_by_name] call. *)
Definition Iterate (f : H5File) (uninit : H5O_info_t)
  (literate_by_name : haddr_t → t → option (herr_t * t))
  (link : string * haddr_t) (p : t) : option (herr_t * t) :=
  let '(name, target) := link in
  let '(err, iteminfo) := H5Oget_info_by_name f uninit target in
  match type iteminfo with
  | H5O_TYPE_GROUP =>
      match groups_ p !! addr iteminfo with
      | None =>
          let parent := parent_ p in
          let '(parent_path, g) := at_key (groups_ p) parent in
          let p1 := mk (datasets_ p)
                       (<[addr iteminfo := parent_path +:+ "/" +:+ name]> g)
                       (addr iteminfo) in
          match literate_by_name target p1 with
          | Some (err, p2) => Some (err, mk (datasets_ p2) (groups_ p2) parent)
          | None => None
          end
      | Some _ => Some (err, p)
      end
  | H5O_TYPE_DATASET =>
      let '(parent_path, g) := at_key (groups_ p) (parent_ p) in
      Some (err, mk (datasets_ p ++ [parent_path +:+ "/" +:+ name]) g
                    (parent_ p))
  | H5O_TYPE_NAMED_DATATYPE => Some (err, p)
  | H5O_TYPE_UNKNOWN => Some (err, p)
  end.

(** [H5Literate] over the links of one group: the callback runs on each
    link in order, and the first non-zero return value stops the
    iteration and is returned.  The recursion through
    [H5Literate_by_name] is bounded by [fuel]; [None] means the bound was
    reached. *)
Fixpoint H5Literate (fuel : nat) (f : H5File) (uninit : H5O_info_t)
  (links : list (string * haddr_t)) (p : t) : option (herr_t * t) :=
  match fuel with
  | O => None
  | S fuel' =>
      let by_name (target : haddr_t) (p : t) :=
        match objects f !! target with
        | Some (Group links') => H5Literate fuel' f uninit links' p
        | _ => Some (-1, p)
        end in
      (fix each (links : list (string * haddr_t)) (p : t) :=
         match links with
         | [] => Some (0, p)
         | link :: rest =>
             match Iterate f uninit by_name link p with
             | Some (err, p') =>
                 if decide (err = 0) then each rest p' else Some (err, p')
             | None => None
             end
         end) links p
  end.

(** [H5Literate_by_name], as [Iterate] calls it at line 96. *)
Definition H5Literate_by_name (fuel : nat) (f : H5File)
  (uninit : H5O_info_t) (target : haddr_t) (p : t)
  : option (herr_t * t) :=
  match objects f !! target with
  | Some (Group links) => H5Literate fuel f uninit links p
  | _ => Some (-1, p)
  end.

(** The links of the root group, which is what
    [H5Literate(file->getId(), ...)] iterates. *)
Definition root_links (f : H5File) : list (string * haddr_t) :=
  match objects f !! root f with
  | Some (Group links) => links
  | _ => []
  end.

(** One more unit of fuel than there are objects is always enough
    ([walk_returns]), and more fuel changes nothing
    ([H5Literate_fuel_mono]). *)
Definition walk_fuel (f : H5File) : nat := S (size (objects f)).

Definition walk (f : H5File) (uninit : H5O_info_t) : option (herr_t * t) :=
  H5Literate (walk_fuel f) f uninit (root_links f) (new (root f)).

End HDF5Iterate.

(** ** Value types and tensors of the host framework *)

Module tensorflow.

Inductive DataType :=
| DT_INVALID | DT_FLOAT | DT_DOUBLE | DT_INT32 | DT_UINT8 | DT_INT16
| DT_INT8 | DT_STRING | DT_COMPLEX64 | DT_INT64 | DT_BOOL | DT_UINT16
| DT_COMPLEX128 | DT_UINT32 | DT_UINT64.

#[global] Instance DataType_eq_dec : EqDecision DataType.
Proof. solve_decision. Defined.

(** [DataTypeSize], on the types [Init] produces. *)
Definition DataTypeSize (d : DataType) : Z :=
  match d with
  | DT_INVALID | DT_STRING => 0
  | DT_UINT8 | DT_INT8 | DT_BOOL => 1
  | DT_UINT16 | DT_INT16 => 2
  | DT_FLOAT | DT_INT32 | DT_UINT32 => 4
  | DT_DOUBLE | DT_INT64 | DT_UINT64 | DT_COMPLEX64 => 8
  | DT_COMPLEX128 => 16
  end.

End tensorflow.
Import tensorflow.

(** An output tensor.  A string tensor holds one byte string per element; a
    tensor of any other type holds the bytes [read] put there. *)
Record Tensor := mkTensor {
  tensor_shape : list Z;
  tensor_strings : list (list byte);
  tensor_bytes : list byte;
}.

Definition num_elements (shape : list Z) : nat :=
  Z.to_nat (foldr Z.mul 1 shape).

(** What [context->allocate_output(0, shape, value)] hands back. *)
Definition fresh_tensor (shape : list Z) : Tensor :=
  mkTensor shape (replicate (num_elements shape) []) [].

(** ** The file system of the host and [HDF5FileImage] *)

(** [local_file] is what [H5::H5File(filename, H5F_ACC_RDONLY)] opens
    ([None]: the constructor throws); [remote_file] is the content fetched
    through [GetFileSize], [NewRandomAccessFile] and [Read] ([None]: one of
    them did not return ok); [memory_image] is [H5LTopen_file_image]. *)
Record Env := mkEnv {
  local_file : string → option H5.H5File;
  remote_file : string → option H5.H5File;
  memory_image : string → H5.H5File;
}.

(** The constructor of [HDF5FileImage], lines 29-59; the result is
    [GetFile()], [None] for a null pointer. *)
Definition HDF5FileImage (env : Env) (filename optional_memory : string)
  : H5.Exception + option H5.H5File :=
  if decide (optional_memory ≠ "") then
    inr (Some (memory_image env optional_memory))
  else if negb (contains "://" filename) then
    match local_file env filename with
    | Some f => inr (Some f)
    | None => inl (H5.mkException H5.FileIException "H5Fopen failed")
    end
  else
    inr (remote_file env filename).

(** ** Control flow of a function that calls the library

    A statement either goes on with a value, leaves the function with a
    [return], throws, or has no defined behaviour. *)

Inductive Result (A : Type) :=
| Val (a : A)
| Return (s : Status)
| Throw (e : H5.Exception)
| Undef (f : Fault).
Arguments Val {A} a.
Arguments Return {A} s.
Arguments Throw {A} e.
Arguments Undef {A} f.

Definition rbind {A B} (m : Result A) (k : A → Result B) : Result B :=
  match m with
  | Val a => k a
  | Return s => Return s
  | Throw e => Throw e
  | Undef f => Undef f
  end.

Notation "x ←! m ; k" := (rbind m (λ x, k))
  (at level 100, m at next level, right associativity, only parsing).

Definition check {A} (c : Checked A) : Result A :=
  match c with
  | inl f => Undef f
  | inr a => Val a
  end.

Definition raise_or {A} (r : H5.Exception + A) : Result A :=
  match r with
  | inl e => Throw e
  | inr a => Val a
  end.

(** A getter of the library that throws. *)
Definition throwing {A} (c : H5.ExceptionClass) (msg : string)
  (r : option A) : Result A :=
  match r with
  | Some a => Val a
  | None => Throw (H5.mkException c msg)
  end.

(** A call on the data set [d] or on a handle obtained from it. *)
Definition call {A} (d : H5.DataSet) (c : H5.Call) (v : A) : Result A :=
  match H5.ds_throws d c with
  | Some msg => Throw (H5.mkException (H5.declared_class c) msg)
  | None => Val v
  end.

(** [for (i = lo; i < lo + n; i++)] around a body that may leave the
    function. *)
Fixpoint rfor {St : Type} (n i : nat) (body : nat → St → Result St) (s : St)
  : Result St :=
  match n with
  | O => Val s
  | S n' => s' ←! body i s; rfor n' (S i) body s'
  end.

(** What a caller of a kernel method observes. *)
Inductive Outcome :=
| Returned (s : Status)
| Propagated (e : H5.Exception)
| Undefined (f : Fault).

(** ** [HDF5ReadableResource] *)

Module HDF5ReadableResource.
Import H5.

Record t := mk {
  filename_ : string;
  file_image_ : option (option H5File);
  dtypes_ : list tensorflow.DataType;
  shapes_ : list (list Z);
  columns_index_ : gmap string Z;
  complex_names_ : string * string;
}.

(** The constructor, lines 121-122. *)
Definition new : t := mk "" None [] [] ∅ ("r", "i").

Definition unsupported_size (dataset : string) (size : Z) : Status :=
  InvalidArgument
    [MStr "unsupported data type size for "; MStr dataset; MStr ": ";
     MInt size].

(** Lines 154-180. *)
Definition classify_integer (dataset : string) (data_type : H5.DataType)
  : Result tensorflow.DataType :=
  let signed := sign_is_set (getSign data_type) in
  let size := getSize data_type in
  if decide (size = 1) then Val (if signed then DT_INT8 else DT_UINT8)
  else if decide (size = 2) then
    Val (if signed then DT_INT16 else DT_UINT16)
  else if decide (size = 4) then
    Val (if signed then DT_INT32 else DT_UINT32)
  else if decide (size = 8) then
    Val (if signed then DT_INT64 else DT_UINT64)
  else Return (unsupported_size dataset size).

(** Lines 181-194. *)
Definition classify_float (dataset : string) (data_type : H5.DataType)
  : Result tensorflow.DataType :=
  let size := getSize data_type in
  if decide (size = 4) then Val DT_FLOAT
  else if decide (size = 8) then Val DT_DOUBLE
  else Return (unsupported_size dataset size).

(** Lines 201-245. *)
Definition classify_compound (complex_names : string * string)
  (dataset : string) (data_type : H5.DataType)
  : Result tensorflow.DataType :=
  if decide (comp_getNmembers data_type ≠ 2) then
    Return (InvalidArgument
              [MStr "unsupported compound members for "; MStr dataset;
               MStr ": "; MInt (comp_getNmembers data_type)])
  else if decide (getMemberName data_type 0 ≠ complex_names.1
                  ∨ getMemberName data_type 1 ≠ complex_names.2) then
    Return (InvalidArgument
              [MStr "unsupported compound member names for "; MStr dataset;
               MStr ": "; MStr (getMemberName data_type 0); MStr ", ";
               MStr (getMemberName data_type 1)])
  else if decide (getMemberDataType data_type 0
                  ≠ getMemberDataType data_type 1) then
    Return (InvalidArgument
              [MStr "unsupported compound with different data type for ";
               MStr dataset; MStr ": ";
               MInt (class_tag (getMemberClass data_type 0)); MStr ", ";
               MInt (class_tag (getMemberClass data_type 1))])
  else if decide (getMemberClass data_type 0 ≠ H5T_FLOAT) then
    Return (InvalidArgument
              [MStr "unsupported compound with non-float data class for ";
               MStr dataset; MStr ": ";
               MInt (class_tag (getMemberClass data_type 0))])
  else
    let size := mt_size (getMemberDataType data_type 0) in
    if decide (size = 4) then Val DT_COMPLEX64
    else if decide (size = 8) then Val DT_COMPLEX128
    else
      Return (InvalidArgument
                [MStr "unsupported data type size for compound";
                 MStr dataset; MStr ": "; MInt size]).

(** Lines 247-271 (and 508-534): the test that an enumeration is the
    boolean one.  A getter that throws leaves the locals at 0 and skips
    the rest of its [try] block. *)
Definition enum_is_bool (data_type : H5.DataType) : bool :=
  if decide (getSize data_type = 1
             ∧ getSize data_type = DataTypeSize DT_BOOL
             ∧ enum_getNmembers data_type = 2) then
    let '(index_false, index_true) :=
      match getMemberIndex data_type "FALSE" with
      | None => (0, 0)
      | Some i =>
          match getMemberIndex data_type "TRUE" with
          | None => (i, 0)
          | Some j => (i, j)
          end
      end in
    let '(value_false, value_true) :=
      match getMemberValue data_type 0 with
      | None => (0, 0)
      | Some v =>
          match getMemberValue data_type 1 with
          | None => (v, 0)
          | Some w => (v, w)
          end
      end in
    bool_decide (index_false = 0 ∧ index_true = 1
                 ∧ value_false = 0 ∧ value_true = 1)
  else false.

(** [sizeof(int)] *)
Definition sizeof_int : Z := 4.

(** Lines 273-286 (and 536-550): the member names, in brackets.  In each
    iteration [getMemberValue(ii, &value)] writes [getSize()] bytes to the
    local [int value], and [nameOf(&value, 100)] looks the value up. *)
Definition enum_names (data_type : H5.DataType) : Result string :=
  names ←! rfor (length (enum_members data_type)) 0
             (λ ii names,
                if decide (getSize data_type <= sizeof_int) then
                  value ←! throwing DataTypeIException
                             "H5Tget_member_value failed"
                             (getMemberValue data_type ii);
                  name ←! throwing DataTypeIException
                            "H5Tenum_nameof failed"
                            (nameOf data_type value 100);
                  Val ((if decide (ii ≠ 0%nat) then names +:+ ", "
                        else names) +:+ name)
                else
                  Undef (OutOfRange "value" (Z.to_nat sizeof_int)
                           (Z.to_nat sizeof_int)))
             "[";
  Val (names +:+ "]").

Definition unsupported_enum (names : string) : Status :=
  InvalidArgument [MStr "unsupported data class for enum: "; MStr names].

(** Lines 272-289 (and 535-553): the refusal of an enumeration that is not
    the boolean one. *)
Definition refuse_enum {A} (data_type : H5.DataType) : Result A :=
  names ←! enum_names data_type;
  Return (unsupported_enum names).

(** Lines 153-296: the [switch] over the storage class. *)
Definition classify (complex_names : string * string) (dataset : string)
  (data_type : H5.DataType) : Result tensorflow.DataType :=
  match getClass data_type with
  | H5T_INTEGER => classify_integer dataset data_type
  | H5T_FLOAT => classify_float dataset data_type
  | H5T_STRING => Val DT_STRING
  | H5T_VLEN => Val DT_STRING
  | H5T_COMPOUND => classify_compound complex_names dataset data_type
  | H5T_ENUM =>
      if enum_is_bool data_type then Val DT_BOOL
      else refuse_enum data_type
  | c =>
      Return (InvalidArgument
                [MStr "unsupported data class for "; MStr dataset; MStr ": ";
                 MInt (class_tag c)])
  end.

Definition extent (s : DataSpace) : list Z :=
  match s with
  | ALL => []
  | Simple dims _ => dims
  end.

(** Lines 143-152 and 298-303 for one data set: what is appended to
    [dtypes_] and [shapes_].  [TensorShape] checks that no dimension is
    negative. *)
Definition Init_dataset (complex_names : string * string) (file : H5File)
  (dataset : string) : Result (tensorflow.DataType * list Z) :=
  data_set ←! raise_or (openDataSet file dataset);
  data_space ←! call data_set DataSet_getSpace
                  (Simple (ds_dims data_set) SelectAll);
  rank ←! call data_set DataSpace_getSimpleExtentNdims
            (length (extent data_space));
  dims ←! call data_set DataSpace_getSimpleExtentDims (extent data_space);
  data_type ←! call data_set DataSet_getDataType (ds_type data_set);
  dtype ←! classify complex_names dataset data_type;
  let shape_dims := Int.wrap_int64 <$> take rank dims in
  if decide (Forall (λ d, 0 <= d) shape_dims)
  then Val (dtype, shape_dims)
  else Undef (CheckFailed "TensorShape").

(** The loop of lines 142-304 over [data.datasets_], on the two vectors it
    appends to. *)
Fixpoint Init_datasets (complex_names : string * string) (file : H5File)
  (datasets : list string) (dtypes : list tensorflow.DataType)
  (shapes : list (list Z))
  : Result unit * (list tensorflow.DataType * list (list Z)) :=
  match datasets with
  | [] => (Val tt, (dtypes, shapes))
  | dataset :: rest =>
      match Init_dataset complex_names file dataset with
      | Val (dtype, shape) =>
          Init_datasets complex_names file rest
            (dtypes ++ [dtype]) (shapes ++ [shape])
      | Return status => (Return status, (dtypes, shapes))
      | Throw e => (Throw e, (dtypes, shapes))
      | Undef f => (Undef f, (dtypes, shapes))
      end
  end.

(** Lines 306-309. *)
Definition index_columns (datasets : list string) (index : gmap string Z)
  : gmap string Z :=
  foldl (λ m '(i, dataset), <[dataset := Z.of_nat i]> m) index
    (imap (λ i dataset, (i, dataset)) datasets).

(** The walk of lines 136-140.  The fuel of [HDF5Iterate.walk] always
    suffices ([walk_returns]), so the default is never used. *)
Definition Init_walk (file : H5File) (uninit : H5O_info_t)
  : herr_t * HDF5Iterate.t :=
  default (0, HDF5Iterate.new (root file)) (HDF5Iterate.walk file uninit).

(** [Init], lines 125-312.  [uninit] is the content of the uninitialised
    [iteminfo] of [Iterate]. *)
Definition Init (env : Env) (uninit : H5O_info_t) (r : t) (input : string)
  : Outcome * t :=
  let r := mk input (file_image_ r) (dtypes_ r) (shapes_ r)
              (columns_index_ r) (complex_names_ r) in
  match HDF5FileImage env (filename_ r) "" with
  | inl e => (Propagated e, r)
  | inr file_image =>
      let r := mk (filename_ r) (Some file_image) (dtypes_ r) (shapes_ r)
                  (columns_index_ r) (complex_names_ r) in
      match file_image with
      | None =>
          (Returned (InvalidArgument
                       [MStr "unable to open hdf5 file: ";
                        MStr (filename_ r)]), r)
      | Some file =>
          let '(err, data) := Init_walk file uninit in
          let '(result, (dtypes, shapes)) :=
            Init_datasets (complex_names_ r) file
              (HDF5Iterate.datasets_ data) (dtypes_ r) (shapes_ r) in
          let r := mk (filename_ r) (file_image_ r) dtypes shapes
                      (columns_index_ r) (complex_names_ r) in
          match result with
          | Val _ =>
              (Returned OkStatus,
               mk (filename_ r) (file_image_ r) (dtypes_ r) (shapes_ r)
                  (index_columns (HDF5Iterate.datasets_ data)
                     (columns_index_ r))
                  (complex_names_ r))
          | Return status => (Returned status, r)
          | Throw e => (Propagated e, r)
          | Undef f => (Undefined f, r)
          end
      end
  end.

(** [Components], lines 314-323; the order of an [unordered_map] is
    unspecified, here it is the order of [map_to_list]. *)
Definition Components (r : t) : Status * list string :=
  (OkStatus, (map_to_list (columns_index_ r)).*1).

Definition not_found (component : string) : Status :=
  InvalidArgument [MStr "dataset "; MStr component; MStr " not found"].

(** [Spec], lines 325-337. *)
Definition Spec (r : t) (component : string)
  : Result (list Z * tensorflow.DataType) :=
  match columns_index_ r !! component with
  | None => Return (not_found component)
  | Some column_index =>
      shape ←! check (match shapes_ r !! Z.to_nat column_index with
                      | Some x => inr x
                      | None => inl (OutOfRange "shapes_"
                                       (Z.to_nat column_index)
                                       (length (shapes_ r)))
                      end);
      dtype ←! check (match dtypes_ r !! Z.to_nat column_index with
                      | Some x => inr x
                      | None => inl (OutOfRange "dtypes_"
                                       (Z.to_nat column_index)
                                       (length (dtypes_ r)))
                      end);
      Val (shape, dtype)
  end.

(** *** [Read], lines 339-577 *)

(** The statements of the [try] block act on the output tensor
    [value]. *)
Definition Body (A : Type) : Type := Tensor → Result A * Tensor.

Definition bbind {A B} (m : Body A) (k : A → Body B) : Body B :=
  λ value,
    match m value with
    | (Val a, value') => k a value'
    | (Return s, value') => (Return s, value')
    | (Throw e, value') => (Throw e, value')
    | (Undef f, value') => (Undef f, value')
    end.

Notation "x ←: m ; k" := (bbind m (λ x, k))
  (at level 100, m at next level, right associativity, only parsing).

Definition lift {A} (r : Result A) : Body A := λ value, (r, value).

(** [value->NumElements()] *)
Definition value_NumElements : Body nat :=
  λ value, (Val (num_elements (tensor_shape value)), value).

(** [value->flat<tstring>()(i) = s] *)
Definition set_string (i : nat) (s : list byte) : Body unit :=
  λ value,
    if decide (i < length (tensor_strings value))%nat
    then (Val tt, mkTensor (tensor_shape value)
                    (<[i := s]> (tensor_strings value))
                    (tensor_bytes value))
    else (Undef (OutOfRange "value" i (length (tensor_strings value))),
          value).

(** The number of elements selected in a file space. *)
Definition selected (data_set : DataSet) (data_space : DataSpace) : Z :=
  match data_space with
  | ALL => foldr Z.mul 1 (ds_dims data_set)
  | Simple dims SelectAll => foldr Z.mul 1 dims
  | Simple _ (SelectHyperslab count _) => foldr Z.mul 1 count
  end.

(** [data_set.read(value->flat<T>().data(), data_type, memory_space,
    data_space)]: the library writes [bytes] to the buffer of [value],
    which holds [value->NumElements()] elements.  With the memory space of
    line 384 it writes as many elements as the requested shape has, and
    [value] was allocated for that shape.  With [H5::DataSpace::ALL] it
    writes every element selected in the file space, whatever the size of
    the buffer it was given. *)
Definition set_bytes (data_set : DataSet)
  (memory_space data_space : DataSpace) (bytes : list byte) : Body unit :=
  λ value,
    let capacity := num_elements (tensor_shape value) in
    match memory_space with
    | ALL =>
        if decide (selected data_set data_space <= Z.of_nat capacity)
        then (Val tt,
              mkTensor (tensor_shape value) (tensor_strings value) bytes)
        else (Undef (OutOfRange "value" capacity capacity), value)
    | Simple _ _ =>
        (Val tt, mkTensor (tensor_shape value) (tensor_strings value) bytes)
    end.

(** [for (int64 i = 0; i < n; i++) body] *)
Fixpoint bfor (n i : nat) (body : nat → Body unit) : Body unit :=
  match n with
  | O => lift (Val tt)
  | S n' => _ ←: body i; bfor n' (S i) body
  end.

(** Lines 374-382, one iteration, on [dims] and [dims_start].  The
    comparison is made in [hsize_t], after the [int64] sum. *)
Definition bounds_step (start shape : list Z) (i : nat)
  (dd : list Z * list Z) : Result (list Z * list Z) :=
  let '(dims, dims_start) := dd in
  start_i ←! check (vec_get "start" start i);
  dims_i ←! check (vec_get "dims" dims i);
  if decide (Int.to_hsize start_i > dims_i
             ∨ Int.to_hsize (Int.add_int64 start_i (dim_size shape i))
               > dims_i) then
    Return (InvalidArgument
              [MStr "dimension ["; MInt (Z.of_nat i);
               MStr "] out of boundary: start="; MInt start_i;
               MStr ", slice="; MInt (dim_size shape i);
               MStr ", boundary="; MInt dims_i])
  else
    dims_start ←! check (vec_set "dims_start" dims_start i
                           (Int.to_hsize start_i));
    dims ←! check (vec_set "dims" dims i
                     (Int.to_hsize (dim_size shape i)));
    Val (dims, dims_start).

(** Lines 362-388: the memory space and the selection in the file
    space. *)
Definition select (data_set : DataSet) (start shape : list Z)
  (data_space : DataSpace) : Result (DataSpace * DataSpace) :=
  if decide (length shape ≠ 0%nat) then
    rank ←! call data_set DataSpace_getSimpleExtentNdims
              (length (extent data_space));
    if decide (rank ≠ length shape) then
      Return (InvalidArgument
                [MStr "rank does not match: "; MInt (Z.of_nat rank);
                 MStr " vs. "; MInt (Z.of_nat (length shape))])
    else
      dims ←! call data_set DataSpace_getSimpleExtentDims
                (take rank (extent data_space));
      dd ←! rfor rank 0 (bounds_step start shape)
              (dims, replicate rank 0);
      let '(dims, dims_start) := dd in
      memory_space ←! call data_set DataSpace_create
                        (Simple dims SelectAll);
      data_space ←! call data_set DataSpace_selectHyperslab
                      (Simple (extent data_space)
                         (SelectHyperslab dims dims_start));
      Val (memory_space, data_space)
  else Val (ALL, data_space).

(** [std::string(p)]: the bytes before the first zero byte. *)
Fixpoint c_string (block : list byte) : list byte :=
  match block with
  | [] => []
  | b :: block' => if Byte.eqb b x00 then [] else b :: c_string block'
  end.

(** [std::string(p, len)] *)
Definition string_n (block : list byte) (len : Z) : list byte :=
  take (Z.to_nat len) block.

(** [p[k]] for [p = buffer + size * i]; a byte the library did not write
    reads as zero here. *)
Definition field_at (buffer : list byte) (size i k : nat) : byte :=
  default x00 (buffer !! (size * i + k)%nat).

(** Lines 464-467: [while (len < size && p[len] != 0) len++], with [n]
    the distance from [len] to [size]. *)
Fixpoint nullterm_scan (ptr : nat → byte) (n len : nat) : nat :=
  match n with
  | O => len
  | S n' =>
      if Byte.eqb (ptr len) x00 then len
      else nullterm_scan ptr n' (S len)
  end.

(** Lines 475-478: [while (len > 0 && p[len - 1] == 0) len--]. *)
Fixpoint nullpad_scan (ptr : nat → byte) (len : nat) : nat :=
  match len with
  | O => O
  | S len' =>
      if Byte.eqb (ptr len') x00 then nullpad_scan ptr len' else len
  end.

Definition string_of (ptr : nat → byte) (len : nat) : list byte :=
  ptr <$> seq 0 len.

Definition decode_nullterm (buffer : list byte) (size i : nat) : list byte :=
  let ptr := field_at buffer size i in
  string_of ptr (nullterm_scan ptr size 0).

Definition decode_nullpad (buffer : list byte) (size i : nat) : list byte :=
  let ptr := field_at buffer size i in
  string_of ptr (nullpad_scan ptr size).

(** [buffer.get()[i]] of an array the library filled. *)
Definition buffer_at {A} (buffer : list A) (i : nat) : Result A :=
  match buffer !! i with
  | Some x => Val x
  | None => Undef (OutOfRange "buffer" i (length buffer))
  end.

(** Lines 440-503.  The arrays of lines 444, 455 and 491 have room for
    [value->NumElements()] entries; what the library delivers beyond them
    is not looked at here, and an entry it did not deliver is outside the
    array ([buffer_at]) or reads as zero ([field_at]). *)
Definition read_string (data_set : DataSet) (data_type : H5.DataType)
  (memory_space data_space : DataSpace) : Body unit :=
  match getClass data_type with
  | H5T_STRING =>
      str_type ←: lift (call data_set DataSet_getStrType (ds_type data_set));
      if isVariableStr str_type then
        total ←: value_NumElements;
        str_type ←: lift (call data_set DataSet_getStrType
                            (ds_type data_set));
        buffer ←: lift (call data_set DataSet_read
                          (ds_pointers data_set memory_space data_space));
        _ ←: bfor total 0
               (λ i, ptr ←: lift (buffer_at buffer i);
                     set_string i (c_string (ds_heap data_set ptr)));
        lift (call data_set DataSet_vlenReclaim tt)
      else
        total ←: value_NumElements;
        buffer ←: lift (call data_set DataSet_read
                          (ds_bytes data_set memory_space data_space));
        let size := Z.to_nat (getSize data_type) in
        match getStrpad data_type with
        | H5T_STR_NULLTERM =>
            bfor total 0 (λ i, set_string i (decode_nullterm buffer size i))
        | H5T_STR_NULLPAD =>
            bfor total 0 (λ i, set_string i (decode_nullpad buffer size i))
        | H5T_STR_SPACEPAD =>
            lift (Return (InvalidArgument
                            [MStr "string pad type not supported: ";
                             MInt (strpad_tag (getStrpad data_type))]))
        | H5T_STR_RESERVED _ => lift (Val tt)
        end
  | H5T_VLEN =>
      total ←: value_NumElements;
      buffer ←: lift (call data_set DataSet_read
                        (ds_hvl data_set memory_space data_space));
      _ ←: bfor total 0
             (λ i, h ←: lift (buffer_at buffer i);
                   set_string i (string_n (ds_heap data_set (p h)) (len h)));
      lift (call data_set DataSet_vlenReclaim tt)
  | c =>
      lift (Return (Unimplemented
                      [MStr "data type class for string not supported: ";
                       MInt (class_tag c)]))
  end.

(** Lines 391-438 and 555-556. *)
Definition read_numeric (data_set : DataSet) (data_type : H5.DataType)
  (memory_space data_space : DataSpace) : Body unit :=
  bytes ←: lift (call data_set DataSet_read
                   (ds_bytes data_set memory_space data_space));
  set_bytes data_set memory_space data_space bytes.

(** Lines 505-563. *)
Definition read_bool (data_set : DataSet) (data_type : H5.DataType)
  (memory_space data_space : DataSpace) : Body unit :=
  match getClass data_type with
  | H5T_ENUM =>
      if enum_is_bool data_type
      then read_numeric data_set data_type memory_space data_space
      else lift (refuse_enum data_type)
  | c =>
      lift (Return (Unimplemented
                      [MStr "data type class for bool not supported: ";
                       MInt (class_tag c)]))
  end.

(** Lines 390-567: the [switch] over [dtypes_[column_index]]. *)
Definition decode (dtype : tensorflow.DataType) (data_set : DataSet)
  (data_type : H5.DataType) (memory_space data_space : DataSpace)
  : Body unit :=
  match dtype with
  | DT_UINT8 | DT_UINT16 | DT_UINT32 | DT_UINT64
  | DT_INT8 | DT_INT16 | DT_INT32 | DT_INT64
  | DT_FLOAT | DT_DOUBLE | DT_COMPLEX64 | DT_COMPLEX128 =>
      read_numeric data_set data_type memory_space data_space
  | DT_STRING => read_string data_set data_type memory_space data_space
  | DT_BOOL => read_bool data_set data_type memory_space data_space
  | DT_INVALID =>
      lift (Return (Unimplemented
                      [MStr "data type class not supported yet: ";
                       MInt (class_tag (getClass data_type))]))
  end.

(** Lines 358-567: the [try] block. *)
Definition Read_try (r : t) (file : H5File) (column_index : Z)
  (component : string) (start shape : list Z) : Body unit :=
  data_set ←: lift (raise_or (openDataSet file component));
  data_type ←: lift (call data_set DataSet_getDataType (ds_type data_set));
  data_space ←: lift (call data_set DataSet_getSpace
                        (Simple (ds_dims data_set) SelectAll));
  spaces ←: lift (select data_set start shape data_space);
  let '(memory_space, data_space) := spaces in
  dtype ←: lift (check (match dtypes_ r !! Z.to_nat column_index with
                        | Some x => inr x
                        | None => inl (OutOfRange "dtypes_"
                                         (Z.to_nat column_index)
                                         (length (dtypes_ r)))
                        end));
  decode dtype data_set data_type memory_space data_space.

(** Lines 568-576: the two handlers, and the [return] after them. *)
Definition Read_catch (r : t) (result : Result unit) : Outcome :=
  match result with
  | Val _ => Returned OkStatus
  | Return status => Returned status
  | Throw e =>
      match exc_class e with
      | FileIException =>
          Returned (InvalidArgument
                      [MStr "unable to open dataset file ";
                       MStr (filename_ r); MStr ": ";
                       MStr (getCDetailMsg e)])
      | DataSetIException =>
          Returned (InvalidArgument
                      [MStr "unable to process dataset file";
                       MStr (filename_ r); MStr ": ";
                       MStr (getCDetailMsg e)])
      | _ => Propagated e
      end
  | Undef f => Undefined f
  end.

(** [Read]: the outcome and the tensor obtained from [allocate_func], if
    it was called with success. *)
Definition Read (r : t) (component : string) (start shape : list Z)
  (allocate_func : list Z → Status + Tensor) : Outcome * option Tensor :=
  match columns_index_ r !! component with
  | None => (Returned (not_found component), None)
  | Some column_index =>
      match allocate_func shape with
      | inl status => (Returned status, None)
      | inr value =>
          match file_image_ r with
          | Some (Some file) =>
              let '(result, value) :=
                Read_try r file column_index component start shape value in
              (Read_catch r result, Some value)
          | _ => (Undefined (CheckFailed "file"), Some value)
          end
      end
  end.

End HDF5ReadableResource.

(** ** [HDF5ReadableInfoOp::ResourceKernel] *)

Module HDF5ReadableInfoOp.
Import HDF5ReadableResource.

(** [v[i]] and [v[i] = x] on a vector or on the flat view of a tensor,
    for [i < size()]. *)
Definition fetch {A} (name : string) (v : list A) (i : nat) : Checked A :=
  match v !! i with
  | Some x => inr x
  | None => inl (OutOfRange name i (length v))
  end.

Definition store {A} (name : string) (v : list A) (i : nat) (x : A)
  : Checked (list A) :=
  if decide (i < length v)%nat then inr (<[i := x]> v)
  else inl (OutOfRange name i (length v)).

(** The three outputs.  A string tensor is allocated with empty strings;
    an [int64] tensor is allocated without content, and a cell holds
    [None] until it is written.  [shape_tensor] is the
    [components.size() x rank] matrix in row-major order; [dtype_tensor]
    holds the enumerators it was given. *)
Record Outputs := mkOutputs {
  component_tensor : list string;
  shape_tensor : list (option Z);
  shape_tensor_dims : nat * nat;
  dtype_tensor : list (option tensorflow.DataType);
}.

(** Lines 614-619, one iteration: [Spec] writes into [shapes[i]] and
    [dtypes[i]], and [rank] becomes the largest rank so far. *)
Definition spec_step (resource : t) (components : list string) (i : nat)
  (st : list (list Z) * list tensorflow.DataType * nat)
  : Result (list (list Z) * list tensorflow.DataType * nat) :=
  let '(shapes, dtypes, rank) := st in
  component ←! check (fetch "components" components i);
  sd ←! Spec resource component;
  shapes ←! check (store "shapes" shapes i sd.1);
  dtypes ←! check (store "dtypes" dtypes i sd.2);
  Val (shapes, dtypes,
       if decide (rank < length sd.1)%nat then length sd.1 else rank).

(** [shape_tensor->matrix<int64>()(i, j) = x] *)
Definition matrix_set (m : list (option Z)) (dims : nat * nat) (i j : nat)
  (x : Z) : Checked (list (option Z)) :=
  if decide (i < dims.1 ∧ j < dims.2)%nat
  then store "shape_tensor" m (i * dims.2 + j)%nat (Some x)
  else inl (OutOfRange "shape_tensor" j dims.2).

(** Lines 634-643, one iteration. *)
Definition fill_step (components : list string) (shapes : list (list Z))
  (dtypes : list tensorflow.DataType) (rank : nat) (i : nat) (out : Outputs)
  : Checked Outputs :=
  component ←? fetch "components" components i;
  cs ←? store "component_tensor" (component_tensor out) i component;
  shape ←? fetch "shapes" shapes i;
  m ←? for_range 0 (length shape)
         (λ j m, matrix_set m (shape_tensor_dims out) i j (dim_size shape j))
         (shape_tensor out);
  m ←? for_range (length shape) rank
         (λ j m, matrix_set m (shape_tensor_dims out) i j (-1)) m;
  dtype ←? fetch "dtypes" dtypes i;
  ds ←? store "dtype_tensor" (dtype_tensor out) i (Some dtype);
  inr (mkOutputs cs m (shape_tensor_dims out) ds).

(** [ResourceKernel], lines 602-645.  The three calls of
    [allocate_output] are taken to succeed, as the one of the read kernel
    is. *)
Definition ResourceKernel (resource : t) : Outcome * option Outputs :=
  let '(status, components) := Components resource in
  if negb (ok status) then (Returned status, None)
  else
    let n := length components in
    match rfor n 0 (spec_step resource components)
            (replicate n [], replicate n tensorflow.DT_INVALID, 0%nat) with
    | Return status => (Returned status, None)
    | Throw e => (Propagated e, None)
    | Undef f => (Undefined f, None)
    | Val (shapes, dtypes, rank) =>
        let out := mkOutputs (replicate n "") (replicate (n * rank) None)
                     (n, rank) (replicate n None) in
        match for_range 0 n (fill_step components shapes dtypes rank) out with
        | inl f => (Undefined f, None)
        | inr out => (Returned OkStatus, Some out)
        end
    end.

End HDF5ReadableInfoOp.

(** ** Request normalisation of [HDF5ReadableReadOp::ResourceKernel] *)

Module HDF5ReadableReadOp.

(** Lines 673-679: [start] is sized by the rank of [shape]. *)
Definition fill_start (shape : list Z) (start_tensor : Int64Tensor)
  : Checked (list Z) :=
  let start := replicate (length shape) 0 in
  start ←? for_range 0 (NumElements start_tensor)
             (λ i start, vec_set "start" start i (flat start_tensor i)) start;
  for_range (NumElements start_tensor) (length shape)
    (λ i start, vec_set "start" start i 0) start.

(** Lines 683-689: [stop] is sized by [stop_tensor->shape().dims()]. *)
Definition fill_stop (shape : list Z) (stop_tensor : Int64Tensor)
  : Checked (list Z) :=
  let stop := replicate (Tensor_dims stop_tensor) 0 in
  stop ←? for_range 0 (NumElements stop_tensor)
            (λ i stop, vec_set "stop" stop i (flat stop_tensor i)) stop;
  for_range (NumElements stop_tensor) (length shape)
    (λ i stop, vec_set "stop" stop i (dim_size shape i)) stop.

(** Lines 691-698, one iteration. *)
Definition clamp_step (shape : list Z) (i : nat) (ss : list Z * list Z)
  : Checked (list Z * list Z) :=
  let '(start, stop) := ss in
  stop_i ←? vec_get "stop" stop i;
  stop ←? (if decide (stop_i < 0 ∨ stop_i > dim_size shape i)
           then vec_set "stop" stop i (dim_size shape i)
           else inr stop);
  start_i ←? vec_get "start" start i;
  stop_i ←? vec_get "stop" stop i;
  start ←? (if decide (start_i > stop_i)
            then vec_set "start" start i stop_i
            else inr start);
  inr (start, stop).

Definition clamp (shape start stop : list Z) : Checked (list Z * list Z) :=
  for_range 0 (length shape) (clamp_step shape) (start, stop).

(** Lines 699-701. *)
Definition reshape (shape start stop : list Z) : Checked (list Z) :=
  for_range 0 (length shape)
    (λ i shape,
       stop_i ←? vec_get "stop" stop i;
       start_i ←? vec_get "start" start i;
       set_dim shape i (Int.sub_int64 stop_i start_i))
    shape.

(** Lines 669-701: from the three input tensors to the [start] vector and
    the [shape] handed to [Read].  Line 669 builds [shape] from the
    elements of the [shape] input. *)
Definition normalize (shape_tensor start_tensor stop_tensor : Int64Tensor)
  : Checked (list Z * list Z) :=
  shape ←? TensorShape (ts_flat shape_tensor);
  start ←? fill_start shape start_tensor;
  stop ←? fill_stop shape stop_tensor;
  ss ←? clamp shape start stop;
  let '(start, stop) := ss in
  shape ←? reshape shape start stop;
  inr (start, shape).

(** [ResourceKernel], lines 661-710. *)
Definition ResourceKernel (resource : HDF5ReadableResource.t)
  (component : string) (shape_tensor start_tensor stop_tensor : Int64Tensor)
  : Outcome * option Tensor :=
  match normalize shape_tensor start_tensor stop_tensor with
  | inl fault => (Undefined fault, None)
  | inr (start, shape) =>
      HDF5ReadableResource.Read resource component start shape
        (λ shape, inr (fresh_tensor shape))
  end.

End HDF5ReadableReadOp.

(** ** Sample containers used by the closed lemmas below *)

Module Samples.
Import H5.

Definition quiet : Call → option string := λ _, None.

Definition int32 : H5.DataType :=
  mkDataType H5T_INTEGER 4 H5T_SGN_2 false H5T_STR_NULLTERM [] [].

Definition no_bytes : DataSpace → DataSpace → list byte := λ _ _, [].
Definition no_pointers : DataSpace → DataSpace → list pointer := λ _ _, [].
Definition no_hvl : DataSpace → DataSpace → list hvl_t := λ _ _, [].
Definition no_heap : pointer → list byte := λ _, [].

(** A data set of ten 32-bit integers whose content is not looked at. *)
Definition ten_ints : DataSet :=
  mkDataSet int32 [10] no_bytes no_pointers no_hvl no_heap quiet.

Definition uninit : H5O_info_t := mkInfo H5O_TYPE_UNKNOWN 0.

Definition local_only (name : string) (f : H5File) : Env :=
  mkEnv (λ n, if decide (n = name) then Some f else None)
        (λ _, None) (λ _, f).

(** The root group holds the data set ["x"]. *)
Definition one_dataset : H5File :=
  mkH5File 1 (list_to_map [(1, Group [("x", 2)]);
                           (2, DataSetObject ten_ints)]).

Definition opened (f : H5File) : HDF5ReadableResource.t :=
  (HDF5ReadableResource.Init (local_only "f.h5" f) uninit
     HDF5ReadableResource.new "f.h5").2.

(** Two hard links ["a"] and ["b"] to one data set. *)
Definition two_links : H5File :=
  mkH5File 1 (list_to_map [(1, Group [("a", 2); ("b", 2)]);
                           (2, DataSetObject ten_ints)]).

(** A link ["b"] that does not resolve, followed by the data set
    ["a"]. *)
Definition dangling_first : H5File :=
  mkH5File 1 (list_to_map [(1, Group [("b", 7); ("a", 2)]);
                           (2, DataSetObject ten_ints)]).

Definition file_of (d : DataSet) : H5File :=
  mkH5File 1 (list_to_map [(1, Group [("x", 2)]); (2, DataSetObject d)]).

(** Ten integers behind a library whose [selectHyperslab] fails. *)
Definition select_fails : DataSet :=
  mkDataSet int32 [10] no_bytes no_pointers no_hvl no_heap
    (λ c, match c with
          | DataSpace_selectHyperslab => Some "H5Sselect_hyperslab failed"
          | _ => None
          end).

(** Ten integers behind a library whose [read] fails. *)
Definition read_fails : DataSet :=
  mkDataSet int32 [10] no_bytes no_pointers no_hvl no_heap
    (λ c, match c with
          | DataSet_read => Some "H5Dread failed"
          | _ => None
          end).

(** Three fixed-length strings of width 5. *)
Definition fixed_string (pad : H5T_str_t) : H5.DataType :=
  mkDataType H5T_STRING 5 H5T_SGN_NONE false pad [] [].

Definition three_fields : list byte :=
  [x61; x62; x00; x00; x00;       (* "ab\0\0\0" *)
   x61; x00; x62; x00; x00;       (* "a\0b\0\0" *)
   x68; x65; x6c; x6c; x6f].      (* "hello" *)

Definition fixed_strings (pad : H5T_str_t) : DataSet :=
  mkDataSet (fixed_string pad) [3] (λ _ _, three_fields) no_pointers no_hvl
    no_heap quiet.

(** A scalar variable-length string whose stored bytes are ["a\0b"]; the
    library hands out a pointer to these bytes and a terminator. *)
Definition variable_string : H5.DataType :=
  mkDataType H5T_STRING 8 H5T_SGN_NONE true H5T_STR_NULLTERM [] [].

Definition embedded_zero : DataSet :=
  mkDataSet variable_string [] no_bytes (λ _ _, [100]) no_hvl
    (λ ptr, if decide (ptr = 100) then [x61; x00; x62; x00] else [])
    quiet.

(** The same bytes as one [hvl_t] record of length 3. *)
Definition vlen_bytes : H5.DataType :=
  mkDataType H5T_VLEN 16 H5T_SGN_NONE false H5T_STR_NULLTERM [] [].

Definition embedded_zero_vlen : DataSet :=
  mkDataSet vlen_bytes [] no_bytes no_pointers (λ _ _, [mkHvl 3 100])
    (λ ptr, if decide (ptr = 100) then [x61; x00; x62] else [])
    quiet.

Definition float64 : H5.DataType :=
  mkDataType H5T_FLOAT 8 H5T_SGN_NONE false H5T_STR_NULLTERM [] [].

(** An integer type of three bytes. *)
Definition int24 : H5.DataType :=
  mkDataType H5T_INTEGER 3 H5T_SGN_2 false H5T_STR_NULLTERM [] [].

(** A resource whose index knows ["/x"] while its container has no such
    data set any more. *)
Definition no_objects : H5File := mkH5File 1 (list_to_map [(1, Group [])]).

Definition stale : HDF5ReadableResource.t :=
  HDF5ReadableResource.mk "f.h5" (Some (Some no_objects)) [DT_INT32] [[10]]
    {[ "/x" := 0 ]} ("r", "i").



Definition strings_resource (pad : H5T_str_t) : HDF5ReadableResource.t :=
  opened (file_of (fixed_strings pad)).

Definition vlen_resource : HDF5ReadableResource.t :=
  opened (file_of embedded_zero_vlen).

End Samples.

(** ** More sample containers *)

Module Fixtures.
Import H5.

(** A data set of 2 x 3 doubles. *)
Definition matrix : DataSet :=
  mkDataSet Samples.float64 [2; 3] Samples.no_bytes Samples.no_pointers
    Samples.no_hvl Samples.no_heap Samples.quiet.

(** The root holds the group ["g"] and the data set ["x"]; ["g"] holds the
    data set ["y"] and a link back to the root. *)
Definition nested : H5File :=
  mkH5File 1 (list_to_map [(1, Group [("g", 2); ("x", 3)]);
                           (2, Group [("y", 4); ("up", 1)]);
                           (3, DataSetObject Samples.ten_ints);
                           (4, DataSetObject matrix)]).


(** Two data sets of equal content under the names ["a"] and ["b"]. *)
Definition twins : H5File :=
  mkH5File 1 (list_to_map [(1, Group [("a", 2); ("b", 3)]);
                           (2, DataSetObject Samples.ten_ints);
                           (3, DataSetObject Samples.ten_ints)]).

(** Ten integers of three bytes each. *)
Definition odd_ints : DataSet :=
  mkDataSet Samples.int24 [10] Samples.no_bytes Samples.no_pointers
    Samples.no_hvl Samples.no_heap Samples.quiet.

(** Three data sets, the second of which has no value type. *)
Definition mixed : H5File :=
  mkH5File 1 (list_to_map [(1, Group [("a", 2); ("b", 3); ("c", 4)]);
                           (2, DataSetObject Samples.ten_ints);
                           (3, DataSetObject odd_ints);
                           (4, DataSetObject Samples.ten_ints)]).

(** A host on which the only container is [f], under the name
    ["f.h5"]. *)
Definition host (f : H5File) : Env := Samples.local_only "f.h5" f.

(** The two-member enumeration that stands for booleans. *)
Definition boolean : H5.DataType :=
  mkDataType H5T_ENUM 1 H5T_SGN_2 false H5T_STR_NULLTERM []
    [("FALSE", 0); ("TRUE", 1)].

(** One 32-bit integer, the number 42, in a data set of rank 0. *)
Definition one_int : DataSet :=
  mkDataSet Samples.int32 [] (λ _ _, [x2a; x00; x00; x00])
    Samples.no_pointers Samples.no_hvl Samples.no_heap Samples.quiet.

(** An unsigned integer type of two bytes. *)
Definition uint16 : H5.DataType :=
  mkDataType H5T_INTEGER 2 H5T_SGN_NONE false H5T_STR_NULLTERM [] [].







(** Enumerations that do not stand for booleans: one of a single byte and
    one of eight bytes. *)
Definition colours : H5.DataType :=
  mkDataType H5T_ENUM 1 H5T_SGN_2 false H5T_STR_NULLTERM []
    [("RED", 0); ("GREEN", 1); ("BLUE", 2)].

Definition wide_switch : H5.DataType :=
  mkDataType H5T_ENUM 8 H5T_SGN_2 false H5T_STR_NULLTERM []
    [("OFF", 0); ("ON", 1)].

End Fixtures.

(** ** Notions used in the statements *)

Section walk_notions.
Import H5 HDF5Iterate.

(** The objects of the file that have no entry in [groups_] yet. *)
Definition unseen (f : H5File) (p : t) : gset haddr_t :=
  dom (objects f) ∖ dom (groups_ p).

Fixpoint slash_free (s : string) : Prop :=
  match s with
  | EmptyString => True
  | String c s' => c ≠ "/"%char ∧ slash_free s'
  end.

(** Link names of a group are pairwise different and contain no ["/"]. *)
Definition links_ok (links : list (string * haddr_t)) : Prop :=
  NoDup links.*1 ∧ Forall slash_free links.*1.

Definition file_ok (f : H5File) : Prop :=
  ∀ a links, objects f !! a = Some (Group links) → links_ok links.

(** A path is emitted when it is in the output or is the path of a
    group. *)
Definition emitted (p : t) (s : string) : Prop :=
  s ∈ datasets_ p ∨ ∃ a, groups_ p !! a = Some s.

Definition Inv (p : t) : Prop :=
  NoDup (datasets_ p)
  ∧ (∀ a b s, groups_ p !! a = Some s → groups_ p !! b = Some s → a = b)
  ∧ (∀ s a, s ∈ datasets_ p → groups_ p !! a ≠ Some s)
  ∧ (∀ s, emitted p s →
          s = "" ∨ ∃ a q n, groups_ p !! a = Some q ∧ slash_free n
                            ∧ s = q +:+ "/" +:+ n).



End walk_notions.

Section read_notions.
Import H5 HDF5ReadableResource.

(** The value [stop[i]] is snapped to, and the value [start[i]] is pulled
    down to. *)
Definition snap (dim stop_i : Z) : Z :=
  if decide (stop_i < 0 ∨ stop_i > dim) then dim else stop_i.
Definition pull (start_i stop_i : Z) : Z :=
  if decide (start_i > stop_i) then stop_i else start_i.

Definition bulk_type (dtype : tensorflow.DataType) : Prop :=
  dtype ∈ [DT_UINT8; DT_UINT16; DT_UINT32; DT_UINT64; DT_INT8; DT_INT16;
           DT_INT32; DT_INT64; DT_FLOAT; DT_DOUBLE; DT_COMPLEX64;
           DT_COMPLEX128].

(** The test of line 375, as the compiler evaluates it. *)
Definition out_of_boundary (start_i size_i dims_i : Z) : Prop :=
  Int.to_hsize start_i > dims_i
  ∨ Int.to_hsize (Int.add_int64 start_i size_i) > dims_i.

Definition boundary_error (i : nat) (start_i size_i dims_i : Z) : Status :=
  InvalidArgument
    [MStr "dimension ["; MInt (Z.of_nat i);
     MStr "] out of boundary: start="; MInt start_i;
     MStr ", slice="; MInt size_i; MStr ", boundary="; MInt dims_i].

(** What is left of [Read] once the data set is open: the selection, the
    look-up of the value type and the decoding. *)
Definition after_open (r : t) (column_index : Z) (d : DataSet)
  (start shape : list Z) : Body unit :=
  spaces ←: lift (select d start shape (Simple (ds_dims d) SelectAll));
  let '(memory_space, data_space) := spaces in
  dtype ←: lift (check (match dtypes_ r !! Z.to_nat column_index with
                        | Some x => inr x
                        | None => inl (OutOfRange "dtypes_"
                                         (Z.to_nat column_index)
                                         (length (dtypes_ r)))
                        end));
  decode dtype d (ds_type d) memory_space data_space.

Definition rank_error (rank dims : nat) : Status :=
  InvalidArgument
    [MStr "rank does not match: "; MInt (Z.of_nat rank); MStr " vs. ";
     MInt (Z.of_nat dims)].


(** Element [i] of a buffer of fields of [size] bytes. *)
Definition field (buffer : list byte) (size i : nat) : list byte :=
  take size (drop (size * i) buffer).

(** [out] is [fld] up to its first zero byte, or all of [fld] when it has
    none. *)
Definition up_to_first_zero (fld out : list byte) : Prop :=
  ∃ rest, fld = (out ++ rest)%list
          ∧ Forall (λ b, b ≠ x00) out
          ∧ (rest = [] ∨ head rest = Some x00).

(** [out] is [fld] without its trailing zero bytes. *)
Definition trailing_zeros_trimmed (fld out : list byte) : Prop :=
  ∃ k, fld = (out ++ replicate k x00)%list ∧ last out ≠ Some x00.

Definition open_error (r : t) (e : Exception) : Status :=
  InvalidArgument
    [MStr "unable to open dataset file "; MStr (filename_ r); MStr ": ";
     MStr (getCDetailMsg e)].

Definition process_error (r : t) (e : Exception) : Status :=
  InvalidArgument
    [MStr "unable to process dataset file"; MStr (filename_ r); MStr ": ";
     MStr (getCDetailMsg e)].

(** A statement that leaves the shape of the output tensor alone. *)
Definition keeps_shape {A} (m : Body A) : Prop :=
  ∀ value, tensor_shape (m value).2 = tensor_shape value.

(** What the read kernel passes as [allocate_func]. *)
Definition allocate_output (shape : list Z) : Status + Tensor :=
  inr (fresh_tensor shape).

End read_notions.

(** ** Notions about the object graph *)

Section graph_notions.
Import H5 HDF5Iterate.

(** Every link of every group leads to an object. *)
Definition links_resolve (f : H5File) : Prop :=
  ∀ a links name target,
    objects f !! a = Some (Group links) → (name, target) ∈ links →
    is_Some (objects f !! target).

(** A container as the library writes it: the root is a group, every link
    resolves, and the link names of a group are pairwise different, not
    empty and free of ["/"]. *)
Definition well_formed (f : H5File) : Prop :=
  (∃ links, objects f !! root f = Some (Group links))
  ∧ links_resolve f
  ∧ file_ok f
  ∧ (∀ a links name target,
       objects f !! a = Some (Group links) → (name, target) ∈ links →
       name ≠ "").

(** The path recorded for a group leads to that group. *)
Definition paths_lead (f : H5File) (p : t) : Prop :=
  ∀ a q, groups_ p !! a = Some q →
         resolve f (root f) (path_components q "") = Some a.

(** Every listed path opens a data set. *)
Definition paths_open (f : H5File) (p : t) : Prop :=
  ∀ s, s ∈ datasets_ p → ∃ d, openDataSet f s = inr d.

(** The link [n] of the group [a] to the object [b] has been dealt with:
    a group has an entry in [groups_], a data set is listed under the path
    of [a]. *)
Definition handled (f : H5File) (p : t) (a : haddr_t) (n : string)
  (b : haddr_t) : Prop :=
  match objects f !! b with
  | Some (Group _) => is_Some (groups_ p !! b)
  | Some (DataSetObject _) =>
      ∃ q, groups_ p !! a = Some q ∧ q +:+ "/" +:+ n ∈ datasets_ p
  | _ => True
  end.

(** All links of the group [a] have been dealt with. *)
Definition closed (f : H5File) (p : t) (a : haddr_t) : Prop :=
  ∀ links n b, objects f !! a = Some (Group links) → (n, b) ∈ links →
               handled f p a n b.

(** All recorded groups are closed, apart from those in [open], which the
    walk is still iterating. *)
Definition closed_except (f : H5File) (p : t) (open : gset haddr_t) : Prop :=
  ∀ a, is_Some (groups_ p !! a) → a ∉ open → closed f p a.

End graph_notions.

(** ** Notions about the tables of the resource *)

Section table_notions.
Import H5 HDF5ReadableResource.

(** The data set paths [Init] works on: the output of the walk. *)
Definition walked (file : H5File) (uninit : H5O_info_t) : list string :=
  HDF5Iterate.datasets_ (Init_walk file uninit).2.

(** The library calls [Init] makes on a data set raise nothing. *)
Definition quiet_in_Init (d : DataSet) : Prop :=
  ds_throws d DataSet_getSpace = None
  ∧ ds_throws d DataSpace_getSimpleExtentNdims = None
  ∧ ds_throws d DataSpace_getSimpleExtentDims = None
  ∧ ds_throws d DataSet_getDataType = None.

(** What [Init] stores for the data set [d] at [path]. *)
Definition described (names : string * string) (path : string) (d : DataSet)
  (dtype : tensorflow.DataType) (shape : list Z) : Prop :=
  quiet_in_Init d
  ∧ classify names path (ds_type d) = Val dtype
  ∧ shape = Int.wrap_int64 <$> ds_dims d
  ∧ Forall (λ x, 0 <= x) shape.

End table_notions.

(** ** Notions about the refusal of an enumeration *)

Section enum_notions.
Import H5.

(** The name [nameOf(&value, 100)] yields in iteration [ii] of the loop
    of lines 274-285, and what the iteration makes of [names]. *)
Definition name_at (t : H5.DataType) (ii : nat) : option string :=
  getMemberValue t ii ≫= λ value, nameOf t value 100.

Definition add_name (t : H5.DataType) (names : string) (ii : nat) : string :=
  (if decide (ii ≠ 0%nat) then names +:+ ", " else names)
  +:+ default "" (name_at t ii).

(** Names separated by [", "], and the same in brackets. *)
Fixpoint separated (names : list string) : string :=
  match names with
  | [] => ""
  | [name] => name
  | name :: rest => name +:+ ", " +:+ separated rest
  end.

Definition bracketed (names : list string) : string :=
  "[" +:+ separated names +:+ "]".

End enum_notions.

(** ** Notions about requests *)

Section request_notions.
Import H5 HDF5ReadableResource.

(** The block of shape [shape] at [start] lies inside the extent
    [dims]. *)
Definition inside (start shape dims : list Z) : Prop :=
  ∀ k a s dim,
    start !! k = Some a → shape !! k = Some s → dims !! k = Some dim →
    0 <= a ∧ 0 <= s ∧ a + s <= dim ∧ dim < 2 ^ 63.

End request_notions.

Section return_notions.
Import H5 HDF5ReadableResource.

(** Whenever the statement [m] leaves the function with a [return], the
    status it returns satisfies [P]. *)
Definition returns_only {A} (P : Status → Prop) (m : Body A) : Prop :=
  ∀ value status value', m value = (Return status, value') → P status.

(** An [InvalidArgument] other than the one that refuses an
    enumeration. *)
Definition invalid_argument (status : Status) : Prop :=
  code status = INVALID_ARGUMENT
  ∧ ∀ names, status ≠ unsupported_enum names.

End return_notions.

(** ** Notions about the outputs of the info kernel *)

Section info_notions.
Import HDF5ReadableResource HDF5ReadableInfoOp.

(** Every entry of the index is a position in [shapes_] and in
    [dtypes_]. *)
Definition index_in_range (r : t) : Prop :=
  ∀ component idx, columns_index_ r !! component = Some idx →
    (Z.to_nat idx < length (shapes_ r))%nat
    ∧ (Z.to_nat idx < length (dtypes_ r))%nat.

(** What cell [j] of a row of [shape_tensor] holds for a component of
    shape [shape]. *)
Definition cell (shape : list Z) (j : nat) : Z :=
  if decide (j < length shape)%nat then dim_size shape j else -1.

(** Row [i] of [shape_tensor]. *)
Definition shape_row (out : Outputs) (i : nat) : list (option Z) :=
  take (shape_tensor_dims out).2
    (drop (i * (shape_tensor_dims out).2) (shape_tensor out)).

(** A row padded to [rank] entries with -1. *)
Definition padded (shape : list Z) (rank : nat) : list (option Z) :=
  Some <$> (shape ++ replicate (rank - length shape) (-1))%list.

(** The shape a reader of the output takes from a row: the cells that
    are written and not negative. *)
Definition row_dims (row : list (option Z)) : list Z :=
  filter (λ z, 0 <= z) (omap id row).

End info_notions.

Section info_sizes.
Import HDF5ReadableInfoOp.

(** The three outputs have the sizes they were allocated with. *)
Definition sized (n rank : nat) (out : Outputs) : Prop :=
  length (component_tensor out) = n
  ∧ length (shape_tensor out) = (n * rank)%nat
  ∧ shape_tensor_dims out = (n, rank)
  ∧ length (dtype_tensor out) = n.

End info_sizes.

(** * Properties *)

Section arithmetic.

Lemma wrap_int64_id z : Int.in_int64 z → Int.wrap_int64 z = z.
Proof.
  unfold Int.in_int64, Int.wrap_int64. intros Hz.
  rewrite Z.mod_small; lia.
Qed.

Lemma to_hsize_nonneg z : 0 <= z < 2 ^ 64 → Int.to_hsize z = z.
Proof. unfold Int.to_hsize. intros. rewrite Z.mod_small; lia. Qed.

Lemma to_hsize_neg z : - 2 ^ 63 <= z < 0 → Int.to_hsize z = z + 2 ^ 64.
Proof.
  unfold Int.to_hsize. intros Hz.
  rewrite <- (Z.mod_small (z + 2 ^ 64) (2 ^ 64)) by lia.
  rewrite <- (Z_mod_plus_full z 1 (2 ^ 64)). f_equal; lia.
Qed.

(** The [int64] sum of a non-negative start and a non-negative size,
    seen as [hsize_t], is the exact sum. *)
Lemma to_hsize_add_int64 a b :
  0 <= a < 2 ^ 63 → 0 <= b < 2 ^ 63 →
  Int.to_hsize (Int.add_int64 a b) = a + b.
Proof.
  intros Ha Hb. unfold Int.add_int64.
  destruct (decide (a + b < 2 ^ 63)) as [Hs|Hs].
  - rewrite wrap_int64_id by (unfold Int.in_int64; lia).
    apply to_hsize_nonneg. lia.
  - unfold Int.wrap_int64.
    replace ((a + b + 2 ^ 63) mod 2 ^ 64) with (a + b - 2 ^ 63).
    + rewrite to_hsize_neg by lia. lia.
    + rewrite <- (Z.mod_small (a + b - 2 ^ 63) (2 ^ 64)) by lia.
      rewrite <- (Z_mod_plus_full (a + b - 2 ^ 63) 1 (2 ^ 64)).
      f_equal; lia.
Qed.

End arithmetic.

(** ** The request normalisation of the read kernel *)

Section normalisation.
Import HDF5ReadableReadOp.

Lemma vec_get_Some name (v : list Z) i x :
  v !! i = Some x → vec_get name v i = inr x.
Proof. unfold vec_get. by intros ->. Qed.

Lemma vec_set_lt name (v : list Z) i x :
  (i < length v)%nat → vec_set name v i x = inr (<[i := x]> v).
Proof. unfold vec_set. intros H. by rewrite decide_True. Qed.

Lemma vec_set_ge name (v : list Z) i x :
  (length v ≤ i)%nat → vec_set name v i x = inl (OutOfRange name i (length v)).
Proof. unfold vec_set. intros H. rewrite decide_False; [done|lia]. Qed.

Lemma clamp_step_inr shape start stop i a b :
  start !! i = Some a → stop !! i = Some b →
  clamp_step shape i (start, stop)
  = inr (<[i := pull a (snap (dim_size shape i) b)]> start,
         <[i := snap (dim_size shape i) b]> stop).
Proof.
  intros Ha Hb. unfold clamp_step, snap, pull.
  pose proof (lookup_lt_Some _ _ _ Ha) as Hla.
  pose proof (lookup_lt_Some _ _ _ Hb) as Hlb.
  rewrite (vec_get_Some _ _ _ _ Hb). cbn [cbind].
  destruct (decide (b < 0 ∨ b > dim_size shape i)) as [Hc|Hc].
  - rewrite vec_set_lt by done. cbn [cbind].
    rewrite (vec_get_Some _ _ _ _ Ha). cbn [cbind].
    rewrite (vec_get_Some "stop" _ i (dim_size shape i))
      by (by apply list_lookup_insert_eq).
    cbn [cbind]. case_decide.
    + by rewrite vec_set_lt.
    + cbn [cbind]. by rewrite (list_insert_id start i a).
  - cbn [cbind]. rewrite (vec_get_Some _ _ _ _ Ha). cbn [cbind].
    rewrite (vec_get_Some _ _ _ _ Hb). cbn [cbind].
    rewrite (list_insert_id stop i b) by done. case_decide.
    + by rewrite vec_set_lt.
    + cbn [cbind]. by rewrite (list_insert_id start i a).
Qed.

(** The clamping loop from index [i] on, for [n] more indices: inside the
    range each entry is snapped or pulled, outside it is left alone. *)
Lemma clamp_loop shape n : ∀ i start stop,
  (i + n ≤ length start)%nat → (i + n ≤ length stop)%nat →
  ∃ start' stop',
    for_loop n i (clamp_step shape) (start, stop) = inr (start', stop')
    ∧ length start' = length start ∧ length stop' = length stop
    ∧ ∀ k a b, start !! k = Some a → stop !! k = Some b →
        start' !! k
        = Some (if decide (i ≤ k < i + n)%nat
                then pull a (snap (dim_size shape k) b) else a)
        ∧ stop' !! k
          = Some (if decide (i ≤ k < i + n)%nat
                  then snap (dim_size shape k) b else b).
Proof.
  induction n as [|n IH]; intros i start stop Hlen Hstop.
  - exists start, stop. cbn. repeat split; try done.
    all: case_decide; [lia|done].
  - destruct (lookup_lt_is_Some_2 start i) as [a Ha]; [lia|].
    destruct (lookup_lt_is_Some_2 stop i) as [b Hb]; [lia|].
    cbn [for_loop]. rewrite (clamp_step_inr _ _ _ _ _ _ Ha Hb).
    cbn [cbind].
    destruct (IH (S i) (<[i := pull a (snap (dim_size shape i) b)]> start)
                (<[i := snap (dim_size shape i) b]> stop))
      as (start' & stop' & Hrun & Hl1 & Hl2 & Hpt).
    { rewrite length_insert. lia. }
    { rewrite length_insert. lia. }
    exists start', stop'. rewrite length_insert in Hl1, Hl2.
    split; [done|]. split; [done|]. split; [done|].
    intros k a' b' Ha' Hb'.
    destruct (decide (k = i)) as [->|Hne].
    + assert (a' = a) as -> by congruence.
      assert (b' = b) as -> by congruence.
      destruct (Hpt i (pull a (snap (dim_size shape i) b))
                  (snap (dim_size shape i) b)) as [H1 H2].
      { apply list_lookup_insert_eq. lia. }
      { apply list_lookup_insert_eq. lia. }
      rewrite H1, H2. repeat case_decide; try lia; done.
    + destruct (Hpt k a' b') as [H1 H2].
      { by rewrite list_lookup_insert_ne. }
      { by rewrite list_lookup_insert_ne. }
      rewrite H1, H2. repeat case_decide; try lia; done.
Qed.

(** The loop that writes [stop[i] - start[i]] into [shape]. *)
Lemma reshape_loop start stop n : ∀ i shape,
  (i + n ≤ length shape)%nat →
  (i + n ≤ length start)%nat → (i + n ≤ length stop)%nat →
  (∀ k a b, (i ≤ k < i + n)%nat → start !! k = Some a →
            stop !! k = Some b → 0 <= b - a < 2 ^ 63) →
  ∃ shape',
    for_loop n i
      (λ i shape,
         stop_i ←? vec_get "stop" stop i;
         start_i ←? vec_get "start" start i;
         set_dim shape i (Int.sub_int64 stop_i start_i)) shape
    = inr shape'
    ∧ length shape' = length shape
    ∧ ∀ k d a b, shape !! k = Some d → start !! k = Some a →
        stop !! k = Some b →
        shape' !! k = Some (if decide (i ≤ k < i + n)%nat then b - a else d).
Proof.
  induction n as [|n IH]; intros i shape Hlen Hstart Hstop Hrange.
  - exists shape. cbn. repeat split; try done.
    intros. rewrite decide_False by lia. done.
  - destruct (lookup_lt_is_Some_2 start i) as [a Ha]; [lia|].
    destruct (lookup_lt_is_Some_2 stop i) as [b Hb]; [lia|].
    cbn [for_loop].
    rewrite (vec_get_Some _ _ _ _ Hb). cbn [cbind].
    rewrite (vec_get_Some _ _ _ _ Ha). cbn [cbind].
    assert (0 <= b - a < 2 ^ 63) as Hba by (apply (Hrange i); [lia|done..]).
    unfold Int.sub_int64. rewrite wrap_int64_id
      by (unfold Int.in_int64; lia).
    unfold set_dim. rewrite decide_True by lia.
    rewrite vec_set_lt by lia. cbn [cbind].
    destruct (IH (S i) (<[i := b - a]> shape)) as (shape' & Hrun & Hl & Hpt).
    { rewrite length_insert. lia. }
    { lia. }
    { lia. }
    { intros k a' b' Hk. apply Hrange. lia. }
    exists shape'. rewrite length_insert in Hl.
    split; [done|]. split; [done|].
    intros k d a' b' Hd Ha' Hb'.
    destruct (decide (k = i)) as [->|Hne].
    + assert (a' = a) as -> by congruence.
      assert (b' = b) as -> by congruence.
      rewrite (Hpt i (b - a) a b); [|by apply list_lookup_insert_eq; lia|done..].
      repeat case_decide; try lia; done.
    + rewrite (Hpt k d a' b'); [|by rewrite list_lookup_insert_ne|done..].
      repeat case_decide; try lia; done.
Qed.

(** A loop that stores [g i] in entry [i] of a vector. *)
Lemma for_loop_vec_set name (g : nat → Z) n : ∀ i v,
  (i + n ≤ length v)%nat →
  ∃ v',
    for_loop n i (λ i v, vec_set name v i (g i)) v = inr v'
    ∧ length v' = length v
    ∧ ∀ k, v' !! k
           = if decide (i ≤ k < i + n)%nat then Some (g k) else v !! k.
Proof.
  induction n as [|n IH]; intros i v Hlen.
  - exists v. cbn. repeat split. intros k. case_decide; [lia|done].
  - cbn [for_loop]. rewrite vec_set_lt by lia. cbn [cbind].
    destruct (IH (S i) (<[i := g i]> v)) as (v' & Hrun & Hl & Hpt).
    { rewrite length_insert. lia. }
    exists v'. rewrite length_insert in Hl.
    split; [done|]. split; [done|].
    intros k. rewrite Hpt.
    destruct (decide (k = i)) as [->|Hne].
    + rewrite list_lookup_insert_eq by lia.
      repeat case_decide; (done || lia).
    + rewrite list_lookup_insert_ne by done.
      repeat case_decide; (done || lia).
Qed.

(** The same loop, when it runs past the end of the vector: it stops at the
    first index outside. *)
Lemma for_loop_vec_set_fault name (g : nat → Z) n : ∀ i v,
  (i ≤ length v < i + n)%nat →
  for_loop n i (λ i v, vec_set name v i (g i)) v
  = inl (OutOfRange name (length v) (length v)).
Proof.
  induction n as [|n IH]; intros i v Hlen; [lia|].
  cbn [for_loop].
  destruct (decide (i = length v)) as [->|Hne].
  - by rewrite vec_set_ge.
  - rewrite vec_set_lt by lia. cbn [cbind].
    rewrite IH by (rewrite length_insert; lia).
    by rewrite length_insert.
Qed.

(** A [start] tensor with one element per dimension fills [start]. *)
Lemma fill_start_full shape start_tensor :
  NumElements start_tensor = length shape →
  fill_start shape start_tensor = inr (ts_flat start_tensor).
Proof.
  unfold NumElements. intros Hn. unfold fill_start, for_range, NumElements.
  rewrite Hn, Nat.sub_0_r, Nat.sub_diag.
  destruct (for_loop_vec_set "start" (flat start_tensor) (length shape) 0
              (replicate (length shape) 0)) as (v' & -> & Hl & Hpt).
  { rewrite length_replicate. lia. }
  cbn. f_equal. apply list_eq. intros k. rewrite Hpt.
  rewrite length_replicate in Hl. unfold flat.
  case_decide.
  - destruct (lookup_lt_is_Some_2 (ts_flat start_tensor) k) as [x ->];
      [lia|done].
  - rewrite !lookup_ge_None_2; [done|lia|rewrite length_replicate; lia].
Qed.

(** A [stop] tensor with one element per dimension fills the first entries
    of [stop], provided [stop] is long enough, that is provided the rank of
    the [stop] tensor is at least the requested rank. *)
Lemma fill_stop_full shape stop_tensor :
  NumElements stop_tensor = length shape →
  (length shape ≤ Tensor_dims stop_tensor)%nat →
  ∃ stop,
    fill_stop shape stop_tensor = inr stop
    ∧ length stop = Tensor_dims stop_tensor
    ∧ ∀ k, (k < length shape)%nat → stop !! k = ts_flat stop_tensor !! k.
Proof.
  unfold NumElements. intros Hn Hk. unfold fill_stop, for_range, NumElements.
  rewrite Hn, Nat.sub_0_r, Nat.sub_diag.
  destruct (for_loop_vec_set "stop" (flat stop_tensor) (length shape) 0
              (replicate (Tensor_dims stop_tensor) 0))
    as (v' & -> & Hl & Hpt).
  { rewrite length_replicate. lia. }
  exists v'. cbn. rewrite length_replicate in Hl.
  split; [done|]. split; [done|].
  intros k Hlt. rewrite Hpt, decide_True by lia. unfold flat.
  destruct (lookup_lt_is_Some_2 (ts_flat stop_tensor) k) as [x ->];
    [lia|done].
Qed.

(** Whenever the requested rank exceeds the rank of the [stop] tensor, the
    construction of [stop] indexes the first position outside the
    vector. *)
Lemma fill_stop_outside shape stop_tensor :
  (Tensor_dims stop_tensor < length shape)%nat →
  fill_stop shape stop_tensor
  = inl (OutOfRange "stop" (Tensor_dims stop_tensor)
           (Tensor_dims stop_tensor)).
Proof.
  intros Hk. unfold fill_stop, for_range. rewrite Nat.sub_0_r.
  destruct (decide (NumElements stop_tensor ≤ Tensor_dims stop_tensor)%nat)
    as [Hn|Hn].
  - destruct (for_loop_vec_set "stop" (flat stop_tensor)
                (NumElements stop_tensor) 0
                (replicate (Tensor_dims stop_tensor) 0))
      as (v' & -> & Hl & _).
    { rewrite length_replicate. lia. }
    cbn [cbind]. rewrite length_replicate in Hl.
    rewrite for_loop_vec_set_fault by lia. by rewrite Hl.
  - rewrite for_loop_vec_set_fault by (rewrite length_replicate; lia).
    by rewrite length_replicate.
Qed.

Lemma fill_start_inside shape start_tensor :
  (NumElements start_tensor ≤ length shape)%nat →
  ∃ start, fill_start shape start_tensor = inr start.
Proof.
  intros Hn. unfold fill_start, for_range. rewrite Nat.sub_0_r.
  destruct (for_loop_vec_set "start" (flat start_tensor)
              (NumElements start_tensor) 0 (replicate (length shape) 0))
    as (v' & -> & Hl & _).
  { rewrite length_replicate. lia. }
  cbn [cbind]. rewrite length_replicate in Hl.
  destruct (for_loop_vec_set "start" (λ _, 0)
              (length shape - NumElements start_tensor)
              (NumElements start_tensor) v') as (v'' & -> & _); [lia|].
  by exists v''.
Qed.

Lemma TensorShape_nonneg dim_sizes :
  Forall (λ d, 0 <= d) dim_sizes → TensorShape dim_sizes = inr dim_sizes.
Proof. intros H. unfold TensorShape. by rewrite decide_True. Qed.

(** The defect behind C10, in general: a request whose rank exceeds the
    rank of the [stop] tensor runs outside the [stop] vector. *)
Lemma normalize_outside_stop shape_tensor start_tensor stop_tensor :
  Forall (λ d, 0 <= d) (ts_flat shape_tensor) →
  (NumElements start_tensor ≤ length (ts_flat shape_tensor))%nat →
  (Tensor_dims stop_tensor < length (ts_flat shape_tensor))%nat →
  normalize shape_tensor start_tensor stop_tensor
  = inl (OutOfRange "stop" (Tensor_dims stop_tensor)
           (Tensor_dims stop_tensor)).
Proof.
  intros Hpos Hs Hk. unfold normalize.
  rewrite TensorShape_nonneg by done. cbn [cbind].
  destruct (fill_start_inside _ _ Hs) as [start ->]. cbn [cbind].
  by rewrite fill_stop_outside.
Qed.

(** A request with a negative entry in the [shape] input stops at the
    check of [TensorShape]. *)
Lemma normalize_negative_shape shape_tensor start_tensor stop_tensor :
  ¬ Forall (λ d, 0 <= d) (ts_flat shape_tensor) →
  normalize shape_tensor start_tensor stop_tensor
  = inl (CheckFailed "TensorShape").
Proof.
  intros Hneg. unfold normalize, TensorShape. by rewrite decide_False.
Qed.

End normalisation.

Section read_kernel.
Import H5 HDF5ReadableResource HDF5ReadableReadOp.

(** A call on a data set whose library calls all succeed yields its
    value. *)
Lemma call_quiet {A} (d : DataSet) c (v : A) :
  ds_throws d c = None → call d c v = Val v.
Proof. unfold call. by intros ->. Qed.

Lemma normalize_8_3_of_10 :
  normalize (mkInt64Tensor [1] [10]) (mkInt64Tensor [1] [8])
    (mkInt64Tensor [1] [3]) = inr ([3], [0]).
Proof. reflexivity. Qed.

Lemma decode_numeric dtype d data_type ms fs :
  bulk_type dtype →
  decode dtype d data_type ms fs = read_numeric d data_type ms fs.
Proof.
  intros Hb. unfold bulk_type in Hb.
  repeat (apply elem_of_cons in Hb as [->|Hb]; [done|]).
  by apply elem_of_nil in Hb.
Qed.

(** A numeric read with the memory space built from the requested
    shape. *)
Lemma decode_bulk dtype d data_type dims sel fs value :
  bulk_type dtype → ds_throws d DataSet_read = None →
  decode dtype d data_type (Simple dims sel) fs value
  = (Val tt, mkTensor (tensor_shape value) (tensor_strings value)
               (ds_bytes d (Simple dims sel) fs)).
Proof.
  intros Hb Hq. rewrite decode_numeric by done.
  unfold read_numeric, bbind, lift. by rewrite call_quiet.
Qed.

(** A numeric read with [H5::DataSpace::ALL] as memory space. *)
Lemma decode_bulk_ALL dtype d data_type fs value :
  bulk_type dtype → ds_throws d DataSet_read = None →
  decode dtype d data_type ALL fs value
  = let capacity := num_elements (tensor_shape value) in
    if decide (selected d fs <= Z.of_nat capacity)
    then (Val tt, mkTensor (tensor_shape value) (tensor_strings value)
                    (ds_bytes d ALL fs))
    else (Undef (OutOfRange "value" capacity capacity), value).
Proof.
  intros Hb Hq. rewrite decode_numeric by done.
  unfold read_numeric, bbind, lift. by rewrite call_quiet.
Qed.

(** The degenerate request, through the whole kernel. *)
Lemma degenerate_request r component idx file d dtype :
  columns_index_ r !! component = Some idx →
  file_image_ r = Some (Some file) →
  openDataSet file component = inr d →
  ds_dims d = [10] →
  (∀ c, ds_throws d c = None) →
  dtypes_ r !! Z.to_nat idx = Some dtype → bulk_type dtype →
  ResourceKernel r component (mkInt64Tensor [1] [10])
    (mkInt64Tensor [1] [8]) (mkInt64Tensor [1] [3])
  = (Returned OkStatus,
     Some (mkTensor [0] []
             (ds_bytes d (Simple [0] SelectAll)
                (Simple [10] (SelectHyperslab [0] [3]))))).
Proof.
  intros Hidx Hfile Hopen Hdims Hquiet Hdtype Hbulk.
  unfold ResourceKernel. rewrite normalize_8_3_of_10.
  unfold Read. rewrite Hidx, Hfile.
  unfold Read_try, bbind, lift. rewrite Hopen. cbn [raise_or].
  rewrite !call_quiet by done.
  unfold select. cbn [length decide]. rewrite decide_True by done.
  rewrite Hdims. cbn [extent length].
  rewrite !call_quiet by done. cbn [rbind].
  rewrite decide_False by (intros ?; done).
  rewrite !call_quiet by done. cbn [rbind].
  replace (rfor 1 0 (bounds_step [3] [0]) (take 1 [10], replicate 1 0))
    with (Val (A := list Z * list Z) ([0], [3])) by reflexivity.
  cbn [rbind]. rewrite !call_quiet by done. cbn [rbind].
  rewrite Hdtype. cbn [check].
  rewrite decode_bulk by done. reflexivity.
Qed.

End read_kernel.

(** ** The selection made by [Read] *)

Section selection.
Import H5 HDF5ReadableResource.

(** On values of the machine types, the test fires whenever the
    mathematical comparison does. *)
Lemma out_of_boundary_complete a s d :
  Int.in_int64 a → 0 <= s < 2 ^ 63 → Int.in_hsize d →
  a > d ∨ a + s > d → out_of_boundary a s d.
Proof.
  unfold Int.in_int64, Int.in_hsize, out_of_boundary. intros Ha Hs Hd Hout.
  destruct (decide (a < 0)) as [Hneg|Hpos].
  - right. unfold Int.add_int64.
    rewrite wrap_int64_id by (unfold Int.in_int64; lia).
    rewrite to_hsize_nonneg; lia.
  - destruct (decide (a > d)) as [Hgt|Hle].
    + left. rewrite to_hsize_nonneg; lia.
    + right. rewrite to_hsize_add_int64; lia.
Qed.

Lemma bounds_step_inside start shape i dims dims_start a d :
  start !! i = Some a → dims !! i = Some d →
  (i < length dims_start)%nat →
  ¬ out_of_boundary a (dim_size shape i) d →
  bounds_step start shape i (dims, dims_start)
  = Val (<[i := Int.to_hsize (dim_size shape i)]> dims,
         <[i := Int.to_hsize a]> dims_start).
Proof.
  intros Ha Hd Hl Hin. unfold bounds_step.
  rewrite (vec_get_Some _ _ _ _ Ha). cbn [check rbind].
  rewrite (vec_get_Some _ _ _ _ Hd). cbn [check rbind].
  rewrite decide_False by done.
  rewrite vec_set_lt by done. cbn [check rbind].
  rewrite vec_set_lt by (by eapply lookup_lt_Some). done.
Qed.

Lemma bounds_step_outside start shape i dims dims_start a d :
  start !! i = Some a → dims !! i = Some d →
  out_of_boundary a (dim_size shape i) d →
  bounds_step start shape i (dims, dims_start)
  = Return (boundary_error i a (dim_size shape i) d).
Proof.
  intros Ha Hd Hout. unfold bounds_step.
  rewrite (vec_get_Some _ _ _ _ Ha). cbn [check rbind].
  rewrite (vec_get_Some _ _ _ _ Hd). cbn [check rbind].
  by rewrite decide_True.
Qed.

(** The loop of lines 374-382 from index [i] on: it leaves with the error
    of the first index at which the test fires, or it completes. *)
Lemma bounds_loop start shape n : ∀ i dims dims_start,
  (i + n ≤ length start)%nat → (i + n ≤ length dims)%nat →
  length dims_start = length dims →
  (∃ j a d, (i ≤ j < i + n)%nat ∧ start !! j = Some a ∧ dims !! j = Some d
            ∧ out_of_boundary a (dim_size shape j) d
            ∧ (∀ k a d, (i ≤ k < j)%nat → start !! k = Some a →
                        dims !! k = Some d →
                        ¬ out_of_boundary a (dim_size shape k) d)
            ∧ rfor n i (bounds_step start shape) (dims, dims_start)
              = Return (boundary_error j a (dim_size shape j) d))
  ∨ ((∀ j a d, (i ≤ j < i + n)%nat → start !! j = Some a →
               dims !! j = Some d → ¬ out_of_boundary a (dim_size shape j) d)
     ∧ ∃ dims' dims_start',
         rfor n i (bounds_step start shape) (dims, dims_start)
         = Val (dims', dims_start')
         ∧ length dims' = length dims ∧ length dims_start' = length dims
         ∧ ∀ k,
             dims' !! k
             = (if decide (i ≤ k < i + n)%nat
                then Some (Int.to_hsize (dim_size shape k)) else dims !! k)
             ∧ dims_start' !! k
               = (if decide (i ≤ k < i + n)%nat
                  then Int.to_hsize <$> start !! k else dims_start !! k)).
Proof.
  induction n as [|n IH]; intros i dims dims_start Hls Hld Hlds.
  - right. split; [intros; lia|]. exists dims, dims_start.
    cbn. repeat split; try done; case_decide; (done || lia).
  - destruct (lookup_lt_is_Some_2 start i) as [a Ha]; [lia|].
    destruct (lookup_lt_is_Some_2 dims i) as [d Hd]; [lia|].
    cbn [rfor].
    destruct (decide (out_of_boundary a (dim_size shape i) d)) as [Hout|Hin].
    { left. exists i, a, d.
      rewrite (bounds_step_outside _ _ _ _ _ _ _ Ha Hd Hout).
      repeat split; try done; lia. }
    rewrite (bounds_step_inside _ _ _ _ _ _ _ Ha Hd) by (done || lia).
    cbn [rbind].
    destruct (IH (S i) (<[i := Int.to_hsize (dim_size shape i)]> dims)
                (<[i := Int.to_hsize a]> dims_start))
      as [(j & a' & d' & Hj & Ha' & Hd' & Hout & Hmin & Hrun)
         |(Hall & dims' & dims_start' & Hrun & Hl1 & Hl2 & Hpt)].
    { lia. } { rewrite length_insert. lia. } { by rewrite !length_insert. }
    + left. exists j, a', d'.
      rewrite list_lookup_insert_ne in Hd' by lia.
      split; [lia|]. split; [done|]. split; [done|]. split; [done|].
      split; [|done].
      intros k a'' d'' Hk Ha'' Hd''.
      destruct (decide (k = i)) as [->|Hne]; [congruence|].
      apply (Hmin k a'' d''); [lia|done|].
      by rewrite list_lookup_insert_ne.
    + right. split.
      * intros j a' d' Hj Ha' Hd'.
        destruct (decide (j = i)) as [->|Hne]; [congruence|].
        apply (Hall j a' d'); [lia|done|].
        by rewrite list_lookup_insert_ne.
      * exists dims', dims_start'. rewrite length_insert in Hl1, Hl2.
        split; [done|]. split; [done|]. split; [done|].
        intros k. destruct (Hpt k) as [-> ->].
        destruct (decide (k = i)) as [->|Hne].
        -- split; repeat case_decide; try lia.
           ++ apply list_lookup_insert_eq. lia.
           ++ rewrite list_lookup_insert_eq by lia. by rewrite Ha.
        -- rewrite !list_lookup_insert_ne by done.
           split; repeat case_decide; (done || lia).
Qed.

Lemma Read_after_open r component start shape alloc idx value file d :
  columns_index_ r !! component = Some idx →
  alloc shape = inr value →
  file_image_ r = Some (Some file) →
  openDataSet file component = inr d →
  ds_throws d DataSet_getDataType = None →
  ds_throws d DataSet_getSpace = None →
  Read r component start shape alloc
  = (Read_catch r (after_open r idx d start shape value).1,
     Some (after_open r idx d start shape value).2).
Proof.
  intros Hidx Halloc Hfile Hopen Ht Hs.
  unfold Read. rewrite Hidx, Halloc, Hfile.
  unfold Read_try, after_open, bbind, lift at 1 2 3.
  rewrite Hopen. cbn [raise_or]. rewrite !call_quiet by done.
  match goal with |- (let '(_, _) := ?x in _) = _ => by destruct x end.
Qed.

Lemma after_open_Return r idx d start shape value status :
  select d start shape (Simple (ds_dims d) SelectAll) = Return status →
  after_open r idx d start shape value = (Return status, value).
Proof. intros H. unfold after_open, bbind, lift. by rewrite H. Qed.

Lemma after_open_Val r idx d start shape value ms fs dtype :
  select d start shape (Simple (ds_dims d) SelectAll) = Val (ms, fs) →
  dtypes_ r !! Z.to_nat idx = Some dtype →
  after_open r idx d start shape value
  = decode dtype d (ds_type d) ms fs value.
Proof.
  intros H Hd. unfold after_open, bbind, lift. rewrite H, Hd. done.
Qed.

Lemma select_rank_mismatch d start shape :
  shape ≠ [] → length shape ≠ length (ds_dims d) →
  ds_throws d DataSpace_getSimpleExtentNdims = None →
  select d start shape (Simple (ds_dims d) SelectAll)
  = Return (rank_error (length (ds_dims d)) (length shape)).
Proof.
  intros Hne Hrank Hq. unfold select.
  rewrite decide_True by (by destruct shape).
  rewrite call_quiet by done. cbn [rbind extent].
  by rewrite decide_True.
Qed.

Lemma select_scalar d start :
  select d start [] (Simple (ds_dims d) SelectAll)
  = Val (ALL, Simple (ds_dims d) SelectAll).
Proof. reflexivity. Qed.

Lemma select_out_of_boundary d start shape i a s dim :
  shape ≠ [] → length shape = length (ds_dims d) →
  length start = length shape →
  ds_throws d DataSpace_getSimpleExtentNdims = None →
  ds_throws d DataSpace_getSimpleExtentDims = None →
  start !! i = Some a → shape !! i = Some s → ds_dims d !! i = Some dim →
  out_of_boundary a s dim →
  ∃ j a' s' dim',
    (j ≤ i)%nat ∧ start !! j = Some a' ∧ shape !! j = Some s'
    ∧ ds_dims d !! j = Some dim' ∧ out_of_boundary a' s' dim'
    ∧ select d start shape (Simple (ds_dims d) SelectAll)
      = Return (boundary_error j a' s' dim').
Proof.
  intros Hne Hrank Hstart Hq1 Hq2 Ha Hs Hdim Hout. unfold select.
  rewrite decide_True by (by destruct shape).
  rewrite call_quiet by done. cbn [rbind extent].
  rewrite decide_False by (intros ?; congruence).
  rewrite call_quiet by done. cbn [rbind].
  rewrite firstn_all.
  pose proof (lookup_lt_Some _ _ _ Hdim) as Hi.
  destruct (bounds_loop start shape (length (ds_dims d)) 0 (ds_dims d)
              (replicate (length (ds_dims d)) 0))
    as [(j & a' & d' & Hj & Ha' & Hd' & Hout' & Hmin & Hrun)|[Hall _]].
  { lia. } { lia. } { by rewrite length_replicate. }
  - destruct (lookup_lt_is_Some_2 shape j) as [s' Hs']; [lia|].
    unfold dim_size in Hout', Hrun. rewrite Hs' in Hout', Hrun.
    cbn [default] in Hout', Hrun. rewrite Hrun. cbn [rbind].
    destruct (decide (j ≤ i)%nat) as [Hle|Hgt].
    + exists j, a', s', d'. repeat split; done.
    + exfalso. apply (Hmin i a dim); [lia|done..|].
      unfold dim_size. by rewrite Hs.
  - exfalso. apply (Hall i a dim); [lia|done..|].
    unfold dim_size. by rewrite Hs.
Qed.

(** C2.  A [Read] that has found the component, allocated the output and
    opened the data set, with a library that raises nothing:
    - a requested shape of rank greater than 0 that differs from the rank
      of the data set is refused with the rank error;
    - with equal ranks, if dimension [i] has [start[i] > dim[i]] or
      [start[i] + shape[i] > dim[i]], [Read] is refused with the
      out-of-boundary error of the first dimension [j <= i] at which the
      test of the source fires;
    - a requested shape of rank 0 goes to the decoder with
      [H5::DataSpace::ALL] as memory space and the file space as it was
      opened, that is without a hyperslab selection.  For a numeric value
      type the library then writes the whole data set to the output: when
      the data set has no more elements than the output, [Read] returns ok
      and the output holds what the library delivers for the whole data
      set; when it has more, the write runs past the end of the output. *)
Theorem C2_read_checks_rank_and_bounds
  r component start shape alloc idx value file d :
  columns_index_ r !! component = Some idx →
  alloc shape = inr value →
  file_image_ r = Some (Some file) →
  openDataSet file component = inr d →
  (∀ c, ds_throws d c = None) →
  (shape ≠ [] → length shape ≠ length (ds_dims d) →
   Read r component start shape alloc
   = (Returned (rank_error (length (ds_dims d)) (length shape)),
      Some value))
  ∧ (shape ≠ [] → length shape = length (ds_dims d) →
     length start = length shape →
     Forall Int.in_int64 start → Forall (λ s, 0 <= s < 2 ^ 63) shape →
     Forall Int.in_hsize (ds_dims d) →
     ∀ i a s dim,
       start !! i = Some a → shape !! i = Some s →
       ds_dims d !! i = Some dim →
       a > dim ∨ a + s > dim →
       ∃ j a' s' dim',
         (j ≤ i)%nat ∧ start !! j = Some a' ∧ shape !! j = Some s'
         ∧ ds_dims d !! j = Some dim'
         ∧ Read r component start shape alloc
           = (Returned (boundary_error j a' s' dim'), Some value))
  ∧ (shape = [] →
     ∀ dtype, dtypes_ r !! Z.to_nat idx = Some dtype →
       let whole := Simple (ds_dims d) SelectAll in
       let capacity := num_elements (tensor_shape value) in
       Read r component start shape alloc
       = (Read_catch r (decode dtype d (ds_type d) ALL whole value).1,
          Some (decode dtype d (ds_type d) ALL whole value).2)
       ∧ (bulk_type dtype →
          foldr Z.mul 1 (ds_dims d) <= Z.of_nat capacity →
          Read r component start shape alloc
          = (Returned OkStatus,
             Some (mkTensor (tensor_shape value) (tensor_strings value)
                     (ds_bytes d ALL whole))))
       ∧ (bulk_type dtype →
          Z.of_nat capacity < foldr Z.mul 1 (ds_dims d) →
          Read r component start shape alloc
          = (Undefined (OutOfRange "value" capacity capacity),
             Some value))).
Proof.
  intros Hidx Halloc Hfile Hopen Hquiet.
  pose proof (Read_after_open r component start shape alloc idx value file d
                Hidx Halloc Hfile Hopen (Hquiet _) (Hquiet _)) as HRead.
  split; [|split].
  - intros Hne Hrank. rewrite HRead.
    by rewrite (after_open_Return _ _ _ _ _ _ _
                  (select_rank_mismatch d start shape Hne Hrank (Hquiet _))).
  - intros Hne Hrank Hstart Hrs Hrsh Hrd i a s dim Ha Hs Hdim Hout.
    destruct (select_out_of_boundary d start shape i a s dim)
      as (j & a' & s' & dim' & Hj & Ha' & Hs' & Hd' & _ & Hsel); try done.
    { rewrite Forall_lookup in Hrs, Hrsh, Hrd.
      apply out_of_boundary_complete; eauto. }
    exists j, a', s', dim'. rewrite HRead.
    by rewrite (after_open_Return _ _ _ _ _ _ _ Hsel).
  - intros -> dtype Hdtype whole capacity. rewrite HRead.
    rewrite (after_open_Val _ _ _ _ _ _ _ _ _ (select_scalar d start)
               Hdtype).
    split; [done|].
    split; intros Hbulk Hcap; rewrite decode_bulk_ALL by done; cbn zeta;
      fold capacity; cbn [selected].
    + by rewrite decide_True.
    + by rewrite decide_False by lia.
Qed.

End selection.

(** ** Classification of storage types *)

Section classification.
Import H5 HDF5ReadableResource.

Lemma classify_integer_other dataset t :
  getSize t ∉ [1; 2; 4; 8] →
  classify_integer dataset t = Return (unsupported_size dataset (getSize t)).
Proof.
  unfold classify_integer. intros Hsize. cbn zeta.
  rewrite !not_elem_of_cons in Hsize.
  repeat case_decide; try done; exfalso; tauto.
Qed.

Lemma classify_float_other dataset t :
  getSize t ∉ [4; 8] →
  classify_float dataset t = Return (unsupported_size dataset (getSize t)).
Proof.
  unfold classify_float. intros Hsize. cbn zeta.
  rewrite !not_elem_of_cons in Hsize.
  repeat case_decide; try done; exfalso; tauto.
Qed.

(** C5.  Integer storage of byte width 1, 2, 4 or 8 is classified as the
    integer type of that width: the signed one when [getSign] is
    [H5T_SGN_2], the unsigned one when it is [H5T_SGN_NONE].  Float
    storage of width 4 is classified as [DT_FLOAT] and of width 8 as
    [DT_DOUBLE].  Any other width of either class fails, with the
    [InvalidArgument] that carries the data set and the width. *)
Theorem C5_integer_and_float_classification names dataset t :
  (getClass t = H5T_INTEGER →
   (getSign t = H5T_SGN_2 →
    (getSize t = 1 → classify names dataset t = Val DT_INT8)
    ∧ (getSize t = 2 → classify names dataset t = Val DT_INT16)
    ∧ (getSize t = 4 → classify names dataset t = Val DT_INT32)
    ∧ (getSize t = 8 → classify names dataset t = Val DT_INT64))
   ∧ (getSign t = H5T_SGN_NONE →
      (getSize t = 1 → classify names dataset t = Val DT_UINT8)
      ∧ (getSize t = 2 → classify names dataset t = Val DT_UINT16)
      ∧ (getSize t = 4 → classify names dataset t = Val DT_UINT32)
      ∧ (getSize t = 8 → classify names dataset t = Val DT_UINT64))
   ∧ (getSize t ∉ [1; 2; 4; 8] →
      classify names dataset t
      = Return (InvalidArgument
                  [MStr "unsupported data type size for "; MStr dataset;
                   MStr ": "; MInt (getSize t)])))
  ∧ (getClass t = H5T_FLOAT →
     (getSize t = 4 → classify names dataset t = Val DT_FLOAT)
     ∧ (getSize t = 8 → classify names dataset t = Val DT_DOUBLE)
     ∧ (getSize t ∉ [4; 8] →
        classify names dataset t
        = Return (InvalidArgument
                    [MStr "unsupported data type size for "; MStr dataset;
                     MStr ": "; MInt (getSize t)]))).
Proof.
  split; intros Hclass; unfold classify; rewrite Hclass.
  - split; [|split].
    + intros Hsign. unfold classify_integer. rewrite Hsign. cbn.
      repeat split; intros Hs; by rewrite Hs.
    + intros Hsign. unfold classify_integer. rewrite Hsign. cbn.
      repeat split; intros Hs; by rewrite Hs.
    + apply classify_integer_other.
  - repeat split; try (intros Hs; unfold classify_float; by rewrite Hs).
    apply classify_float_other.
Qed.

Lemma C5_integer_and_float_classification_witness :
  classify ("r", "i") "/x" Samples.int32 = Val DT_INT32
  ∧ classify ("r", "i") "/x" Fixtures.uint16 = Val DT_UINT16
  ∧ classify ("r", "i") "/x" Samples.int24
    = Return (InvalidArgument
                [MStr "unsupported data type size for "; MStr "/x";
                 MStr ": "; MInt 3])
  ∧ classify ("r", "i") "/x" Samples.float64 = Val DT_DOUBLE.
Proof.
  split; [|split; [|split]].
  - apply (proj1 (C5_integer_and_float_classification ("r", "i") "/x"
                    Samples.int32)); reflexivity.
  - apply (proj1 (proj2 (proj1 (C5_integer_and_float_classification
                                  ("r", "i") "/x" Fixtures.uint16)
                           eq_refl))); reflexivity.
  - apply (proj1 (C5_integer_and_float_classification ("r", "i") "/x"
                    Samples.int24)); [reflexivity|].
    cbn. rewrite !not_elem_of_cons. repeat split; try done.
    apply not_elem_of_nil.
  - apply (proj2 (C5_integer_and_float_classification ("r", "i") "/x"
                    Samples.float64)); reflexivity.
Defined.



Lemma classify_compound_width names dataset t :
  comp_getNmembers t = 2 →
  getMemberName t 0 = names.1 → getMemberName t 1 = names.2 →
  getMemberDataType t 0 = getMemberDataType t 1 →
  getMemberClass t 0 = H5T_FLOAT →
  classify_compound names dataset t
  = let size := mt_size (getMemberDataType t 0) in
    if decide (size = 4) then Val DT_COMPLEX64
    else if decide (size = 8) then Val DT_COMPLEX128
    else
      Return (InvalidArgument
                [MStr "unsupported data type size for compound";
                 MStr dataset; MStr ": "; MInt size]).
Proof.
  intros Hn Hn0 Hn1 Heq Hc. unfold classify_compound.
  rewrite decide_False by (intros ?; done).
  rewrite decide_False by (intros [?|?]; done).
  rewrite decide_False by (intros ?; done).
  rewrite decide_False by (intros ?; done). done.
Qed.





End classification.

(** ** Decoding of strings *)

Section strings.
Import H5 HDF5ReadableResource.

Lemma eqb_x00 b : Byte.eqb b x00 = true ↔ b = x00.
Proof. split; [apply Byte.byte_dec_bl|apply Byte.byte_dec_lb]. Qed.

Lemma nullterm_scan_spec ptr n : ∀ len,
  let l := nullterm_scan ptr n len in
  (len ≤ l ≤ len + n)%nat
  ∧ (∀ k, (len ≤ k < l)%nat → ptr k ≠ x00)
  ∧ ((l < len + n)%nat → ptr l = x00).
Proof.
  induction n as [|n IH]; intros len; cbn.
  - repeat split; intros; lia.
  - destruct (Byte.eqb (ptr len) x00) eqn:Hb.
    + apply eqb_x00 in Hb. repeat split; intros; (done || lia).
    + destruct (IH (S len)) as (Hl & Hnz & Hz).
      split; [lia|]. split.
      * intros k Hk. destruct (decide (k = len)) as [->|Hne].
        -- intros Heq. apply eqb_x00 in Heq. congruence.
        -- apply Hnz. lia.
      * intros Hlt. apply Hz. lia.
Qed.

Lemma nullpad_scan_spec ptr : ∀ m,
  let l := nullpad_scan ptr m in
  (l ≤ m)%nat
  ∧ (∀ k, (l ≤ k < m)%nat → ptr k = x00)
  ∧ ((0 < l)%nat → ptr (l - 1)%nat ≠ x00).
Proof.
  intros m. induction m as [|m IH]; cbn.
  - repeat split; intros; lia.
  - destruct (Byte.eqb (ptr m) x00) eqn:Hb.
    + apply eqb_x00 in Hb. destruct IH as (Hl & Hz & Hnz).
      split; [lia|]. split; [|done].
      intros k Hk. destruct (decide (k = m)) as [->|Hne]; [done|].
      apply Hz. lia.
    + split; [lia|]. split; [intros; lia|].
      intros _ Heq. cbn in Heq. rewrite Nat.sub_0_r in Heq.
      apply eqb_x00 in Heq. congruence.
Qed.

Lemma length_field buffer size i :
  (size * S i ≤ length buffer)%nat → length (field buffer size i) = size.
Proof.
  intros H. unfold field. rewrite length_take, length_drop. lia.
Qed.

Lemma lookup_field buffer size i k :
  (size * S i ≤ length buffer)%nat → (k < size)%nat →
  field buffer size i !! k = Some (field_at buffer size i k).
Proof.
  intros Hlen Hk. unfold field, field_at.
  rewrite lookup_take_lt, lookup_drop by done.
  destruct (lookup_lt_is_Some_2 buffer (size * i + k)) as [b ->]; [lia|].
  done.
Qed.

Lemma string_of_take ptr (fld : list byte) l :
  (∀ k, (k < length fld)%nat → fld !! k = Some (ptr k)) →
  (l ≤ length fld)%nat → string_of ptr l = take l fld.
Proof.
  intros Hptr Hl. unfold string_of. apply list_eq. intros k.
  rewrite list_lookup_fmap.
  destruct (decide (k < l)%nat) as [Hk|Hk].
  - rewrite lookup_seq_lt, lookup_take_lt by done. cbn.
    symmetry. apply Hptr. lia.
  - rewrite lookup_seq_ge, lookup_take_ge by lia. done.
Qed.

(** The null-terminated decoding of element [i] is the field up to its
    first zero byte. *)
Lemma decode_nullterm_spec buffer size i :
  (size * S i ≤ length buffer)%nat →
  up_to_first_zero (field buffer size i) (decode_nullterm buffer size i).
Proof.
  intros Hlen. unfold decode_nullterm. cbn zeta.
  set (ptr := field_at buffer size i).
  destruct (nullterm_scan_spec ptr size 0) as (Hl & Hnz & Hz).
  set (l := nullterm_scan ptr size 0) in *.
  pose proof (length_field buffer size i Hlen) as Hfl.
  assert (∀ k, (k < length (field buffer size i))%nat →
               field buffer size i !! k = Some (ptr k)) as Hptr.
  { intros k Hk. apply lookup_field; [done|lia]. }
  rewrite (string_of_take ptr (field buffer size i)) by (done || lia).
  exists (drop l (field buffer size i)).
  split; [by rewrite take_drop|]. split.
  - apply Forall_lookup. intros k b Hb.
    apply lookup_take_Some in Hb as [Hb Hk].
    rewrite Hptr in Hb by lia. injection Hb as <-. apply Hnz. lia.
  - destruct (decide (l < size)%nat) as [Hlt|Hge].
    + right. rewrite head_lookup, lookup_drop, Nat.add_0_r.
      rewrite Hptr by lia. f_equal. apply Hz. lia.
    + left. apply drop_ge. lia.
Qed.

(** The null-padded decoding of element [i] is the field without its
    trailing zero bytes. *)
Lemma decode_nullpad_spec buffer size i :
  (size * S i ≤ length buffer)%nat →
  trailing_zeros_trimmed (field buffer size i)
    (decode_nullpad buffer size i).
Proof.
  intros Hlen. unfold decode_nullpad. cbn zeta.
  set (ptr := field_at buffer size i).
  destruct (nullpad_scan_spec ptr size) as (Hl & Hz & Hnz).
  set (l := nullpad_scan ptr size) in *.
  pose proof (length_field buffer size i Hlen) as Hfl.
  assert (∀ k, (k < length (field buffer size i))%nat →
               field buffer size i !! k = Some (ptr k)) as Hptr.
  { intros k Hk. apply lookup_field; [done|lia]. }
  rewrite (string_of_take ptr (field buffer size i)) by (done || lia).
  exists (size - l)%nat. split.
  - rewrite <- (take_drop l (field buffer size i)) at 1. f_equal.
    apply list_eq. intros k. rewrite lookup_drop.
    destruct (decide (k < size - l)%nat) as [Hk|Hk].
    + rewrite Hptr by lia. rewrite lookup_replicate_2 by done.
      f_equal. apply Hz. lia.
    + rewrite lookup_ge_None_2 by lia.
      symmetry. apply lookup_ge_None_2. rewrite length_replicate. lia.
  - rewrite last_lookup, length_take, Hfl.
    destruct (decide (l = 0)%nat) as [->|Hpos]; [done|].
    rewrite lookup_take_lt by lia. rewrite Hptr by lia.
    replace (Init.Nat.pred (l `min` size)) with (l - 1)%nat by lia.
    intros [= Heq]. apply Hnz; [lia|done].
Qed.

(** A loop that stores [g i] in element [i] of the output. *)
Lemma bfor_set_string (g : nat → list byte) n : ∀ i value,
  (i + n ≤ length (tensor_strings value))%nat →
  ∃ strings',
    bfor n i (λ i, set_string i (g i)) value
    = (Val tt, mkTensor (tensor_shape value) strings' (tensor_bytes value))
    ∧ length strings' = length (tensor_strings value)
    ∧ ∀ k, strings' !! k
           = if decide (i ≤ k < i + n)%nat then Some (g k)
             else tensor_strings value !! k.
Proof.
  induction n as [|n IH]; intros i value Hlen.
  - exists (tensor_strings value). destruct value. cbn.
    repeat split. intros k. case_decide; [lia|done].
  - cbn [bfor]. unfold bbind at 1. unfold set_string at 1.
    rewrite decide_True by lia.
    destruct (IH (S i) (mkTensor (tensor_shape value)
                          (<[i := g i]> (tensor_strings value))
                          (tensor_bytes value)))
      as (strings' & Hrun & Hl & Hpt).
    { cbn. rewrite length_insert. lia. }
    exists strings'. cbn in Hrun, Hl, Hpt. rewrite length_insert in Hl.
    split; [done|]. split; [done|].
    intros k. rewrite Hpt.
    destruct (decide (k = i)) as [->|Hne].
    + rewrite list_lookup_insert_eq by lia.
      repeat case_decide; (done || lia).
    + rewrite list_lookup_insert_ne by done.
      repeat case_decide; (done || lia).
Qed.

Lemma bfor_ext body body' n : ∀ i value,
  (∀ k value, (i ≤ k < i + n)%nat → body k value = body' k value) →
  bfor n i body value = bfor n i body' value.
Proof.
  induction n as [|n IH]; intros i value Hext; [done|].
  cbn [bfor]. unfold bbind. rewrite Hext by lia.
  destruct (body' i value) as [[[]| | |] value']; try done.
  apply IH. intros. apply Hext. lia.
Qed.

(** The fixed-length branch of [read_string], lines 453-486. *)
Lemma read_string_fixed d ms fs value :
  getClass (ds_type d) = H5T_STRING →
  isVariableStr (ds_type d) = false →
  (∀ c, ds_throws d c = None) →
  read_string d (ds_type d) ms fs value
  = let total := num_elements (tensor_shape value) in
    let buffer := ds_bytes d ms fs in
    let size := Z.to_nat (getSize (ds_type d)) in
    match getStrpad (ds_type d) with
    | H5T_STR_NULLTERM =>
        bfor total 0 (λ i, set_string i (decode_nullterm buffer size i))
          value
    | H5T_STR_NULLPAD =>
        bfor total 0 (λ i, set_string i (decode_nullpad buffer size i))
          value
    | H5T_STR_SPACEPAD =>
        (Return (InvalidArgument
                   [MStr "string pad type not supported: "; MInt 2]),
         value)
    | H5T_STR_RESERVED _ => (Val tt, value)
    end.
Proof.
  intros Hclass Hfixed Hquiet. unfold read_string. rewrite Hclass.
  unfold bbind at 1. unfold lift at 1. rewrite call_quiet by done.
  rewrite Hfixed. unfold bbind at 1. unfold value_NumElements.
  unfold bbind at 1. unfold lift at 1. rewrite call_quiet by done.
  cbn zeta. by destruct (getStrpad (ds_type d)) eqn:Hpad.
Qed.

(** C6.  A [Read] of a string data set with fixed-length storage, with a
    library that raises nothing and delivers one field of [getSize] bytes
    per element of the output:
    - with null-terminated padding every element of the output is its
      field up to the first zero byte, or the whole field when it has
      none;
    - with null padding every element is its field without the trailing
      zero bytes, zero bytes before the last non-zero byte being kept;
    - with space padding [Read] decodes nothing and returns the
      [InvalidArgument] that reports the padding mode. *)
Theorem C6_fixed_length_strings
  r component start shape alloc idx value file d ms fs :
  columns_index_ r !! component = Some idx →
  alloc shape = inr value →
  length (tensor_strings value) = num_elements (tensor_shape value) →
  file_image_ r = Some (Some file) →
  openDataSet file component = inr d →
  (∀ c, ds_throws d c = None) →
  select d start shape (Simple (ds_dims d) SelectAll) = Val (ms, fs) →
  dtypes_ r !! Z.to_nat idx = Some DT_STRING →
  getClass (ds_type d) = H5T_STRING →
  isVariableStr (ds_type d) = false →
  let total := num_elements (tensor_shape value) in
  let size := Z.to_nat (getSize (ds_type d)) in
  let buffer := ds_bytes d ms fs in
  (getStrpad (ds_type d) = H5T_STR_NULLTERM →
   length buffer = (size * total)%nat →
   ∃ value',
     Read r component start shape alloc = (Returned OkStatus, Some value')
     ∧ tensor_shape value' = tensor_shape value
     ∧ ∀ i, (i < total)%nat →
         ∃ out, tensor_strings value' !! i = Some out
                ∧ up_to_first_zero (field buffer size i) out)
  ∧ (getStrpad (ds_type d) = H5T_STR_NULLPAD →
     length buffer = (size * total)%nat →
     ∃ value',
       Read r component start shape alloc = (Returned OkStatus, Some value')
       ∧ tensor_shape value' = tensor_shape value
       ∧ ∀ i, (i < total)%nat →
           ∃ out, tensor_strings value' !! i = Some out
                  ∧ trailing_zeros_trimmed (field buffer size i) out)
  ∧ (getStrpad (ds_type d) = H5T_STR_SPACEPAD →
     Read r component start shape alloc
     = (Returned (InvalidArgument
                    [MStr "string pad type not supported: "; MInt 2]),
        Some value)).
Proof.
  intros Hidx Halloc Hvalue Hfile Hopen Hquiet Hsel Hdtype Hclass Hfixed
    total size buffer.
  pose proof (Read_after_open r component start shape alloc idx value file d
                Hidx Halloc Hfile Hopen (Hquiet _) (Hquiet _)) as HRead.
  rewrite (after_open_Val _ _ _ _ _ _ _ _ _ Hsel Hdtype) in HRead.
  cbn [decode] in HRead.
  rewrite (read_string_fixed d ms fs value Hclass Hfixed Hquiet) in HRead.
  cbn zeta in HRead. fold total size buffer in HRead.
  split; [|split]; intros Hpad; rewrite Hpad in HRead.
  - intros Hbuf.
    destruct (bfor_set_string (λ i, decode_nullterm buffer size i) total 0
                value) as (strings' & Hrun & Hl & Hpt); [lia|].
    rewrite Hrun in HRead. eexists. split; [exact HRead|]. split; [done|].
    intros i Hi. eexists. cbn. rewrite Hpt, decide_True by lia.
    split; [done|]. apply decode_nullterm_spec. nia.
  - intros Hbuf.
    destruct (bfor_set_string (λ i, decode_nullpad buffer size i) total 0
                value) as (strings' & Hrun & Hl & Hpt); [lia|].
    rewrite Hrun in HRead. eexists. split; [exact HRead|]. split; [done|].
    intros i Hi. eexists. cbn. rewrite Hpt, decide_True by lia.
    split; [done|]. apply decode_nullpad_spec. nia.
  - exact HRead.
Qed.

Lemma c_string_spec block : up_to_first_zero block (c_string block).
Proof.
  induction block as [|b block (rest & Hblock & Hnz & Hrest)].
  - exists []. repeat split; [constructor|by left].
  - cbn. destruct (Byte.eqb b x00) eqn:Hb.
    + apply eqb_x00 in Hb as ->. exists (x00 :: block).
      repeat split; [constructor|by right].
    + exists rest. split; [cbn; by rewrite <- Hblock|]. split; [|done].
      constructor; [|done]. intros ->. by rewrite (proj2 (eqb_x00 x00)) in Hb.
Qed.

(** A loop that stores in element [i] a string made from entry [i] of the
    buffer the library filled. *)
Lemma bfor_buffer {A} (buffer : list A) (h : A → list byte) value :
  length buffer = num_elements (tensor_shape value) →
  length (tensor_strings value) = num_elements (tensor_shape value) →
  ∃ strings',
    bfor (num_elements (tensor_shape value)) 0
      (λ i, x ←: lift (buffer_at buffer i); set_string i (h x)) value
    = (Val tt, mkTensor (tensor_shape value) strings' (tensor_bytes value))
    ∧ strings' = h <$> buffer.
Proof.
  intros Hbuf Hvalue.
  set (g := λ i : nat, default [] (h <$> buffer !! i)).
  rewrite (bfor_ext _ (λ i, set_string i (g i))).
  - destruct (bfor_set_string g (num_elements (tensor_shape value)) 0 value)
      as (strings' & Hrun & Hl & Hpt); [lia|].
    exists strings'. split; [done|].
    apply list_eq. intros k. rewrite Hpt, list_lookup_fmap.
    case_decide as Hk.
    + destruct (lookup_lt_is_Some_2 buffer k) as [x Hx]; [lia|].
      unfold g. by rewrite Hx.
    + rewrite !lookup_ge_None_2 by lia. done.
  - intros k v Hk. unfold bbind, lift, buffer_at, g.
    destruct (lookup_lt_is_Some_2 buffer k) as [x ->]; [lia|]. done.
Qed.

(** The [H5T_VLEN] branch of [read_string], lines 489-498. *)
Lemma read_string_vlen d ms fs value :
  getClass (ds_type d) = H5T_VLEN →
  (∀ c, ds_throws d c = None) →
  length (ds_hvl d ms fs) = num_elements (tensor_shape value) →
  length (tensor_strings value) = num_elements (tensor_shape value) →
  read_string d (ds_type d) ms fs value
  = (Val tt,
     mkTensor (tensor_shape value)
       ((λ h, string_n (ds_heap d (p h)) (len h)) <$> ds_hvl d ms fs)
       (tensor_bytes value)).
Proof.
  intros Hclass Hquiet Hbuf Hvalue. unfold read_string. rewrite Hclass.
  unfold bbind at 1. unfold value_NumElements.
  unfold bbind at 1. unfold lift at 1. rewrite call_quiet by done.
  destruct (bfor_buffer (ds_hvl d ms fs)
              (λ h, string_n (ds_heap d (p h)) (len h)) value)
    as (strings' & Hrun & ->); [done..|].
  unfold bbind at 1. rewrite Hrun.
  unfold lift. by rewrite ?call_quiet by done.
Qed.

(** The variable-length branch of [read_string], lines 442-451. *)
Lemma read_string_variable d ms fs value :
  getClass (ds_type d) = H5T_STRING →
  isVariableStr (ds_type d) = true →
  (∀ c, ds_throws d c = None) →
  length (ds_pointers d ms fs) = num_elements (tensor_shape value) →
  length (tensor_strings value) = num_elements (tensor_shape value) →
  read_string d (ds_type d) ms fs value
  = (Val tt,
     mkTensor (tensor_shape value)
       ((λ ptr, c_string (ds_heap d ptr)) <$> ds_pointers d ms fs)
       (tensor_bytes value)).
Proof.
  intros Hclass Hvar Hquiet Hbuf Hvalue. unfold read_string.
  rewrite Hclass.
  unfold bbind at 1. unfold lift at 1. rewrite call_quiet by done.
  rewrite Hvar. unfold bbind at 1. unfold value_NumElements.
  unfold bbind at 1. unfold lift at 1. rewrite call_quiet by done.
  unfold bbind at 1. unfold lift at 1. rewrite call_quiet by done.
  destruct (bfor_buffer (ds_pointers d ms fs)
              (λ ptr, c_string (ds_heap d ptr)) value)
    as (strings' & Hrun & ->); [done..|].
  unfold bbind at 1. rewrite Hrun.
  unfold lift. by rewrite ?call_quiet by done.
Qed.

(** C7, as amended.  A [Read] of a string data set with variable-length
    storage, with a library that raises nothing and delivers one record
    per element of the output:
    - for storage of class [H5T_VLEN] the records are [hvl_t] pairs
      [(len, p)], and element [i] of the output is the first [len] bytes
      of the block at [p];
    - for a variable-length [H5T_STRING] the records are bare [char*]
      pointers, and element [i] of the output is the block at the pointer
      up to its first zero byte. *)
Theorem C7_variable_length_strings
  r component start shape alloc idx value file d ms fs :
  columns_index_ r !! component = Some idx →
  alloc shape = inr value →
  length (tensor_strings value) = num_elements (tensor_shape value) →
  file_image_ r = Some (Some file) →
  openDataSet file component = inr d →
  (∀ c, ds_throws d c = None) →
  select d start shape (Simple (ds_dims d) SelectAll) = Val (ms, fs) →
  dtypes_ r !! Z.to_nat idx = Some DT_STRING →
  let total := num_elements (tensor_shape value) in
  (getClass (ds_type d) = H5T_VLEN →
   length (ds_hvl d ms fs) = total →
   ∃ value',
     Read r component start shape alloc = (Returned OkStatus, Some value')
     ∧ ∀ i h, ds_hvl d ms fs !! i = Some h →
         tensor_strings value' !! i
         = Some (take (Z.to_nat (len h)) (ds_heap d (p h))))
  ∧ (getClass (ds_type d) = H5T_STRING →
     isVariableStr (ds_type d) = true →
     length (ds_pointers d ms fs) = total →
     ∃ value',
       Read r component start shape alloc = (Returned OkStatus, Some value')
       ∧ ∀ i ptr, ds_pointers d ms fs !! i = Some ptr →
           ∃ out, tensor_strings value' !! i = Some out
                  ∧ up_to_first_zero (ds_heap d ptr) out).
Proof.
  intros Hidx Halloc Hvalue Hfile Hopen Hquiet Hsel Hdtype total.
  pose proof (Read_after_open r component start shape alloc idx value file d
                Hidx Halloc Hfile Hopen (Hquiet _) (Hquiet _)) as HRead.
  rewrite (after_open_Val _ _ _ _ _ _ _ _ _ Hsel Hdtype) in HRead.
  cbn [decode] in HRead.
  split.
  - intros Hclass Hbuf.
    rewrite (read_string_vlen d ms fs value) in HRead by done.
    eexists. split; [exact HRead|].
    intros i h Hh. cbn [snd tensor_strings].
    rewrite list_lookup_fmap, Hh. done.
  - intros Hclass Hvar Hbuf.
    rewrite (read_string_variable d ms fs value) in HRead by done.
    eexists. split; [exact HRead|].
    intros i ptr Hptr. eexists. cbn [snd tensor_strings].
    rewrite list_lookup_fmap, Hptr.
    split; [done|]. apply c_string_spec.
Qed.

End strings.

(** ** Exceptions of the library inside [Read] *)

Section exceptions.
Import H5 HDF5ReadableResource.

Lemma Read_of_try r component start shape alloc idx value file :
  columns_index_ r !! component = Some idx →
  alloc shape = inr value →
  file_image_ r = Some (Some file) →
  Read r component start shape alloc
  = (Read_catch r (Read_try r file idx component start shape value).1,
     Some (Read_try r file idx component start shape value).2).
Proof.
  intros Hidx Halloc Hfile. unfold Read. rewrite Hidx, Halloc, Hfile.
  by destruct (Read_try _ _ _ _ _ _ _).
Qed.

(** No exception of the two handled classes ever leaves [Read]. *)
Lemma Read_never_propagates_handled r component start shape alloc e value :
  Read r component start shape alloc = (Propagated e, value) →
  exc_class e ≠ FileIException ∧ exc_class e ≠ DataSetIException.
Proof.
  unfold Read. intros HRead.
  destruct (columns_index_ r !! component); [|done].
  destruct (alloc shape); [done|].
  destruct (file_image_ r) as [[file|]|]; try done.
  destruct (Read_try _ _ _ _ _ _ _) as [[[]| |e'|] value'];
    cbn in HRead; try done.
  destruct (exc_class e') eqn:Hc; simplify_eq; by rewrite Hc.
Qed.

(** C8, as amended.  An exception of class [FileIException] or
    [DataSetIException] that leaves the [try] block of [Read] is turned into
    an [InvalidArgument]; the error carries the name of the container file
    (not the path of the data set) and the detail message of the exception.
    No exception of these two classes leaves [Read]. *)
Theorem C8_read_translates_file_and_dataset_exceptions
  r component start shape alloc :
  (∀ idx value file e value',
     columns_index_ r !! component = Some idx →
     alloc shape = inr value →
     file_image_ r = Some (Some file) →
     Read_try r file idx component start shape value = (Throw e, value') →
     (exc_class e = FileIException →
      Read r component start shape alloc
      = (Returned (open_error r e), Some value'))
     ∧ (exc_class e = DataSetIException →
        Read r component start shape alloc
        = (Returned (process_error r e), Some value')))
  ∧ (∀ e value,
       Read r component start shape alloc = (Propagated e, value) →
       exc_class e ≠ FileIException ∧ exc_class e ≠ DataSetIException).
Proof.
  split.
  - intros idx value file e value' Hidx Halloc Hfile Htry.
    rewrite (Read_of_try _ _ _ _ _ _ _ _ Hidx Halloc Hfile), Htry.
    cbn [fst snd Read_catch].
    split; intros Hclass; by rewrite Hclass.
  - intros e value. apply Read_never_propagates_handled.
Qed.

End exceptions.

(** ** The walk over the object graph *)

Section walk.
Import H5 HDF5Iterate.

Context (f : H5File) (uninit : H5O_info_t).

Local Open Scope nat_scope.

Lemma H5Literate_nil fuel p :
  H5Literate (S fuel) f uninit [] p = Some (0%Z, p).
Proof. reflexivity. Qed.

Lemma H5Literate_cons fuel link rest p :
  H5Literate (S fuel) f uninit (link :: rest) p
  = match Iterate f uninit (H5Literate_by_name fuel f uninit) link p with
    | Some (err, p') =>
        if decide (err = 0%Z) then H5Literate (S fuel) f uninit rest p'
        else Some (err, p')
    | None => None
    end.
Proof. reflexivity. Qed.

(** The three things [Iterate] can do with a link: enter a group that has
    not been seen, append a data set, or leave the state alone. *)
Lemma Iterate_view k name target p :
  let err := (H5Oget_info_by_name f uninit target).1 in
  let info := (H5Oget_info_by_name f uninit target).2 in
  let path := (at_key (groups_ p) (parent_ p)).1 in
  let g := (at_key (groups_ p) (parent_ p)).2 in
  (type info = H5O_TYPE_GROUP ∧ groups_ p !! addr info = None
   ∧ Iterate f uninit k (name, target) p
     = match k target (mk (datasets_ p)
                         (<[addr info := path +:+ "/" +:+ name]> g)
                         (addr info)) with
       | Some (err, p2) =>
           Some (err, mk (datasets_ p2) (groups_ p2) (parent_ p))
       | None => None
       end)
  ∨ (type info = H5O_TYPE_DATASET
     ∧ Iterate f uninit k (name, target) p
       = Some (err, mk (datasets_ p ++ [path +:+ "/" +:+ name]) g
                      (parent_ p)))
  ∨ Iterate f uninit k (name, target) p = Some (err, p).
Proof.
  cbn zeta. unfold Iterate.
  destruct (H5Oget_info_by_name f uninit target) as [err info].
  destruct (at_key (groups_ p) (parent_ p)) as [path g]. cbn [fst snd].
  destruct (type info).
  - by do 2 right.
  - destruct (groups_ p !! addr info) eqn:Hseen.
    + by do 2 right.
    + left. done.
  - right. by left.
  - by do 2 right.
Qed.

Lemma at_key_dom g k : dom g ⊆ dom (at_key g k).2.
Proof.
  unfold at_key. destruct (g !! k) eqn:Hk; cbn; [done|].
  rewrite dom_insert_L. set_solver.
Qed.

Lemma at_key_Some g k q : g !! k = Some q → at_key g k = (q, g).
Proof. unfold at_key. by intros ->. Qed.

(** *** Termination *)

Lemma unseen_mono p p' :
  dom (groups_ p) ⊆ dom (groups_ p') → size (unseen f p') ≤ size (unseen f p).
Proof. intros H. apply subseteq_size. unfold unseen. set_solver. Qed.

Lemma unseen_enter p a q g :
  is_Some (objects f !! a) → groups_ p !! a = None →
  dom (groups_ p) ⊆ dom g →
  size (unseen f (mk (datasets_ p) (<[a := q]> g) a)) < size (unseen f p).
Proof.
  intros Hobj Hnew Hg. apply subset_size. unfold unseen. cbn.
  rewrite dom_insert_L.
  apply elem_of_dom in Hobj. apply not_elem_of_dom in Hnew.
  set_solver.
Qed.

(** With more fuel than there are unseen objects the iteration returns,
    and it only adds entries to [groups_]. *)
Lemma H5Literate_returns fuel : ∀ links p,
  size (unseen f p) < fuel →
  ∃ err p', H5Literate fuel f uninit links p = Some (err, p')
            ∧ dom (groups_ p) ⊆ dom (groups_ p').
Proof.
  induction fuel as [|fuel IHfuel]; [intros; lia|].
  induction links as [|[name target] rest IHlinks]; intros p Hfuel.
  - rewrite H5Literate_nil. by eexists _, _.
  - rewrite H5Literate_cons.
    assert (∃ err p', Iterate f uninit (H5Literate_by_name fuel f uninit)
                        (name, target) p = Some (err, p')
                      ∧ dom (groups_ p) ⊆ dom (groups_ p'))
      as (err & p' & -> & Hdom).
    { pose proof (at_key_dom (groups_ p) (parent_ p)) as Hg.
      destruct (Iterate_view (H5Literate_by_name fuel f uninit) name
                  target p) as [(Htype & Hnew & ->)|[[_ ->]| ->]].
      - unfold H5Literate_by_name, H5Oget_info_by_name in *.
        destruct (objects f !! target) as [o|] eqn:Hobj; cbn in *.
        + destruct o as [links'| | |]; try done.
          edestruct (IHfuel links') as (err & p2 & -> & Hdom).
          { eapply Nat.lt_le_trans;
              [by apply unseen_enter|]. lia. }
          eexists _, _. split; [done|]. cbn in *.
          rewrite dom_insert_L in Hdom. set_solver.
        + eexists _, _. split; [done|]. cbn.
          rewrite dom_insert_L. set_solver.
      - eexists _, _. split; [done|]. done.
      - by eexists _, _. }
    case_decide.
    + destruct (IHlinks p') as (err' & p'' & -> & Hdom').
      { pose proof (unseen_mono p p' Hdom). lia. }
      eexists _, _. split; [done|]. set_solver.
    + by eexists _, _.
Qed.


Lemma walk_returns : ∃ err p, walk f uninit = Some (err, p).
Proof.
  unfold walk, walk_fuel.
  destruct (H5Literate_returns (S (size (objects f))) (root_links f)
              (new (root f))) as (err & p & Hrun & _).
  - assert (size (unseen f (new (root f))) ≤ size (dom (objects f)))
      by (apply subseteq_size; unfold unseen; set_solver).
    rewrite size_dom in *. lia.
  - by exists err, p.
Qed.

(** *** No path is listed twice *)

Lemma append_nil t : "" +:+ t = t.
Proof. reflexivity. Qed.

Lemma append_cons c s t : String c s +:+ t = String c (s +:+ t).
Proof. reflexivity. Qed.










Lemma Inv_parent d g a b : Inv (mk d g a) → Inv (mk d g b).
Proof. done. Qed.



Context (Hfile : file_ok f).






End walk.

(** ** [Init] *)

Section init.
Import H5 HDF5ReadableResource.

(** C9.  In [Samples.dangling_first] the first link of the root does not
    resolve, so the walk stops with the error -1 before it reaches the
    data set ["a"].  [Init] does not look at that error: it returns ok
    and leaves an empty index. *)
Theorem C9_init_drops_the_walk_error :
  (Init_walk Samples.dangling_first Samples.uninit).1 = -1
  ∧ (Init (Samples.local_only "f.h5" Samples.dangling_first) Samples.uninit
       new "f.h5").1 = Returned OkStatus
  ∧ columns_index_ (Samples.opened Samples.dangling_first) = ∅
  ∧ is_Some (match openDataSet Samples.dangling_first "/a" with
             | inr d => Some d
             | inl _ => None
             end).
Proof. repeat split; vm_compute; eauto. Qed.

(** The value the walk returns has no influence on what [Init] returns. *)
Lemma Init_ignores_walk_error env uninit r input file :
  HDF5FileImage env input "" = inr (Some file) →
  (Init_datasets (complex_names_ r) file
     (HDF5Iterate.datasets_ (Init_walk file uninit).2)
     (dtypes_ r) (shapes_ r)).1 = Val tt →
  (Init env uninit r input).1 = Returned OkStatus.
Proof.
  intros Hopen Hloop. unfold Init.
  cbn [filename_ file_image_ dtypes_ shapes_ columns_index_ complex_names_].
  rewrite Hopen. destruct (Init_walk file uninit) as [err data].
  cbn [snd] in Hloop.
  destruct (Init_datasets _ _ _ _ _) as [result [dtypes shapes]].
  cbn in Hloop. by rewrite Hloop.
Qed.

(** Whatever makes [Init] end without ok, the index is left as it was. *)
Lemma Init_failure_keeps_index env uninit r input :
  (Init env uninit r input).1 ≠ Returned OkStatus →
  columns_index_ (Init env uninit r input).2 = columns_index_ r.
Proof.
  unfold Init. cbn [filename_ file_image_ dtypes_ shapes_ columns_index_
                      complex_names_].
  destruct (HDF5FileImage env input "") as [e|[file|]]; try done.
  destruct (Init_walk file uninit) as [err data].
  destruct (Init_datasets _ _ _ _ _) as [[[]| | |] [dtypes shapes]]; done.
Qed.

(** A resource whose first [Init] failed knows no component. *)
Lemma Init_failure_answers_nothing env uninit input component :
  (Init env uninit new input).1 ≠ Returned OkStatus →
  Spec (Init env uninit new input).2 component
  = Return (not_found component)
  ∧ Components (Init env uninit new input).2 = (OkStatus, []).
Proof.
  intros Hfail. unfold Spec, Components.
  rewrite (Init_failure_keeps_index _ _ _ _ Hfail). cbn.
  by rewrite lookup_empty, map_to_list_empty.
Qed.

(** The loop over the data sets stops at the first one that cannot be
    classified, with the error of the classification. *)
Lemma Init_datasets_stops names file before dataset rest dtypes shapes
  status :
  Forall (λ d, ∃ v, Init_dataset names file d = Val v) before →
  Init_dataset names file dataset = Return status →
  (Init_datasets names file (before ++ dataset :: rest) dtypes shapes).1
  = Return status.
Proof.
  intros Hbefore Hfail. revert dtypes shapes.
  induction Hbefore as [|d before [[dtype shape] Hd] _ IH];
    intros dtypes shapes; cbn.
  - by rewrite Hfail.
  - rewrite Hd. apply IH.
Qed.

End init.

(** ** The output tensor and the read kernel *)

Section allocation.
Import H5 HDF5ReadableResource.

Lemma keeps_shape_lift {A} (r : Result A) : keeps_shape (lift r).
Proof. done. Qed.

Lemma keeps_shape_bind {A B} (m : Body A) (k : A → Body B) :
  keeps_shape m → (∀ a, keeps_shape (k a)) → keeps_shape (bbind m k).
Proof.
  intros Hm Hk value. unfold bbind. specialize (Hm value).
  destruct (m value) as [[a| | |] value']; cbn in *; try done.
  by rewrite Hk.
Qed.

Lemma keeps_shape_set_string i s : keeps_shape (set_string i s).
Proof. intros value. unfold set_string. by case_decide. Qed.

Lemma keeps_shape_set_bytes d ms fs bytes :
  keeps_shape (set_bytes d ms fs bytes).
Proof.
  intros value. unfold set_bytes. destruct ms; [by case_decide|done].
Qed.

Lemma keeps_shape_bfor body n :
  (∀ i, keeps_shape (body i)) → ∀ i, keeps_shape (bfor n i body).
Proof.
  intros Hbody. induction n as [|n IH]; intros i; [done|].
  cbn [bfor]. apply keeps_shape_bind; [done|]. intros _. apply IH.
Qed.

Ltac keeps :=
  repeat first
    [ apply keeps_shape_lift
    | apply keeps_shape_set_string
    | apply keeps_shape_set_bytes
    | apply keeps_shape_bfor; intros ?
    | apply keeps_shape_bind; [|intros ?]
    | done ].

Lemma keeps_shape_decode dtype d data_type ms fs :
  keeps_shape (decode dtype d data_type ms fs).
Proof.
  assert (keeps_shape (read_numeric d data_type ms fs)) as Hnum
    by (unfold read_numeric; keeps).
  destruct dtype; cbn [decode]; try done; try keeps.
  - unfold read_string. destruct (getClass data_type); try keeps.
    + destruct (isVariableStr _); keeps.
      destruct (getStrpad data_type); keeps.
  - unfold read_bool. destruct (getClass data_type); try keeps.
    destruct (enum_is_bool data_type); keeps.
Qed.

Lemma keeps_shape_Read_try r file idx component start shape :
  keeps_shape (Read_try r file idx component start shape).
Proof.
  unfold Read_try. keeps. destruct a2. keeps. apply keeps_shape_decode.
Qed.

(** The tensor [Read] hands back is the one it obtained for [shape]. *)
Lemma Read_output_shape r component start shape idx :
  columns_index_ r !! component = Some idx →
  ∃ outcome value,
    Read r component start shape allocate_output = (outcome, Some value)
    ∧ tensor_shape value = shape.
Proof.
  intros Hidx. unfold Read, allocate_output. rewrite Hidx.
  destruct (file_image_ r) as [[file|]|]; try by eexists _, _.
  pose proof (keeps_shape_Read_try r file idx component start shape
                (fresh_tensor shape)) as Hshape.
  destruct (Read_try _ _ _ _ _ _ _) as [result value]. by eexists _, _.
Qed.

End allocation.

Section kernel_results.
Import H5 HDF5ReadableResource HDF5ReadableReadOp.

(** What the two loops of lines 691-701 make of [start], [stop] and
    [shape], entry by entry. *)
Lemma clamp_and_reshape shape start stop :
  (length shape ≤ length start)%nat → (length shape ≤ length stop)%nat →
  (∀ k d a, shape !! k = Some d → start !! k = Some a →
            0 <= d ∧ d - a < 2 ^ 63) →
  ∃ start' stop' shape',
    clamp shape start stop = inr (start', stop')
    ∧ reshape shape start' stop' = inr shape'
    ∧ length shape' = length shape
    ∧ ∀ k d a b,
        shape !! k = Some d → start !! k = Some a → stop !! k = Some b →
        stop' !! k = Some (snap d b)
        ∧ start' !! k = Some (pull a (snap d b))
        ∧ shape' !! k = Some (snap d b - pull a (snap d b)).
Proof.
  intros Hstart Hstop Hrange.
  destruct (clamp_loop shape (length shape) 0 start stop)
    as (start' & stop' & Hrun & Hl1 & Hl2 & Hpt); [lia|lia|].
  assert (∀ k d a b, shape !! k = Some d → start !! k = Some a →
            stop !! k = Some b →
            stop' !! k = Some (snap d b)
            ∧ start' !! k = Some (pull a (snap d b))) as Hpt'.
  { intros k d a b Hd Ha Hb. destruct (Hpt k a b Ha Hb) as [H1 H2].
    pose proof (lookup_lt_Some _ _ _ Hd).
    rewrite H1, H2. unfold dim_size. rewrite Hd. cbn.
    repeat case_decide; try lia; done. }
  destruct (reshape_loop start' stop' (length shape) 0 shape)
    as (shape' & Hrun' & Hl' & Hpt''); [lia|lia|lia| |].
  { intros k a' b' Hk Ha' Hb'.
    destruct (lookup_lt_is_Some_2 shape k) as [d Hd]; [lia|].
    destruct (lookup_lt_is_Some_2 start k) as [a Ha]; [lia|].
    destruct (lookup_lt_is_Some_2 stop k) as [b Hb]; [lia|].
    destruct (Hpt' k d a b Hd Ha Hb) as [H1 H2].
    destruct (Hrange k d a Hd Ha).
    assert (b' = snap d b) as -> by congruence.
    assert (a' = pull a (snap d b)) as -> by congruence.
    unfold pull, snap. repeat case_decide; lia. }
  exists start', stop', shape'.
  unfold clamp, reshape, for_range. rewrite Nat.sub_0_r.
  split; [done|]. split; [done|]. split; [done|].
  intros k d a b Hd Ha Hb.
  destruct (Hpt' k d a b Hd Ha Hb) as [H1 H2].
  pose proof (lookup_lt_Some _ _ _ Hd).
  split; [done|]. split; [done|].
  rewrite (Hpt'' k d _ _ Hd H2 H1). by rewrite decide_True by lia.
Qed.

(** C1, as amended.  The normalisation step of the read kernel.  The
    bound [dim[i]] it clamps to is entry [i] of the [shape] input of the
    kernel; it is the extent of the data set only when the caller passes
    that extent.
    - On [start] and [stop] vectors that have one entry per dimension of
      [shape] (lines 691-701): an entry of [stop] that is negative or larger
      than [dim[i]] is snapped to [dim[i]], an entry of [start] larger than
      the snapped [stop] is pulled down to it, and the shape handed to
      [Read] is [stop - start] entry by entry.
    - Through the whole kernel, for [start] and [stop] tensors with one
      element per dimension and a [stop] vector that has an entry for every
      dimension, that is a request whose rank is at most the rank of the
      [stop] tensor: the output tensor is allocated with that shape.
    - A request whose rank exceeds the rank of the [stop] tensor indexes
      outside the [stop] vector before any clamping, and a request with a
      negative entry in [shape] stops at the check of [TensorShape].
    - In particular the request [start = [8]], [stop = [3]] with
      [shape = [10]] on a data set of extent [[10]] returns ok with an
      output of shape [[0]]. *)
Theorem C1_normalization_clamps :
  (∀ shape start stop : list Z,
     length start = length shape → length stop = length shape →
     (∀ k d a, shape !! k = Some d → start !! k = Some a →
               0 <= d ∧ d - a < 2 ^ 63) →
     ∃ start' stop' shape',
       clamp shape start stop = inr (start', stop')
       ∧ reshape shape start' stop' = inr shape'
       ∧ ∀ k d a b,
           shape !! k = Some d → start !! k = Some a →
           stop !! k = Some b →
           let s := if decide (b < 0 ∨ b > d) then d else b in
           let a' := if decide (a > s) then s else a in
           stop' !! k = Some s ∧ start' !! k = Some a'
           ∧ shape' !! k = Some (s - a'))
  ∧ (∀ r component idx shape_tensor start_tensor stop_tensor,
       let shape := ts_flat shape_tensor in
       NumElements start_tensor = length shape →
       NumElements stop_tensor = length shape →
       (length shape ≤ Tensor_dims stop_tensor)%nat →
       (∀ k d a, shape !! k = Some d → ts_flat start_tensor !! k = Some a →
                 0 <= d ∧ d - a < 2 ^ 63) →
       columns_index_ r !! component = Some idx →
       ∃ outcome value,
         ResourceKernel r component shape_tensor start_tensor stop_tensor
         = (outcome, Some value)
         ∧ length (tensor_shape value) = length shape
         ∧ ∀ k d a b,
             shape !! k = Some d → ts_flat start_tensor !! k = Some a →
             ts_flat stop_tensor !! k = Some b →
             let s := if decide (b < 0 ∨ b > d) then d else b in
             let a' := if decide (a > s) then s else a in
             tensor_shape value !! k = Some (s - a'))
  ∧ (∀ r component shape_tensor start_tensor stop_tensor,
       let shape := ts_flat shape_tensor in
       Forall (λ d, 0 <= d) shape →
       (NumElements start_tensor ≤ length shape)%nat →
       (Tensor_dims stop_tensor < length shape)%nat →
       ResourceKernel r component shape_tensor start_tensor stop_tensor
       = (Undefined (OutOfRange "stop" (Tensor_dims stop_tensor)
                       (Tensor_dims stop_tensor)), None))
  ∧ (∀ r component shape_tensor start_tensor stop_tensor,
       ¬ Forall (λ d, 0 <= d) (ts_flat shape_tensor) →
       ResourceKernel r component shape_tensor start_tensor stop_tensor
       = (Undefined (CheckFailed "TensorShape"), None))
  ∧ (∀ r component idx file d dtype,
       columns_index_ r !! component = Some idx →
       file_image_ r = Some (Some file) →
       openDataSet file component = inr d →
       ds_dims d = [10] →
       (∀ c, ds_throws d c = None) →
       dtypes_ r !! Z.to_nat idx = Some dtype → bulk_type dtype →
       ∃ value,
         ResourceKernel r component (mkInt64Tensor [1] [10])
           (mkInt64Tensor [1] [8]) (mkInt64Tensor [1] [3])
         = (Returned OkStatus, Some value)
         ∧ tensor_shape value = [0]).
Proof.
  split; [|split; [|split; [|split]]].
  - intros shape start stop Hstart Hstop Hrange.
    destruct (clamp_and_reshape shape start stop)
      as (start' & stop' & shape' & Hc & Hr & _ & Hpt); [lia|lia|done|].
    by exists start', stop', shape'.
  - intros r component idx shape_tensor start_tensor stop_tensor shape
      Hns Hnp Hk Hrange Hidx.
    destruct (fill_stop_full shape stop_tensor Hnp Hk)
      as (stop & Hfill & Hlstop & Hstop).
    destruct (clamp_and_reshape shape (ts_flat start_tensor) stop)
      as (start' & stop' & shape' & Hc & Hr & Hl & Hpt);
      [unfold NumElements in Hns; lia|lia|done|].
    destruct (Read_output_shape r component start' shape' idx Hidx)
      as (outcome & value & HRead & Hshape).
    exists outcome, value. split; [|split].
    + unfold ResourceKernel, normalize. fold shape.
      rewrite TensorShape_nonneg; cbn [cbind].
      2:{ apply Forall_lookup. intros k d Hd.
          destruct (lookup_lt_is_Some_2 (ts_flat start_tensor) k) as [a Ha].
          - apply lookup_lt_Some in Hd. unfold NumElements in Hns. lia.
          - by destruct (Hrange k d a Hd Ha). }
      rewrite (fill_start_full shape start_tensor Hns). cbn [cbind].
      rewrite Hfill. cbn [cbind]. rewrite Hc. cbn [cbind].
      rewrite Hr. cbn [cbind]. exact HRead.
    + by rewrite Hshape.
    + intros k d a b Hd Ha Hb. cbn zeta. rewrite Hshape.
      pose proof (lookup_lt_Some _ _ _ Hd).
      rewrite <- Hstop in Hb by done.
      by destruct (Hpt k d a b Hd Ha Hb) as (_ & _ & ?).
  - intros r component shape_tensor start_tensor stop_tensor shape
      Hpos Hns Hk.
    unfold ResourceKernel. by rewrite normalize_outside_stop.
  - intros r component shape_tensor start_tensor stop_tensor Hneg.
    unfold ResourceKernel. by rewrite normalize_negative_shape.
  - intros r component idx file d dtype ???????.
    eexists. split; [by eapply degenerate_request|done].
Qed.

Lemma C1_normalization_clamps_witness :
  (∃ start' stop' shape',
     clamp [10; 20] [8; 5] [3; 25] = inr (start', stop')
     ∧ reshape [10; 20] start' stop' = inr shape'
     ∧ ∀ k d a b,
         [10; 20] !! k = Some d → [8; 5] !! k = Some a →
         [3; 25] !! k = Some b →
         let s := if decide (b < 0 ∨ b > d) then d else b in
         let a' := if decide (a > s) then s else a in
         stop' !! k = Some s ∧ start' !! k = Some a'
         ∧ shape' !! k = Some (s - a'))
  ∧ (∃ outcome value,
       ResourceKernel (Samples.opened Fixtures.nested) "/g/y"
         (mkInt64Tensor [2] [2; 3]) (mkInt64Tensor [2] [0; 1])
         (mkInt64Tensor [1; 2] [5; 2])
       = (outcome, Some value)
       ∧ length (tensor_shape value) = 2%nat
       ∧ ∀ k d a b,
           [2; 3] !! k = Some d → [0; 1] !! k = Some a →
           [5; 2] !! k = Some b →
           let s := if decide (b < 0 ∨ b > d) then d else b in
           let a' := if decide (a > s) then s else a in
           tensor_shape value !! k = Some (s - a'))
  ∧ ResourceKernel (Samples.opened Fixtures.nested) "/g/y"
      (mkInt64Tensor [2] [2; 3]) (mkInt64Tensor [2] [0; 1])
      (mkInt64Tensor [2] [5; 2])
    = (Undefined (OutOfRange "stop" 1 1), None)
  ∧ ResourceKernel (Samples.opened Samples.one_dataset) "/x"
      (mkInt64Tensor [1] [-10]) (mkInt64Tensor [1] [0])
      (mkInt64Tensor [1] [3])
    = (Undefined (CheckFailed "TensorShape"), None)
  ∧ ∃ value,
      ResourceKernel (Samples.opened Samples.one_dataset) "/x"
        (mkInt64Tensor [1] [10]) (mkInt64Tensor [1] [8])
        (mkInt64Tensor [1] [3])
      = (Returned OkStatus, Some value)
      ∧ tensor_shape value = [0].
Proof.
  split; [|split; [|split; [|split]]].
  - apply (proj1 C1_normalization_clamps [10; 20] [8; 5] [3; 25]);
      [done|done|].
    intros [|[|k]] d a Hd Ha; simplify_eq/=; lia.
  - apply (proj1 (proj2 C1_normalization_clamps)
             (Samples.opened Fixtures.nested) "/g/y" 0
             (mkInt64Tensor [2] [2; 3]) (mkInt64Tensor [2] [0; 1])
             (mkInt64Tensor [1; 2] [5; 2])); try reflexivity.
    intros [|[|k]] d a Hd Ha; simplify_eq/=; lia.
  - apply (proj1 (proj2 (proj2 C1_normalization_clamps))
             (Samples.opened Fixtures.nested) "/g/y"
             (mkInt64Tensor [2] [2; 3]) (mkInt64Tensor [2] [0; 1])
             (mkInt64Tensor [2] [5; 2])).
    + repeat constructor; lia.
    + cbn. lia.
    + cbn. lia.
  - apply (proj1 (proj2 (proj2 (proj2 C1_normalization_clamps)))
             (Samples.opened Samples.one_dataset) "/x"
             (mkInt64Tensor [1] [-10]) (mkInt64Tensor [1] [0])
             (mkInt64Tensor [1] [3])).
    intros Hpos. apply Forall_cons in Hpos as [Hpos _]. lia.
  - apply (proj2 (proj2 (proj2 (proj2 C1_normalization_clamps)))
             (Samples.opened Samples.one_dataset) "/x" 0
             Samples.one_dataset Samples.ten_ints DT_INT32);
      try reflexivity.
    unfold bulk_type. rewrite !elem_of_cons. tauto.
Defined.

(** A [stop] entry beyond the extent of the data set is not snapped to
    that extent when the [shape] input holds another number: with
    [shape = [20]] on the ten integers, [stop = [15]] stays 15, the shape
    handed to [Read] is [[12]], and [Read] refuses the request. *)
Lemma C1_stop_beyond_extent_is_kept :
  ds_dims Samples.ten_ints = [10]
  ∧ normalize (mkInt64Tensor [1] [20]) (mkInt64Tensor [1] [3])
      (mkInt64Tensor [1] [15])
    = inr ([3], [12])
  ∧ ResourceKernel (Samples.opened Samples.one_dataset) "/x"
      (mkInt64Tensor [1] [20]) (mkInt64Tensor [1] [3])
      (mkInt64Tensor [1] [15])
    = (Returned (boundary_error 0 3 12 10), Some (fresh_tensor [12])).
Proof. repeat split; vm_compute; reflexivity. Qed.

(** C10.  The vector [stop] has [stop_tensor->shape().dims()] entries, so a
    request of rank 2 with a [stop] tensor of shape [[2]] writes [stop[1]]
    in a vector of length 1. *)
Theorem C10_stop_index_outside_vector :
  normalize (mkInt64Tensor [2] [10; 10]) (mkInt64Tensor [2] [0; 0])
    (mkInt64Tensor [2] [5; 5])
  = inl (OutOfRange "stop" 1 1).
Proof. reflexivity. Qed.

End kernel_results.

(** ** Instances on the sample containers *)

Section instances.
Import H5 HDF5ReadableResource.

Lemma C2_read_checks_rank_and_bounds_witness :
  (∃ j a' s' dim',
     (j ≤ 0)%nat ∧ [3] !! j = Some a' ∧ [9] !! j = Some s'
     ∧ ds_dims Samples.ten_ints !! j = Some dim'
     ∧ Read (Samples.opened Samples.one_dataset) "/x" [3] [9]
         allocate_output
       = (Returned (boundary_error j a' s' dim'),
          Some (fresh_tensor [9])))
  ∧ Read (Samples.opened Samples.one_dataset) "/x" [0; 0] [2; 2]
      allocate_output
    = (Returned (rank_error 1 2), Some (fresh_tensor [2; 2]))
  ∧ Read Samples.vlen_resource "/x" [] [] allocate_output
    = (Read_catch Samples.vlen_resource
         (decode DT_STRING Samples.embedded_zero_vlen
            (ds_type Samples.embedded_zero_vlen) ALL
            (Simple (ds_dims Samples.embedded_zero_vlen) SelectAll)
            (fresh_tensor [])).1,
       Some (decode DT_STRING Samples.embedded_zero_vlen
               (ds_type Samples.embedded_zero_vlen) ALL
               (Simple (ds_dims Samples.embedded_zero_vlen) SelectAll)
               (fresh_tensor [])).2)
  ∧ Read (Samples.opened (Samples.file_of Fixtures.one_int)) "/x" [] []
      allocate_output
    = (Returned OkStatus, Some (mkTensor [] [[]] [x2a; x00; x00; x00]))
  ∧ Read (Samples.opened Samples.one_dataset) "/x" [] [] allocate_output
    = (Undefined (OutOfRange "value" 1 1), Some (fresh_tensor [])).
Proof.
  assert (bulk_type DT_INT32) as Hbulk
    by (unfold bulk_type; rewrite !elem_of_cons; tauto).
  split; [|split; [|split; [|split]]].
  - eapply (proj1 (proj2 (C2_read_checks_rank_and_bounds
                            (Samples.opened Samples.one_dataset) "/x"
                            [3] [9] allocate_output 0 (fresh_tensor [9])
                            Samples.one_dataset Samples.ten_ints
                            eq_refl eq_refl eq_refl eq_refl
                            (λ _, eq_refl)))) with (i := 0%nat);
      try done.
    + repeat constructor; unfold Int.in_int64; lia.
    + repeat constructor; lia.
    + repeat constructor; unfold Int.in_hsize; cbn; lia.
    + cbn. lia.
  - apply (proj1 (C2_read_checks_rank_and_bounds
                    (Samples.opened Samples.one_dataset) "/x"
                    [0; 0] [2; 2] allocate_output 0 (fresh_tensor [2; 2])
                    Samples.one_dataset Samples.ten_ints
                    eq_refl eq_refl eq_refl eq_refl (λ _, eq_refl)));
      done.
  - apply (proj1 (proj2 (proj2 (C2_read_checks_rank_and_bounds
                                  Samples.vlen_resource "/x" [] []
                                  allocate_output 0 (fresh_tensor [])
                                  (Samples.file_of Samples.embedded_zero_vlen)
                                  Samples.embedded_zero_vlen
                                  eq_refl eq_refl eq_refl eq_refl
                                  (λ _, eq_refl)))
                   eq_refl DT_STRING eq_refl)).
  - apply (proj1 (proj2 (proj2 (proj2 (C2_read_checks_rank_and_bounds
                                         (Samples.opened
                                            (Samples.file_of Fixtures.one_int))
                                         "/x" [] [] allocate_output
                                         0 (fresh_tensor [])
                                         (Samples.file_of Fixtures.one_int)
                                         Fixtures.one_int
                                         eq_refl eq_refl eq_refl eq_refl
                                         (λ _, eq_refl)))
                          eq_refl DT_INT32 eq_refl))); [done|].
    by vm_compute.
  - apply (proj2 (proj2 (proj2 (proj2 (C2_read_checks_rank_and_bounds
                                         (Samples.opened Samples.one_dataset)
                                         "/x" [] [] allocate_output
                                         0 (fresh_tensor [])
                                         Samples.one_dataset Samples.ten_ints
                                         eq_refl eq_refl eq_refl eq_refl
                                         (λ _, eq_refl)))
                          eq_refl DT_INT32 eq_refl))); [done|].
    by vm_compute.
Defined.

Lemma C6_fixed_length_strings_witness :
  (∃ value',
     Read (Samples.strings_resource H5T_STR_NULLTERM) "/x" [0] [3]
       allocate_output
     = (Returned OkStatus, Some value')
     ∧ tensor_shape value' = [3]
     ∧ ∀ i, (i < 3)%nat →
         ∃ out, tensor_strings value' !! i = Some out
                ∧ up_to_first_zero (field Samples.three_fields 5 i) out)
  ∧ (∃ value',
       Read (Samples.strings_resource H5T_STR_NULLPAD) "/x" [0] [3]
         allocate_output
       = (Returned OkStatus, Some value')
       ∧ tensor_shape value' = [3]
       ∧ ∀ i, (i < 3)%nat →
           ∃ out, tensor_strings value' !! i = Some out
                  ∧ trailing_zeros_trimmed (field Samples.three_fields 5 i)
                      out)
  ∧ Read (Samples.strings_resource H5T_STR_SPACEPAD) "/x" [0] [3]
      allocate_output
    = (Returned (InvalidArgument
                   [MStr "string pad type not supported: "; MInt 2]),
       Some (fresh_tensor [3])).
Proof.
  split; [|split].
  - apply (proj1 (C6_fixed_length_strings
                    (Samples.strings_resource H5T_STR_NULLTERM) "/x" [0] [3]
                    allocate_output 0 (fresh_tensor [3])
                    (Samples.file_of
                       (Samples.fixed_strings H5T_STR_NULLTERM))
                    (Samples.fixed_strings H5T_STR_NULLTERM)
                    (Simple [3] SelectAll)
                    (Simple [3] (SelectHyperslab [3] [0]))
                    eq_refl eq_refl eq_refl eq_refl eq_refl
                    (λ _, eq_refl) eq_refl eq_refl eq_refl eq_refl));
      reflexivity.
  - apply (proj1 (proj2 (C6_fixed_length_strings
                           (Samples.strings_resource H5T_STR_NULLPAD) "/x"
                           [0] [3] allocate_output 0 (fresh_tensor [3])
                           (Samples.file_of
                              (Samples.fixed_strings H5T_STR_NULLPAD))
                           (Samples.fixed_strings H5T_STR_NULLPAD)
                           (Simple [3] SelectAll)
                           (Simple [3] (SelectHyperslab [3] [0]))
                           eq_refl eq_refl eq_refl eq_refl eq_refl
                           (λ _, eq_refl) eq_refl eq_refl eq_refl eq_refl)));
      reflexivity.
  - apply (proj2 (proj2 (C6_fixed_length_strings
                           (Samples.strings_resource H5T_STR_SPACEPAD) "/x"
                           [0] [3] allocate_output 0 (fresh_tensor [3])
                           (Samples.file_of
                              (Samples.fixed_strings H5T_STR_SPACEPAD))
                           (Samples.fixed_strings H5T_STR_SPACEPAD)
                           (Simple [3] SelectAll)
                           (Simple [3] (SelectHyperslab [3] [0]))
                           eq_refl eq_refl eq_refl eq_refl eq_refl
                           (λ _, eq_refl) eq_refl eq_refl eq_refl eq_refl)));
      reflexivity.
Defined.

(** The three fields of the sample, decoded under both conventions. *)
Example decode_three_fields :
  (decode_nullterm Samples.three_fields 5 <$> [0; 1; 2]%nat)
  = [[x61; x62]; [x61]; [x68; x65; x6c; x6c; x6f]]
  ∧ (decode_nullpad Samples.three_fields 5 <$> [0; 1; 2]%nat)
    = [[x61; x62]; [x61; x00; x62]; [x68; x65; x6c; x6c; x6f]].
Proof. split; reflexivity. Qed.

Lemma C7_variable_length_strings_witness :
  (∃ value',
     Read Samples.vlen_resource "/x" [] [] allocate_output
     = (Returned OkStatus, Some value')
     ∧ ∀ i h, [mkHvl 3 100] !! i = Some h →
         tensor_strings value' !! i
         = Some (take (Z.to_nat (len h))
                   (ds_heap Samples.embedded_zero_vlen (p h))))
  ∧ ∃ value',
      Read (Samples.opened (Samples.file_of Samples.embedded_zero)) "/x"
        [] [] allocate_output
      = (Returned OkStatus, Some value')
      ∧ ∀ i ptr, [100] !! i = Some ptr →
          ∃ out, tensor_strings value' !! i = Some out
                 ∧ up_to_first_zero (ds_heap Samples.embedded_zero ptr) out.
Proof.
  split.
  - apply (proj1 (C7_variable_length_strings
                    Samples.vlen_resource "/x" [] [] allocate_output 0
                    (fresh_tensor [])
                    (Samples.file_of Samples.embedded_zero_vlen)
                    Samples.embedded_zero_vlen ALL (Simple [] SelectAll)
                    eq_refl eq_refl eq_refl eq_refl eq_refl
                    (λ _, eq_refl) eq_refl eq_refl));
      reflexivity.
  - apply (proj2 (C7_variable_length_strings
                    (Samples.opened (Samples.file_of Samples.embedded_zero))
                    "/x" [] [] allocate_output 0 (fresh_tensor [])
                    (Samples.file_of Samples.embedded_zero)
                    Samples.embedded_zero ALL (Simple [] SelectAll)
                    eq_refl eq_refl eq_refl eq_refl eq_refl
                    (λ _, eq_refl) eq_refl eq_refl));
      reflexivity.
Defined.

(** The variable-length string whose stored bytes are ["a\0b"] is read
    through a bare pointer and comes out as ["a"]: the byte after the
    zero byte is not copied. *)
Lemma C7_bytes_after_zero_are_dropped :
  ds_heap Samples.embedded_zero 100 = [x61; x00; x62; x00]
  ∧ ∃ value,
      Read (Samples.opened (Samples.file_of Samples.embedded_zero)) "/x"
        [] [] allocate_output
      = (Returned OkStatus, Some value)
      ∧ tensor_strings value = [[x61]].
Proof. split; [reflexivity|]. eexists. split; reflexivity. Qed.

Lemma C8_read_translates_file_and_dataset_exceptions_witness :
  Read Samples.stale "/x" [0] [2] allocate_output
  = (Returned (open_error Samples.stale
                 (mkException FileIException "H5Dopen2 failed")),
     Some (fresh_tensor [2]))
  ∧ Read (Samples.opened (Samples.file_of Samples.read_fails)) "/x" [0] [2]
      allocate_output
    = (Returned
         (process_error (Samples.opened (Samples.file_of Samples.read_fails))
            (mkException DataSetIException "H5Dread failed")),
       Some (fresh_tensor [2])).
Proof.
  split.
  - apply (proj1 (proj1 (C8_read_translates_file_and_dataset_exceptions
                           Samples.stale "/x" [0] [2] allocate_output)
                    0 (fresh_tensor [2]) Samples.no_objects
                    (mkException FileIException "H5Dopen2 failed")
                    (fresh_tensor [2]) eq_refl eq_refl eq_refl eq_refl));
      reflexivity.
  - apply (proj2 (proj1 (C8_read_translates_file_and_dataset_exceptions
                           (Samples.opened
                              (Samples.file_of Samples.read_fails))
                           "/x" [0] [2] allocate_output)
                    0 (fresh_tensor [2]) (Samples.file_of Samples.read_fails)
                    (mkException DataSetIException "H5Dread failed")
                    (fresh_tensor [2]) eq_refl eq_refl eq_refl eq_refl));
      reflexivity.
Defined.

(** An exception of class [DataSpaceIException] leaves [Read], and the
    error made from a [DataSetIException] names the file ["f.h5"] but not
    the data set ["/x"]. *)
Lemma C8_exception_escapes_and_path_is_missing :
  Read (Samples.opened (Samples.file_of Samples.select_fails)) "/x" [0] [2]
    allocate_output
  = (Propagated (mkException DataSpaceIException
                   "H5Sselect_hyperslab failed"),
     Some (fresh_tensor [2]))
  ∧ ∃ status,
      Read (Samples.opened (Samples.file_of Samples.read_fails)) "/x" [0] [2]
        allocate_output
      = (Returned status, Some (fresh_tensor [2]))
      ∧ error_message status
        = "unable to process dataset filef.h5: H5Dread failed"
      ∧ contains "/x" (error_message status) = false.
Proof. split; [reflexivity|]. eexists. repeat split; reflexivity. Qed.

End instances.

(** ** The walk on a container whose links all resolve *)

Section walk_graph.
Import H5 HDF5Iterate.

Context (f : H5File).

Local Open Scope nat_scope.

(** When the links resolve, the iteration returns 0 and the content of the
    uninitialised [iteminfo] is never looked at. *)
Lemma H5Literate_resolved fuel uninit uninit' : ∀ links p err p',
  links_resolve f →
  (∀ n b, (n, b) ∈ links → is_Some (objects f !! b)) →
  H5Literate fuel f uninit links p = Some (err, p') →
  err = 0%Z ∧ H5Literate fuel f uninit' links p = Some (err, p').
Proof.
  intros links p err p' Hres. revert links p err p'.
  induction fuel as [|fuel IHfuel]; [done|].
  induction links as [|[name target] rest IHlinks]; intros p err p' Hl Hrun.
  - rewrite H5Literate_nil in *. by injection Hrun as <- <-.
  - rewrite H5Literate_cons in *.
    assert (∀ r, Iterate f uninit (H5Literate_by_name fuel f uninit)
                   (name, target) p = Some r →
                 r.1 = 0%Z
                 ∧ Iterate f uninit' (H5Literate_by_name fuel f uninit')
                     (name, target) p = Some r) as Hstep.
    { intros r. unfold Iterate, H5Oget_info_by_name, H5Literate_by_name.
      destruct (Hl name target) as [o Ho]; [apply list_elem_of_here|].
      rewrite Ho. destruct o as [links'| | |]; cbn [type_of type addr].
      - destruct (groups_ p !! target); [by intros [= <-]|].
        destruct (at_key (groups_ p) (parent_ p)) as [path g].
        destruct (H5Literate fuel f uninit links' _) as [[err2 p2]|] eqn:Hrun2;
          [|done].
        intros [= <-].
        destruct (IHfuel _ _ _ _ (λ n b, Hres target links' n b Ho) Hrun2)
          as [-> ->]. done.
      - destruct (at_key (groups_ p) (parent_ p)) as [path g].
        by intros [= <-].
      - by intros [= <-].
      - by intros [= <-]. }
    destruct (Iterate f uninit _ (name, target) p) as [[err1 p1]|] eqn:Hit;
      [|done].
    destruct (Hstep _ eq_refl) as [Herr ->]. cbn in Herr. subst err1.
    rewrite decide_True in * by done.
    apply IHlinks; [|done].
    intros n b Hin. apply (Hl n). by apply list_elem_of_further.
Qed.

(** *** Paths and the objects they lead to *)

Lemma append_nil_r s : s +:+ "" = s.
Proof. induction s as [|c s IH]; [done|]. by rewrite append_cons, IH. Qed.

Lemma append_assoc s1 s2 s3 : (s1 +:+ s2) +:+ s3 = s1 +:+ (s2 +:+ s3).
Proof.
  induction s1 as [|c s1 IH]; [done|]. by rewrite !append_cons, IH.
Qed.

Lemma append_empty s1 s2 : s1 +:+ s2 = "" → s1 = "" ∧ s2 = "".
Proof. destruct s1; [by rewrite append_nil|by rewrite append_cons]. Qed.

(** A name without ["/"] is one component. *)
Lemma path_components_name n : ∀ cur,
  slash_free n → cur +:+ n ≠ "" → path_components n cur = [cur +:+ n].
Proof.
  induction n as [|c n IH]; intros cur Hsf Hne; cbn [path_components].
  - rewrite append_nil_r in *. by rewrite decide_False.
  - destruct Hsf as [Hc Hsf]. rewrite decide_False by done.
    rewrite IH; [|done|].
    + by rewrite append_assoc, append_cons, append_nil.
    + rewrite append_assoc, append_cons, append_nil. by destruct cur.
Qed.

(** The components of [q/n] are those of [q], then [n]. *)
Lemma path_components_child q n : ∀ cur,
  slash_free n → n ≠ "" →
  path_components (q +:+ "/" +:+ n) cur = (path_components q cur ++ [n])%list.
Proof.
  induction q as [|c q IH]; intros cur Hsf Hne.
  - rewrite append_nil, append_cons, append_nil. cbn [path_components].
    rewrite decide_True by done.
    rewrite (path_components_name n "") by done. rewrite append_nil.
    by case_decide.
  - rewrite append_cons. cbn [path_components].
    rewrite !IH by done. by repeat case_decide.
Qed.

Lemma resolve_app names1 : ∀ a names2,
  resolve f a (names1 ++ names2)
  = resolve f a names1 ≫= λ b, resolve f b names2.
Proof.
  induction names1 as [|n names1 IH]; intros a names2; cbn; [done|].
  destruct (objects f !! a) as [[links| | |]|]; try done.
  by destruct (find_link n links).
Qed.

Lemma find_link_NoDup n b links :
  NoDup links.*1 → (n, b) ∈ links → find_link n links = Some b.
Proof.
  induction links as [|[n' b'] links IH]; cbn; intros Hnd Hin.
  - by apply elem_of_nil in Hin.
  - apply NoDup_cons in Hnd as [Hn' Hnd].
    apply elem_of_cons in Hin as [[= -> ->]|Hin].
    + by rewrite decide_True.
    + rewrite decide_False; [by apply IH|].
      intros ->. apply Hn'. apply list_elem_of_fmap. by exists (n, b).
Qed.

Lemma find_link_elem n b links : find_link n links = Some b → (n, b) ∈ links.
Proof.
  induction links as [|[n' b'] links IH]; cbn; [done|].
  case_decide as Hn.
  - intros [= ->]. subst. apply list_elem_of_here.
  - intros H. apply list_elem_of_further. by apply IH.
Qed.

Context (Hwf : well_formed f).

(** The path of a child: if [q] leads to the group [a], then [q/n] leads
    to what the link [n] of [a] resolves to. *)
Lemma resolve_child q a links n b :
  resolve f (root f) (path_components q "") = Some a →
  objects f !! a = Some (Group links) → find_link n links = Some b →
  resolve f (root f) (path_components (q +:+ "/" +:+ n) "") = Some b.
Proof.
  intros Hq Ha Hn. destruct Hwf as (_ & _ & Hok & Hne).
  pose proof (find_link_elem _ _ _ Hn) as Hin.
  destruct (Hok _ _ Ha) as [_ Hsf]. rewrite Forall_forall in Hsf.
  rewrite path_components_child.
  - rewrite resolve_app, Hq. cbn. by rewrite Ha, Hn.
  - apply Hsf. apply list_elem_of_fmap. by exists (n, b).
  - by eapply Hne.
Qed.

Lemma handled_mono p p' a n b :
  groups_ p ⊆ groups_ p' → datasets_ p ⊆ datasets_ p' →
  handled f p a n b → handled f p' a n b.
Proof.
  intros Hg Hd. unfold handled.
  destruct (objects f !! b) as [[links| | |]|]; try done.
  - intros [q Hq]. exists q. by eapply lookup_weaken.
  - intros (q & Hq & Hin). exists q. split; [by eapply lookup_weaken|auto].
Qed.

Lemma closed_mono p p' a :
  groups_ p ⊆ groups_ p' → datasets_ p ⊆ datasets_ p' →
  closed f p a → closed f p' a.
Proof.
  intros Hg Hd Hc links n b Ha Hin. eapply handled_mono; eauto.
Qed.

(** What an iteration over some links of the group [parent_ p] keeps and
    achieves. *)
Lemma H5Literate_graph fuel uninit : ∀ links all p q open err p',
  paths_lead f p → paths_open f p → closed_except f p open →
  groups_ p !! parent_ p = Some q →
  objects f !! parent_ p = Some (Group all) → (∀ l, l ∈ links → l ∈ all) →
  H5Literate fuel f uninit links p = Some (err, p') →
  paths_lead f p' ∧ paths_open f p' ∧ closed_except f p' open
  ∧ parent_ p' = parent_ p ∧ groups_ p ⊆ groups_ p'
  ∧ datasets_ p ⊆ datasets_ p'
  ∧ ∀ n b, (n, b) ∈ links → handled f p' (parent_ p) n b.
Proof.
  destruct Hwf as (_ & Hres & Hok & _).
  induction fuel as [|fuel IHfuel]; [done|].
  induction links as [|[name target] rest IHlinks];
    intros all p q open err p' Hlead Hopen Hclosed Hq Hall Hsub Hrun.
  - rewrite H5Literate_nil in Hrun. injection Hrun as <- <-.
    repeat split; try done. intros n b Hin. by apply elem_of_nil in Hin.
  - rewrite H5Literate_cons in Hrun.
    assert ((name, target) ∈ all) as Hin by apply Hsub, list_elem_of_here.
    assert (find_link name all = Some target) as Hfind.
    { apply find_link_NoDup; [|done]. by destruct (Hok _ _ Hall). }
    assert (∀ err1 p1,
              Iterate f uninit (H5Literate_by_name fuel f uninit)
                (name, target) p = Some (err1, p1) →
              err1 = 0%Z
              ∧ paths_lead f p1 ∧ paths_open f p1 ∧ closed_except f p1 open
              ∧ parent_ p1 = parent_ p ∧ groups_ p ⊆ groups_ p1
              ∧ datasets_ p ⊆ datasets_ p1
              ∧ handled f p1 (parent_ p) name target) as Hstep.
    { intros err1 p1.
      unfold Iterate, H5Oget_info_by_name, H5Literate_by_name.
      destruct (Hres _ _ _ _ Hall Hin) as [o Ho]. rewrite Ho.
      rewrite (at_key_Some _ _ _ Hq).
      destruct o as [links'|d| |] eqn:Hkind; cbn [type_of type addr].
      - destruct (groups_ p !! target) as [qt|] eqn:Hseen.
        + intros [= <- <-]. repeat split; try done.
          unfold handled. rewrite Ho. by rewrite Hseen.
        + set (p1' := mk (datasets_ p)
                        (<[target := q +:+ "/" +:+ name]> (groups_ p)) target).
          assert (groups_ p ⊆ groups_ p1') as Hg by (by apply insert_subseteq).
          destruct (H5Literate fuel f uninit links' p1') as [[err2 p2]|]
            eqn:Hrun2; [|done].
          intros [= <- <-].
          destruct (H5Literate_resolved fuel uninit uninit links' p1' err2 p2)
            as [-> _]; [done| |done|].
          { intros n b. by apply (Hres target links'). }
          destruct (IHfuel links' links' p1' (q +:+ "/" +:+ name)
                      (open ∪ {[target]}) 0%Z p2)
            as (Hlead2 & Hopen2 & Hclosed2 & Hpar2 & Hg2 & Hd2 & Hh2);
            try done.
          { intros a qa Ha. cbn in Ha.
            apply lookup_insert_Some in Ha as [[<- <-]|[_ Ha]].
            - eapply resolve_child; eauto.
            - by apply Hlead. }
          { intros a Ha Hno. cbn in Ha.
            apply (closed_mono p); [done..|].
            apply Hclosed.
            - rewrite lookup_insert_ne in Ha; [done|].
              intros ->. apply Hno, elem_of_union. right.
              by apply elem_of_singleton.
            - intros Hin'. apply Hno, elem_of_union. by left. }
          { cbn. apply lookup_insert_eq. }
          repeat split; try done.
          * intros a Ha Hno. cbn in Ha.
            destruct (decide (a = target)) as [->|Hne].
            -- intros links n b Ht Hb. assert (links = links') as ->
                 by congruence. by apply Hh2.
            -- apply (closed_mono p2); [done..|].
               apply Hclosed2; [done|].
               by intros [?|?%elem_of_singleton]%elem_of_union.
          * by etrans.
          * unfold handled. rewrite Ho. cbn.
            apply (lookup_weaken_is_Some (groups_ p1')); [|done].
            cbn. by rewrite lookup_insert_eq.
      - intros [= <- <-]. repeat split; try done.
        + intros s [Hs| ->%list_elem_of_singleton]%elem_of_app;
            [by apply Hopen|].
          exists d. unfold openDataSet.
          rewrite (resolve_child q (parent_ p) all name target); try done.
          * by rewrite Ho.
          * by apply Hlead.
        + intros a Ha Hno. apply (closed_mono p); try done.
          * cbn. intros s Hs. apply elem_of_app. by left.
          * by apply Hclosed.
        + cbn. intros s Hs. apply elem_of_app. by left.
        + unfold handled. rewrite Ho. exists q. split; [done|].
          cbn. apply elem_of_app. right. apply list_elem_of_here.
      - intros [= <- <-]. repeat split; try done.
        unfold handled. by rewrite Ho.
      - intros [= <- <-]. repeat split; try done.
        unfold handled. by rewrite Ho. }
    destruct (Iterate f uninit _ (name, target) p) as [[err1 p1]|] eqn:Hit;
      [|done].
    destruct (Hstep _ _ eq_refl)
      as (-> & Hlead1 & Hopen1 & Hclosed1 & Hpar1 & Hg1 & Hd1 & Hh1).
    rewrite decide_True in Hrun by done.
    destruct (IHlinks all p1 q open err p')
      as (Hlead' & Hopen' & Hclosed' & Hpar' & Hg' & Hd' & Hh'); try done.
    { rewrite Hpar1. by eapply lookup_weaken. }
    { by rewrite Hpar1. }
    { intros l Hl. by apply Hsub, list_elem_of_further. }
    repeat split; try done.
    + congruence.
    + by etrans.
    + by etrans.
    + intros n b [[= -> ->]|Hin']%elem_of_cons.
      * by apply (handled_mono p1).
      * rewrite <- Hpar1. by apply Hh'.
Qed.

(** The state the walk ends in, on a container as the library writes
    it. *)
Lemma walk_graph uninit err p :
  walk f uninit = Some (err, p) →
  err = 0%Z ∧ paths_lead f p ∧ paths_open f p ∧ closed_except f p ∅
  ∧ is_Some (groups_ p !! root f).
Proof.
  unfold walk. intros Hrun.
  destruct Hwf as ((links & Hroot) & Hres & _).
  assert (root_links f = links) as Hlinks by (unfold root_links; by rewrite Hroot).
  rewrite Hlinks in Hrun.
  destruct (H5Literate_resolved _ uninit uninit _ _ _ _ Hres
              (λ n b, Hres _ _ n b Hroot) Hrun) as [-> _].
  destruct (H5Literate_graph (walk_fuel f) uninit links links
              (new (root f)) ""
              {[ root f ]} 0%Z p)
    as (Hlead & Hopen & Hclosed & Hpar & Hg & Hd & Hh); try done.
  - intros a q Ha. cbn in Ha.
    by apply lookup_singleton_Some in Ha as [<- <-].
  - intros s Hs. by apply elem_of_nil in Hs.
  - intros a [q Ha] Hno. cbn in Ha.
    apply lookup_singleton_Some in Ha as [<- _].
    exfalso. by apply Hno, elem_of_singleton.
  - apply lookup_singleton_eq.
  - split; [done|]. split; [done|]. split; [done|]. split.
    + intros a Ha _. destruct (decide (a = root f)) as [->|Hne].
      * intros links' n b Hroot' Hin.
        assert (links' = links) as -> by congruence. by apply Hh.
      * apply Hclosed; [done|]. by intros ?%elem_of_singleton.
    + apply (lookup_weaken_is_Some (groups_ (new (root f)))); [|done].
      cbn. by rewrite lookup_singleton_eq.
Qed.

(** Whatever a chain of link names leads to from the root has been dealt
    with when the walk ends. *)
Lemma walk_reaches uninit err p :
  walk f uninit = Some (err, p) →
  ∀ names a, resolve f (root f) names = Some a →
    match objects f !! a with
    | Some (Group _) => is_Some (groups_ p !! a)
    | Some (DataSetObject d) =>
        ∃ s, s ∈ datasets_ p ∧ openDataSet f s = inr d
             ∧ resolve f (root f) (path_components s "") = Some a
    | _ => True
    end.
Proof.
  intros Hwalk.
  destruct (walk_graph _ _ _ Hwalk) as (_ & Hlead & _ & Hclosed & Hroot).
  induction names as [|n names IH] using rev_ind; intros a Hres.
  - cbn in Hres. injection Hres as <-.
    destruct Hwf as ((links & ->) & _). done.
  - rewrite resolve_app in Hres.
    destruct (resolve f (root f) names) as [a'|] eqn:Hpre; [|done].
    cbn in Hres.
    destruct (objects f !! a') as [[links| | |]|] eqn:Ha'; try done.
    destruct (find_link n links) as [b|] eqn:Hn; [|done].
    injection Hres as ->.
    specialize (IH a' eq_refl). rewrite Ha' in IH.
    pose proof (Hclosed a' IH (not_elem_of_empty a') links n a Ha'
                  (find_link_elem _ _ _ Hn)) as Hh.
    unfold handled in Hh.
    destruct (objects f !! a) as [[links'|d| |]|] eqn:Ha; try done.
    destruct Hh as (q & Hq & Hin).
    assert (resolve f (root f) (path_components (q +:+ "/" +:+ n) "")
            = Some a) as Hpath.
    { eapply resolve_child; eauto. }
    exists (q +:+ "/" +:+ n). split; [done|]. split; [|done].
    unfold openDataSet. by rewrite Hpath, Ha.
Qed.


End walk_graph.

Section walk_results.
Import H5 HDF5Iterate.



End walk_results.

Section walk_graph_results.
Import H5 HDF5Iterate.

(** X1.  On a container whose links all resolve, the walk returns the
    error value 0, and what it returns does not depend on the content of
    the uninitialised [iteminfo] of [Iterate]. *)
Theorem walk_reports_no_error f :
  links_resolve f →
  ∃ p, ∀ uninit, walk f uninit = Some (0, p).
Proof.
  intros Hres.
  destruct (walk_returns f (mkInfo H5O_TYPE_UNKNOWN 0)) as (err & p & Hwalk).
  exists p. intros uninit. unfold walk in *.
  assert (∀ n b, (n, b) ∈ root_links f → is_Some (objects f !! b)) as Hroot.
  { unfold root_links.
    destruct (objects f !! root f) as [[links| | |]|] eqn:Hr;
      try (intros n b Hin; by apply elem_of_nil in Hin).
    intros n b. by apply (Hres (root f) links). }
  destruct (H5Literate_resolved f _ _ uninit _ _ _ _ Hres Hroot Hwalk)
    as [-> Hrun].
  done.
Qed.

(** X2.  On a well-formed container every path the walk lists opens a data
    set: [openDataSet] does not fail on it. *)
Theorem walk_lists_paths_of_data_sets f uninit err p :
  well_formed f → walk f uninit = Some (err, p) →
  ∀ s, s ∈ datasets_ p → ∃ d, openDataSet f s = inr d.
Proof.
  intros Hwf Hwalk.
  by destruct (walk_graph f Hwf _ _ _ Hwalk) as (_ & _ & Hopen & _).
Qed.

(** X3.  On a well-formed container the walk misses no data set: whatever
    data set a chain of link names leads to from the root is listed, under
    a path that leads to the address of this data set and opens it.  Two
    data sets of equal content at two addresses are listed each. *)
Theorem walk_lists_every_reachable_data_set f uninit err p names a d :
  well_formed f → walk f uninit = Some (err, p) →
  resolve f (root f) names = Some a →
  objects f !! a = Some (DataSetObject d) →
  ∃ s, s ∈ datasets_ p
       ∧ resolve f (root f) (path_components s "") = Some a
       ∧ openDataSet f s = inr d.
Proof.
  intros Hwf Hwalk Hres Ha.
  pose proof (walk_reaches f Hwf _ _ _ Hwalk names a Hres) as H.
  rewrite Ha in H. destruct H as (s & ? & ? & ?). by exists s.
Qed.

(** The iteration over links that all lead to data sets appends their
    paths in the order of the links. *)
Lemma H5Literate_data_sets f uninit fuel q a links : ∀ datasets,
  Forall (λ l, ∃ d, objects f !! l.2 = Some (DataSetObject d)) links →
  H5Literate (S fuel) f uninit links (mk datasets {[ a := q ]} a)
  = Some (0, mk (datasets ++ ((λ l, q +:+ "/" +:+ l.1) <$> links))%list
               {[ a := q ]} a).
Proof.
  induction links as [|[name target] links IH]; intros datasets Hall.
  - rewrite H5Literate_nil. cbn. by rewrite app_nil_r.
  - apply Forall_cons in Hall as [[d Hd] Hall]. cbn in Hd.
    rewrite H5Literate_cons. unfold Iterate, H5Oget_info_by_name.
    rewrite Hd. cbn [type_of type addr parent_ groups_ datasets_].
    rewrite (at_key_Some _ _ q) by apply lookup_singleton_eq.
    rewrite decide_True by done. rewrite IH by done.
    cbn. by rewrite <- app_assoc.
Qed.

(** X4.  In a container whose root group holds data sets only, the walk
    lists them in the order of the links, each under ["/"] followed by the
    name of its link. *)
Theorem walk_of_flat_container f uninit links :
  objects f !! root f = Some (Group links) →
  Forall (λ l, ∃ d, objects f !! l.2 = Some (DataSetObject d)) links →
  walk f uninit
  = Some (0, mk ((λ l, "/" +:+ l.1) <$> links) {[ root f := "" ]} (root f)).
Proof.
  intros Hroot Hall. unfold walk, root_links, walk_fuel, new.
  rewrite Hroot. by rewrite (H5Literate_data_sets f uninit _ "" (root f) links).
Qed.

End walk_graph_results.

(** ** The refusal of an enumeration *)

Section enumeration_names.
Import H5 HDF5ReadableResource.

Lemma rfor_Return {St} (P : Status → Prop) (body : nat → St → Result St) n :
  (∀ i st status, body i st = Return status → P status) →
  ∀ i st status, rfor n i body st = Return status → P status.
Proof.
  intros Hbody. induction n as [|n IH]; intros i st status; [done|].
  cbn [rfor]. destruct (body i st) as [st'|s|e|fault] eqn:Hb; try done.
  - apply IH.
  - intros [= <-]. by eapply Hbody.
Qed.

(** The loop on an enumeration whose values fit [int] and whose names
    [nameOf] delivers. *)
Lemma enum_loop_narrow t n : ∀ i names,
  getSize t <= sizeof_int →
  (∀ ii, (i ≤ ii < i + n)%nat → is_Some (name_at t ii)) →
  rfor n i
    (λ ii names,
       if decide (getSize t <= sizeof_int) then
         value ←! throwing DataTypeIException "H5Tget_member_value failed"
                    (getMemberValue t ii);
         name ←! throwing DataTypeIException "H5Tenum_nameof failed"
                   (nameOf t value 100);
         Val ((if decide (ii ≠ 0%nat) then names +:+ ", " else names)
              +:+ name)
       else
         Undef (OutOfRange "value" (Z.to_nat sizeof_int)
                  (Z.to_nat sizeof_int)))
    names
  = Val (foldl (add_name t) names (seq i n)).
Proof.
  induction n as [|n IH]; intros i names Hsize Hnames; [done|].
  cbn [rfor seq foldl]. rewrite decide_True by done.
  destruct (Hnames i) as [name Hname]; [lia|].
  unfold add_name at 2. rewrite Hname. unfold name_at in Hname.
  destruct (getMemberValue t i) as [value|]; [|done]. cbn in Hname.
  cbn [throwing rbind]. rewrite Hname. cbn [throwing rbind default].
  apply IH; [done|]. intros ii Hii. apply Hnames. lia.
Qed.

Lemma name_of_value_NoDup ms : ∀ i name v,
  NoDup ms.*2 → ms !! i = Some (name, v) → name_of_value v ms = Some name.
Proof.
  induction ms as [|[n w] ms IH]; intros i name v Hnd Hi; [done|].
  cbn in Hnd. apply NoDup_cons in Hnd as [Hw Hnd]. cbn [name_of_value].
  destruct i as [|i]; cbn in Hi.
  - injection Hi as -> ->. by rewrite decide_True.
  - rewrite decide_False; [by eapply IH|].
    intros ->. apply Hw. apply list_elem_of_fmap. exists (name, v).
    split; [done|]. by eapply list_elem_of_lookup_2.
Qed.

(** When the member values are pairwise different and the names are
    shorter than 100 characters, iteration [ii] finds the name of member
    [ii]. *)
Lemma name_at_member t ii name v :
  NoDup (enum_members t).*2 →
  Forall (λ n, String.length n < 100)%nat (enum_members t).*1 →
  enum_members t !! ii = Some (name, v) →
  name_at t ii = Some name.
Proof.
  intros Hnd Hshort Hm. unfold name_at, getMemberValue, nameOf.
  rewrite Hm. cbn. rewrite (name_of_value_NoDup _ _ _ _ Hnd Hm).
  rewrite decide_True; [done|].
  rewrite Forall_forall in Hshort. apply Hshort.
  apply list_elem_of_fmap. exists (name, v).
  split; [done|]. by eapply list_elem_of_lookup_2.
Qed.

Lemma separated_snoc names name :
  separated (names ++ [name])
  = if decide (names = []) then name
    else separated names +:+ ", " +:+ name.
Proof.
  induction names as [|n [|n' names] IH]; [done..|].
  change (separated ((n :: n' :: names) ++ [name]))
    with (n +:+ ", " +:+ separated ((n' :: names) ++ [name])).
  rewrite IH. rewrite decide_False by done. rewrite decide_False by done.
  change (separated (n :: n' :: names))
    with (n +:+ ", " +:+ separated (n' :: names)).
  by rewrite !append_assoc.
Qed.

(** The loop then collects the member names in their order. *)
Lemma enum_loop_names t n :
  NoDup (enum_members t).*2 →
  Forall (λ n, String.length n < 100)%nat (enum_members t).*1 →
  (n ≤ length (enum_members t))%nat →
  foldl (add_name t) "[" (seq 0 n)
  = "[" +:+ separated (take n (enum_members t).*1).
Proof.
  intros Hnd Hshort. induction n as [|n IH]; intros Hn; [done|].
  rewrite seq_S, foldl_app. cbn [foldl Nat.add]. rewrite IH by lia.
  destruct (lookup_lt_is_Some_2 (enum_members t) n) as [[name v] Hm]; [lia|].
  unfold add_name. rewrite (name_at_member _ _ _ _ Hnd Hshort Hm).
  cbn [default].
  rewrite (take_S_r _ _ name) by (by rewrite list_lookup_fmap, Hm).
  rewrite separated_snoc.
  destruct n as [|n]; [done|].
  rewrite decide_True by done. rewrite decide_False.
  - by rewrite !append_assoc.
  - intros Hnil. apply (f_equal length) in Hnil.
    rewrite length_take, length_fmap in Hnil. cbn [length] in Hnil. lia.
Qed.

Lemma enum_names_narrow t :
  getSize t <= sizeof_int → NoDup (enum_members t).*2 →
  Forall (λ n, String.length n < 100)%nat (enum_members t).*1 →
  enum_names t = Val (bracketed (enum_members t).*1).
Proof.
  intros Hsize Hnd Hshort. unfold enum_names.
  rewrite enum_loop_narrow; [|done|].
  - cbn [rbind]. rewrite enum_loop_names by done.
    rewrite firstn_all2 by (by rewrite length_fmap).
    unfold bracketed. by rewrite append_assoc.
  - intros ii Hii.
    destruct (lookup_lt_is_Some_2 (enum_members t) ii) as [[name v] Hm];
      [lia|].
    rewrite (name_at_member _ _ _ _ Hnd Hshort Hm). by eexists.
Qed.

Lemma enum_names_wide t :
  sizeof_int < getSize t → enum_members t ≠ [] →
  enum_names t
  = Undef (OutOfRange "value" (Z.to_nat sizeof_int) (Z.to_nat sizeof_int)).
Proof.
  intros Hsize Hne. unfold enum_names.
  destruct (enum_members t) as [|m ms]; [done|].
  cbn [length rfor]. by rewrite decide_False by lia.
Qed.

Lemma enum_names_none t : enum_members t = [] → enum_names t = Val "[]".
Proof. intros Hnil. unfold enum_names. by rewrite Hnil. Qed.

(** The refusal yields no value, and the only status it returns is the
    one of line 287. *)
Lemma refuse_enum_Val {A} t (a : A) : refuse_enum t ≠ Val a.
Proof. unfold refuse_enum. by destruct (enum_names t). Qed.

Lemma refuse_enum_Return {A} t status :
  refuse_enum (A := A) t = Return status →
  ∃ names, status = unsupported_enum names.
Proof.
  unfold refuse_enum.
  destruct (enum_names t) as [names|s|e|fault] eqn:Hnames; cbn [rbind];
    try done.
  - intros [= <-]. by eexists.
  - exfalso. unfold enum_names in Hnames.
    destruct (rfor _ _ _ _) as [names|s'|e|fault] eqn:Hloop; try done.
    revert Hloop. apply (rfor_Return (λ _, False)). intros i st status'.
    case_decide; [|done].
    destruct (getMemberValue t i) as [value|]; [|done]. cbn [throwing rbind].
    by destruct (nameOf t value 100).
Qed.

End enumeration_names.

(** ** The tables [Init] builds *)

Section init_tables.
Import H5 HDF5ReadableResource.

Lemma Init_dataset_Val names file path dtype shape :
  Init_dataset names file path = Val (dtype, shape) →
  ∃ d, openDataSet file path = inr d ∧ described names path d dtype shape.
Proof.
  unfold Init_dataset, described, quiet_in_Init, call.
  destruct (openDataSet file path) as [e|d]; [done|]. cbn [raise_or rbind].
  destruct (ds_throws d DataSet_getSpace) eqn:H1; [done|]. cbn [rbind].
  destruct (ds_throws d DataSpace_getSimpleExtentNdims) eqn:H2; [done|].
  cbn [rbind].
  destruct (ds_throws d DataSpace_getSimpleExtentDims) eqn:H3; [done|].
  cbn [rbind].
  destruct (ds_throws d DataSet_getDataType) eqn:H4; [done|].
  cbn [rbind extent].
  destruct (classify names path (ds_type d)) as [dtype'| | |] eqn:Hc;
    try done.
  cbn [rbind]. rewrite firstn_all. case_decide as Hpos; [|done].
  intros [= <- <-]. exists d. repeat split; done.
Qed.

(** The loop over the data sets appends one entry per data set to each of
    the two vectors. *)
Lemma Init_datasets_Val names file datasets : ∀ dtypes shapes dtypes' shapes',
  Init_datasets names file datasets dtypes shapes
  = (Val tt, (dtypes', shapes')) →
  ∃ ds ss,
    dtypes' = (dtypes ++ ds)%list ∧ shapes' = (shapes ++ ss)%list
    ∧ length ds = length datasets ∧ length ss = length datasets
    ∧ ∀ i path, datasets !! i = Some path →
        ∃ dtype shape,
          Init_dataset names file path = Val (dtype, shape)
          ∧ ds !! i = Some dtype ∧ ss !! i = Some shape.
Proof.
  induction datasets as [|dataset rest IH]; intros dtypes shapes dtypes' shapes';
    cbn [Init_datasets].
  - intros [= <- <-]. exists [], []. rewrite !app_nil_r.
    repeat split; try done.
  - destruct (Init_dataset names file dataset) as [[dtype shape]| | |] eqn:Hd;
      try done.
    intros Hrest. destruct (IH _ _ _ _ Hrest)
      as (ds & ss & -> & -> & Hl1 & Hl2 & Hpt).
    exists (dtype :: ds), (shape :: ss). rewrite <- !app_assoc. cbn.
    repeat split; try done; try (by f_equal).
    intros [|i] path Hi; cbn in *.
    + injection Hi as <-. by exists dtype, shape.
    + by apply Hpt.
Qed.

(** Every error of the classification is an [InvalidArgument]. *)
Lemma classify_error names path data_type status :
  classify names path data_type = Return status →
  code status = INVALID_ARGUMENT.
Proof.
  unfold classify, classify_integer, classify_float, classify_compound.
  destruct (getClass data_type); repeat case_decide;
    try destruct (enum_is_bool data_type); try by intros [= <-].
  by intros [? ->]%refuse_enum_Return.
Qed.

Lemma Init_dataset_Return names file path status :
  Init_dataset names file path = Return status →
  code status = INVALID_ARGUMENT.
Proof.
  unfold Init_dataset, call.
  destruct (openDataSet file path) as [e|d]; [done|]. cbn [raise_or rbind].
  repeat (match goal with
          | |- context [ds_throws d ?c] => destruct (ds_throws d c); [done|]
          end; cbn [rbind]).
  destruct (classify _ _ _) as [dtype|status'|e|fault] eqn:Hc;
    cbn [rbind]; try done.
  - by case_decide.
  - intros [= <-]. by eapply classify_error.
Qed.

Lemma Init_datasets_Return names file datasets : ∀ dtypes shapes status tables,
  Init_datasets names file datasets dtypes shapes = (Return status, tables) →
  code status = INVALID_ARGUMENT.
Proof.
  induction datasets as [|dataset rest IH]; intros dtypes shapes status tables;
    cbn [Init_datasets]; [done|].
  destruct (Init_dataset names file dataset) as [[dtype shape]| | |] eqn:Hd;
    try done.
  - apply IH.
  - intros [= <- _]. by eapply Init_dataset_Return.
Qed.

Lemma index_columns_snoc datasets dataset index :
  index_columns (datasets ++ [dataset]) index
  = <[dataset := Z.of_nat (length datasets)]> (index_columns datasets index).
Proof.
  unfold index_columns. rewrite imap_app, foldl_app. cbn.
  by rewrite Nat.add_0_r.
Qed.

(** An entry of the index is the position of its path among the data
    sets. *)
Lemma index_columns_lookup datasets : ∀ path idx,
  index_columns datasets ∅ !! path = Some idx →
  0 <= idx ∧ datasets !! Z.to_nat idx = Some path.
Proof.
  induction datasets as [|dataset datasets IH] using rev_ind; intros path idx.
  - unfold index_columns. cbn. by rewrite lookup_empty.
  - rewrite index_columns_snoc.
    intros [[<- <-]|[_ Hin]]%lookup_insert_Some.
    + split; [lia|]. rewrite Nat2Z.id.
      by rewrite lookup_app_r, Nat.sub_diag.
    + destruct (IH _ _ Hin) as [? Hl]. split; [done|].
      by apply lookup_app_l_Some.
Qed.

(** The index has an entry for every data set, and for nothing else. *)
Lemma index_columns_dom datasets path :
  is_Some (index_columns datasets ∅ !! path) ↔ path ∈ datasets.
Proof.
  induction datasets as [|dataset datasets IH] using rev_ind.
  - unfold index_columns. cbn. rewrite lookup_empty.
    split; [by intros [? ?]|by intros ?%elem_of_nil].
  - rewrite index_columns_snoc, elem_of_app, list_elem_of_singleton, <- IH.
    destruct (decide (dataset = path)) as [->|Hne].
    + rewrite lookup_insert_eq. split; [by right|by eexists].
    + rewrite lookup_insert_ne by done. naive_solver.
Qed.

(** The walk of [Init] is the walk of [HDF5Iterate]. *)
Lemma Init_walk_walk file uninit :
  HDF5Iterate.walk file uninit
  = Some ((Init_walk file uninit).1, (Init_walk file uninit).2).
Proof.
  unfold Init_walk.
  by destruct (walk_returns file uninit) as (err & p & ->).
Qed.

(** What a first [Init] that returns ok leaves in the resource. *)
Lemma Init_tables env uninit input r :
  Init env uninit new input = (Returned OkStatus, r) →
  ∃ file dtypes shapes,
    HDF5FileImage env input "" = inr (Some file)
    ∧ r = mk input (Some (Some file)) dtypes shapes
            (index_columns (walked file uninit) ∅) ("r", "i")
    ∧ length dtypes = length (walked file uninit)
    ∧ length shapes = length (walked file uninit)
    ∧ ∀ i path, walked file uninit !! i = Some path →
        ∃ d dtype shape,
          openDataSet file path = inr d
          ∧ described ("r", "i") path d dtype shape
          ∧ dtypes !! i = Some dtype ∧ shapes !! i = Some shape.
Proof.
  unfold Init, walked.
  cbn [filename_ file_image_ dtypes_ shapes_ columns_index_ complex_names_
       new].
  destruct (HDF5FileImage env input "") as [e|[file|]]; try done.
  destruct (Init_walk file uninit) as [err data] eqn:Hw.
  destruct (Init_datasets _ _ _ _ _) as [result [dtypes shapes]] eqn:Hloop.
  destruct result as [[]|status|e|fault]; try done.
  - intros Heq. simplify_eq.
    destruct (Init_datasets_Val _ _ _ _ _ _ _ Hloop)
      as (ds & ss & -> & -> & Hl1 & Hl2 & Hpt).
    exists file, ds, ss. rewrite Hw. cbn. repeat split; try done.
    intros i path Hi. destruct (Hpt i path Hi) as (dtype & shape & Hd & ? & ?).
    destruct (Init_dataset_Val _ _ _ _ _ Hd) as (d & ? & ?).
    by exists d, dtype, shape.
  - intros Heq. simplify_eq.
    by apply Init_datasets_Return in Hloop.
Qed.

(** The state of the loop over the data sets when it leaves at a data set
    that does not yield a value. *)
Lemma Init_datasets_leaves names file before dataset rest result :
  Forall (λ d, ∃ v, Init_dataset names file d = Val v) before →
  Init_dataset names file dataset = result → (∀ v, result ≠ Val v) →
  ∀ dtypes shapes,
  ∃ dtypes' shapes',
    Init_datasets names file (before ++ dataset :: rest) dtypes shapes
    = (match result with
       | Val _ => Val tt
       | Return status => Return status
       | Throw e => Throw e
       | Undef fault => Undef fault
       end, (dtypes', shapes'))
    ∧ length dtypes' = (length dtypes + length before)%nat
    ∧ length shapes' = (length shapes + length before)%nat.
Proof.
  intros Hbefore Hd Hfail.
  induction Hbefore as [|d before [[dtype shape] Hv] _ IH];
    intros dtypes shapes; cbn.
  - rewrite Hd. exists dtypes, shapes.
    destruct result; try done; [by destruct (Hfail a)|..];
      split; try done; lia.
  - rewrite Hv. destruct (IH (dtypes ++ [dtype]) (shapes ++ [shape]))%list
      as (dtypes' & shapes' & -> & Hl1 & Hl2).
    exists dtypes', shapes'. rewrite length_app in Hl1, Hl2. cbn in *.
    split; [done|]. lia.
Qed.

(** When every data set yields a value, so does the loop. *)
Lemma Init_datasets_all names file datasets :
  Forall (λ d, ∃ v, Init_dataset names file d = Val v) datasets →
  ∀ dtypes shapes,
    (Init_datasets names file datasets dtypes shapes).1 = Val tt.
Proof.
  induction 1 as [|d datasets [[dtype shape] Hv] _ IH]; intros dtypes shapes;
    cbn; [done|].
  rewrite Hv. apply IH.
Qed.

(** After a first [Init] that returned ok, every entry of the index is a
    position in [shapes_] and in [dtypes_]. *)
Lemma Init_index_in_range env uninit input r :
  Init env uninit new input = (Returned OkStatus, r) → index_in_range r.
Proof.
  intros (file & dtypes & shapes & _ & -> & Hl1 & Hl2 & _)%Init_tables.
  intros c idx Hidx. cbn in *.
  destruct (index_columns_lookup _ _ _ Hidx) as [_ Hpath].
  apply lookup_lt_Some in Hpath. lia.
Qed.

End init_tables.

Section init_results.
Import H5 HDF5ReadableResource.

(** X5.  After a first [Init] that returned ok, [Spec] knows exactly the
    paths the walk listed: for such a path it returns the value type the
    classification gave for the data set at that path and the extent of
    this data set, and it never reads outside [shapes_] or [dtypes_]; for
    any other name it returns the not-found error. *)
Theorem Spec_after_Init env uninit input r component :
  Init env uninit new input = (Returned OkStatus, r) →
  ∃ file,
    file_image_ r = Some (Some file)
    ∧ ((¬ component ∈ walked file uninit
        ∧ Spec r component = Return (not_found component))
       ∨ (component ∈ walked file uninit
          ∧ ∃ d dtype shape,
              openDataSet file component = inr d
              ∧ described ("r", "i") component d dtype shape
              ∧ Spec r component = Val (shape, dtype))).
Proof.
  intros (file & dtypes & shapes & _ & -> & _ & _ & Hpt)%Init_tables.
  exists file. split; [done|]. unfold Spec.
  cbn [columns_index_ shapes_ dtypes_].
  destruct (index_columns (walked file uninit) ∅ !! component) as [idx|]
    eqn:Hidx.
  - right. split; [apply index_columns_dom; by eexists|].
    destruct (index_columns_lookup _ _ _ Hidx) as [_ Hpath].
    destruct (Hpt _ _ Hpath) as (d & dtype & shape & ? & ? & Hd & Hs).
    exists d, dtype, shape. by rewrite Hs, Hd.
  - left. split; [|done]. intros Hin%index_columns_dom.
    rewrite Hidx in Hin. by destruct Hin.
Qed.

(** X6.  After a first [Init] that returned ok, [Components] returns every
    path the walk listed, each of them once. *)
Theorem Components_after_Init env uninit input r :
  Init env uninit new input = (Returned OkStatus, r) →
  ∃ file components,
    file_image_ r = Some (Some file)
    ∧ Components r = (OkStatus, components)
    ∧ NoDup components
    ∧ ∀ path, path ∈ components ↔ path ∈ walked file uninit.
Proof.
  intros (file & dtypes & shapes & _ & -> & _)%Init_tables.
  exists file, (map_to_list (index_columns (walked file uninit) ∅)).*1.
  split; [done|]. split; [done|]. split.
  - apply NoDup_fst_map_to_list.
  - intros path. rewrite <- (index_columns_dom (walked file uninit) path).
    rewrite list_elem_of_fmap.
    split.
    + intros ([path' idx] & -> & Hin). apply elem_of_map_to_list in Hin.
      by eexists.
    + intros [idx Hidx]. exists (path, idx).
      split; [done|]. by apply elem_of_map_to_list.
Qed.

(** X7.  After a first [Init] that returned ok on a well-formed container,
    every data set that a chain of link names leads to from the root can
    be asked for: it has a path that leads to its address, that opens it
    and that [Spec] knows.  Two data sets of equal content at two
    addresses have a path each. *)
Theorem Init_indexes_every_reachable_data_set
  env uninit input r file names a d :
  Init env uninit new input = (Returned OkStatus, r) →
  file_image_ r = Some (Some file) → well_formed file →
  resolve file (root file) names = Some a →
  objects file !! a = Some (DataSetObject d) →
  ∃ path dtype shape,
    resolve file (root file) (path_components path "") = Some a
    ∧ openDataSet file path = inr d
    ∧ Spec r path = Val (shape, dtype)
    ∧ classify ("r", "i") path (ds_type d) = Val dtype.
Proof.
  intros (file' & dtypes & shapes & _ & -> & _ & _ & Hpt)%Init_tables
    [= ->] Hwf Hres Ha.
  pose proof (walk_reaches file Hwf uninit _ _ (Init_walk_walk file uninit)
                names a Hres) as Hr.
  rewrite Ha in Hr. destruct Hr as (path & Hin & Hopen & Hpath').
  unfold walked in *. apply index_columns_dom in Hin as [idx Hidx].
  destruct (index_columns_lookup _ _ _ Hidx) as [_ Hpath].
  destruct (Hpt _ _ Hpath) as (d' & dtype & shape & Hopen' & Hdesc & Hd & Hs).
  assert (d' = d) as -> by congruence.
  exists path, dtype, shape. split; [done|]. split; [done|]. split.
  - unfold Spec. cbn [columns_index_ shapes_ dtypes_].
    by rewrite Hidx, Hs, Hd.
  - by destruct Hdesc as (_ & ? & _).
Qed.

(** X8.  A resource whose first [Init] did not return ok knows no
    component: [Spec] and [Read] answer not-found for every name, [Read]
    without asking for an output tensor, and [Components] is empty. *)
Theorem failed_Init_knows_no_component env uninit input component :
  (Init env uninit new input).1 ≠ Returned OkStatus →
  let r := (Init env uninit new input).2 in
  Spec r component = Return (not_found component)
  ∧ Components r = (OkStatus, [])
  ∧ ∀ start shape alloc,
      Read r component start shape alloc
      = (Returned (not_found component), None).
Proof.
  intros Hfail r.
  destruct (Init_failure_answers_nothing env uninit input component Hfail)
    as [HSpec HComp].
  split; [done|]. split; [done|].
  intros start shape alloc. unfold Read, r.
  rewrite (Init_failure_keeps_index _ _ _ _ Hfail). cbn.
  by rewrite lookup_empty.
Qed.

(** X9.  [Init] leaves at the first data set, in the order of the walk,
    that cannot be set up: with the error of the classification, or with
    the exception of the library, which it does not catch.  The data sets
    before it have their entries in [dtypes_] and [shapes_]; the index has
    none. *)
Theorem Init_leaves_at_first_failure
  env uninit input file before dataset rest :
  HDF5FileImage env input "" = inr (Some file) →
  walked file uninit = (before ++ dataset :: rest)%list →
  Forall (λ d, ∃ v, Init_dataset ("r", "i") file d = Val v) before →
  (∀ status,
     Init_dataset ("r", "i") file dataset = Return status →
     ∃ r, Init env uninit new input = (Returned status, r)
          ∧ columns_index_ r = ∅
          ∧ length (dtypes_ r) = length before
          ∧ length (shapes_ r) = length before)
  ∧ (∀ e,
       Init_dataset ("r", "i") file dataset = Throw e →
       ∃ r, Init env uninit new input = (Propagated e, r)
            ∧ columns_index_ r = ∅
            ∧ length (dtypes_ r) = length before
            ∧ length (shapes_ r) = length before).
Proof.
  intros Hopen Hwalk Hbefore. unfold walked in Hwalk.
  split; intros x Hx.
  all: destruct (Init_datasets_leaves ("r", "i") file before dataset rest _
                   Hbefore Hx ltac:(done) [] [])
         as (dtypes & shapes & Hloop & Hl1 & Hl2).
  all: unfold Init;
    cbn [filename_ file_image_ dtypes_ shapes_ columns_index_ complex_names_
         new];
    rewrite Hopen; destruct (Init_walk file uninit) as [err data];
    cbn [snd] in Hwalk; rewrite Hwalk, Hloop.
  all: eexists; split; [done|]; cbn; done.
Qed.

(** X10.  [Init] is all or nothing: on a container that opens, it returns
    ok exactly when every data set the walk listed can be opened,
    described and classified; one data set of an unsupported type makes
    [Init] fail for the whole container. *)
Theorem Init_is_all_or_nothing env uninit input file :
  HDF5FileImage env input "" = inr (Some file) →
  (Init env uninit new input).1 = Returned OkStatus
  ↔ Forall (λ path, ∃ d dtype shape,
                      openDataSet file path = inr d
                      ∧ described ("r", "i") path d dtype shape)
      (walked file uninit).
Proof.
  intros Hopen. split.
  - intros HInit.
    destruct (Init env uninit new input) as [outcome r] eqn:Heq.
    cbn in HInit. subst outcome.
    destruct (Init_tables _ _ _ _ Heq)
      as (file' & dtypes & shapes & Hopen' & _ & _ & _ & Hpt).
    assert (file' = file) as -> by congruence.
    apply Forall_lookup. intros i path Hi.
    destruct (Hpt i path Hi) as (d & dtype & shape & ? & ? & _).
    by exists d, dtype, shape.
  - intros Hall. eapply Init_ignores_walk_error; [done|].
    apply Init_datasets_all. eapply Forall_impl; [exact Hall|].
    intros path (d & dtype & shape & Hd & (H1 & H2 & H3 & H4) & Hc & -> & Hpos).
    exists (dtype, Int.wrap_int64 <$> ds_dims d).
    unfold Init_dataset. rewrite Hd. cbn [raise_or rbind].
    repeat (rewrite call_quiet by done; cbn [rbind extent]).
    change (complex_names_ new) with ("r", "i").
    rewrite Hc. cbn [rbind]. rewrite firstn_all. by rewrite decide_True.
Qed.

End init_results.

(** ** Requests inside the extent *)

Section inside.
Import H5 HDF5ReadableResource HDF5ReadableReadOp.

Lemma inside_not_out_of_boundary a s dim :
  0 <= a → 0 <= s → a + s <= dim → dim < 2 ^ 63 →
  ¬ out_of_boundary a s dim.
Proof.
  intros Ha Hs Hsum Hdim. unfold out_of_boundary.
  rewrite to_hsize_nonneg by lia. rewrite to_hsize_add_int64 by lia. lia.
Qed.

(** For a request inside the extent the memory space is the requested
    shape and the file space selects the block of that shape at
    [start]. *)
Lemma select_inside d start shape :
  shape ≠ [] → length shape = length (ds_dims d) →
  length start = length shape →
  (∀ c, ds_throws d c = None) →
  inside start shape (ds_dims d) →
  select d start shape (Simple (ds_dims d) SelectAll)
  = Val (Simple shape SelectAll,
         Simple (ds_dims d) (SelectHyperslab shape start)).
Proof.
  intros Hne Hrank Hstart Hquiet Hin. unfold select.
  rewrite decide_True by (by destruct shape).
  rewrite call_quiet by done. cbn [rbind extent].
  rewrite decide_False by (intros ?; congruence).
  rewrite call_quiet by done. cbn [rbind]. rewrite firstn_all.
  destruct (bounds_loop start shape (length (ds_dims d)) 0 (ds_dims d)
              (replicate (length (ds_dims d)) 0))
    as [(j & a & dim & Hj & Ha & Hd & Hout & _)
       |(_ & dims' & dims_start' & -> & Hl1 & Hl2 & Hpt)].
  { lia. } { lia. } { by rewrite length_replicate. }
  - exfalso. destruct (lookup_lt_is_Some_2 shape j) as [s Hs]; [lia|].
    unfold dim_size in Hout. rewrite Hs in Hout. cbn in Hout.
    destruct (Hin j a s dim Ha Hs Hd) as (? & ? & ? & ?).
    by apply (inside_not_out_of_boundary a s dim).
  - cbn [rbind]. rewrite !call_quiet by done. cbn [rbind].
    assert (dims' = shape) as ->.
    { apply list_eq. intros k. destruct (Hpt k) as [-> _].
      case_decide as Hk.
      - destruct (lookup_lt_is_Some_2 shape k) as [s Hs]; [lia|].
        destruct (lookup_lt_is_Some_2 start k) as [a Ha]; [lia|].
        destruct (lookup_lt_is_Some_2 (ds_dims d) k) as [dim Hd]; [lia|].
        destruct (Hin k a s dim Ha Hs Hd) as (? & ? & ? & ?).
        unfold dim_size. rewrite Hs. cbn. by rewrite to_hsize_nonneg by lia.
      - rewrite !lookup_ge_None_2; [done|lia..]. }
    assert (dims_start' = start) as ->.
    { apply list_eq. intros k. destruct (Hpt k) as [_ ->].
      case_decide as Hk.
      - destruct (lookup_lt_is_Some_2 shape k) as [s Hs]; [lia|].
        destruct (lookup_lt_is_Some_2 start k) as [a Ha]; [lia|].
        destruct (lookup_lt_is_Some_2 (ds_dims d) k) as [dim Hd]; [lia|].
        destruct (Hin k a s dim Ha Hs Hd) as (? & ? & ? & ?).
        rewrite Ha. cbn. by rewrite to_hsize_nonneg by lia.
      - rewrite !lookup_ge_None_2; [done|lia|rewrite length_replicate; lia]. }
    done.
Qed.

Lemma Read_inside r component start shape alloc idx value file d dtype :
  columns_index_ r !! component = Some idx →
  alloc shape = inr value →
  file_image_ r = Some (Some file) →
  openDataSet file component = inr d →
  (∀ c, ds_throws d c = None) →
  dtypes_ r !! Z.to_nat idx = Some dtype →
  shape ≠ [] → length shape = length (ds_dims d) →
  length start = length shape →
  inside start shape (ds_dims d) →
  Read r component start shape alloc
  = (Read_catch r
       (decode dtype d (ds_type d) (Simple shape SelectAll)
          (Simple (ds_dims d) (SelectHyperslab shape start)) value).1,
     Some (decode dtype d (ds_type d) (Simple shape SelectAll)
             (Simple (ds_dims d) (SelectHyperslab shape start)) value).2).
Proof.
  intros Hidx Halloc Hfile Hopen Hquiet Hdtype Hne Hrank Hstart Hin.
  rewrite (Read_after_open r component start shape alloc idx value file d)
    by done.
  by rewrite (after_open_Val _ _ _ _ _ _ _ _ _
                (select_inside d start shape Hne Hrank Hstart Hquiet Hin)
                Hdtype).
Qed.

Lemma clamp_lengths shape start stop start' stop' :
  (length shape ≤ length start)%nat → (length shape ≤ length stop)%nat →
  clamp shape start stop = inr (start', stop') →
  length start' = length start ∧ length stop' = length stop.
Proof.
  intros Hs Hp. unfold clamp, for_range. rewrite Nat.sub_0_r.
  destruct (clamp_loop shape (length shape) 0 start stop)
    as (start'' & stop'' & -> & Hl1 & Hl2 & _); [lia|lia|].
  by intros [= <- <-].
Qed.

(** What the kernel hands to [Read] when [start] and [stop] have one entry
    per dimension of the extent. *)
Lemma normalize_extent shape_tensor start_tensor stop_tensor :
  let dims := ts_flat shape_tensor in
  NumElements start_tensor = length dims →
  NumElements stop_tensor = length dims →
  (length dims ≤ Tensor_dims stop_tensor)%nat →
  (∀ k dim a, dims !! k = Some dim → ts_flat start_tensor !! k = Some a →
              0 <= dim ∧ dim - a < 2 ^ 63) →
  ∃ start shape,
    normalize shape_tensor start_tensor stop_tensor = inr (start, shape)
    ∧ length start = length dims ∧ length shape = length dims
    ∧ ∀ k dim a b,
        dims !! k = Some dim → ts_flat start_tensor !! k = Some a →
        ts_flat stop_tensor !! k = Some b →
        start !! k = Some (pull a (snap dim b))
        ∧ shape !! k = Some (snap dim b - pull a (snap dim b)).
Proof.
  intros dims Hns Hnp Hk Hrange.
  destruct (fill_stop_full dims stop_tensor Hnp Hk)
    as (stop & Hfill & Hlstop & Hstop).
  destruct (clamp_and_reshape dims (ts_flat start_tensor) stop)
    as (start' & stop' & shape' & Hc & Hr & Hl & Hpt);
    [unfold NumElements in Hns; lia|lia|done|].
  destruct (clamp_lengths dims (ts_flat start_tensor) stop start' stop')
    as [Hl1 Hl2]; [unfold NumElements in Hns; lia|lia|done|].
  exists start', shape'. split; [|split; [|split]].
  - unfold normalize. fold dims.
    rewrite TensorShape_nonneg; cbn [cbind].
    2:{ apply Forall_lookup. intros k dim Hd.
        destruct (lookup_lt_is_Some_2 (ts_flat start_tensor) k) as [a Ha].
        - apply lookup_lt_Some in Hd. unfold NumElements in Hns. lia.
        - by destruct (Hrange k dim a Hd Ha). }
    rewrite (fill_start_full dims start_tensor Hns). cbn [cbind].
    rewrite Hfill. cbn [cbind]. rewrite Hc. cbn [cbind].
    by rewrite Hr.
  - unfold NumElements in Hns. lia.
  - done.
  - intros k dim a b Hd Ha Hb.
    pose proof (lookup_lt_Some _ _ _ Hd).
    rewrite <- Hstop in Hb by done.
    by destruct (Hpt k dim a b Hd Ha Hb) as (_ & ? & ?).
Qed.

End inside.

Section inside_results.
Import H5 HDF5ReadableResource HDF5ReadableReadOp.

(** X11.  A request of rank greater than 0 that lies inside the extent:
    [Read] decodes with the requested shape as memory space and, in the
    file space, the hyperslab of that shape at [start]; for the numeric
    value types it returns ok and the output holds what the library
    delivers for that selection. *)
Theorem Read_inside_selects_the_block
  r component start shape alloc idx value file d dtype :
  columns_index_ r !! component = Some idx →
  alloc shape = inr value →
  file_image_ r = Some (Some file) →
  openDataSet file component = inr d →
  (∀ c, ds_throws d c = None) →
  dtypes_ r !! Z.to_nat idx = Some dtype →
  shape ≠ [] → length shape = length (ds_dims d) →
  length start = length shape →
  inside start shape (ds_dims d) →
  let memory_space := Simple shape SelectAll in
  let data_space := Simple (ds_dims d) (SelectHyperslab shape start) in
  Read r component start shape alloc
  = (Read_catch r
       (decode dtype d (ds_type d) memory_space data_space value).1,
     Some (decode dtype d (ds_type d) memory_space data_space value).2)
  ∧ (bulk_type dtype →
     Read r component start shape alloc
     = (Returned OkStatus,
        Some (mkTensor (tensor_shape value) (tensor_strings value)
                (ds_bytes d memory_space data_space)))).
Proof.
  intros Hidx Halloc Hfile Hopen Hquiet Hdtype Hne Hrank Hstart Hin ms fs.
  pose proof (Read_inside r component start shape alloc idx value file d
                dtype Hidx Halloc Hfile Hopen Hquiet Hdtype Hne Hrank
                Hstart Hin) as HRead.
  split; [done|]. intros Hbulk. rewrite HRead.
  by rewrite decode_bulk.
Qed.

(** X12.  The read kernel on a data set of rank at least 1 whose extents
    are below 2^63, of a numeric value type and behind a library that
    raises nothing, for a request
    - that passes the extent of the data set as [shape],
    - with one [start] and one [stop] element per dimension,
    - whose [stop] tensor has at least as many dimensions as the data set,
      so that the [stop] vector has an entry for every dimension (with a
      [stop] tensor of one dimension that is a data set of rank 1),
    - and with no negative [start]:
    what the normalisation yields lies inside the extent, so the bounds
    check of [Read] does not refuse it, and the kernel returns ok with the
    block from the clamped [start] to the clamped [stop]. *)
Theorem kernel_request_stays_inside
  r component idx file d dtype shape_tensor start_tensor stop_tensor :
  columns_index_ r !! component = Some idx →
  file_image_ r = Some (Some file) →
  openDataSet file component = inr d →
  (∀ c, ds_throws d c = None) →
  dtypes_ r !! Z.to_nat idx = Some dtype → bulk_type dtype →
  ts_flat shape_tensor = ds_dims d → ds_dims d ≠ [] →
  NumElements start_tensor = length (ds_dims d) →
  NumElements stop_tensor = length (ds_dims d) →
  (length (ds_dims d) ≤ Tensor_dims stop_tensor)%nat →
  Forall (λ dim, 0 <= dim < 2 ^ 63) (ds_dims d) →
  Forall (λ a, 0 <= a) (ts_flat start_tensor) →
  ∃ start shape,
    normalize shape_tensor start_tensor stop_tensor = inr (start, shape)
    ∧ inside start shape (ds_dims d)
    ∧ (∀ k dim a b,
         ds_dims d !! k = Some dim → ts_flat start_tensor !! k = Some a →
         ts_flat stop_tensor !! k = Some b →
         start !! k = Some (pull a (snap dim b))
         ∧ shape !! k = Some (snap dim b - pull a (snap dim b)))
    ∧ ResourceKernel r component shape_tensor start_tensor stop_tensor
      = (Returned OkStatus,
         Some (mkTensor shape (replicate (num_elements shape) [])
                 (ds_bytes d (Simple shape SelectAll)
                    (Simple (ds_dims d) (SelectHyperslab shape start))))).
Proof.
  intros Hidx Hfile Hopen Hquiet Hdtype Hbulk Hshape Hne Hns Hnp Hk Hdims
    Hpos.
  rewrite Forall_lookup in Hdims. rewrite Forall_lookup in Hpos.
  destruct (normalize_extent shape_tensor start_tensor stop_tensor)
    as (start & shape & Hnorm & Hl1 & Hl2 & Hpt); rewrite ?Hshape; try done.
  { intros k dim a Hd Ha. specialize (Hdims _ _ Hd).
    specialize (Hpos _ _ Ha). cbn in *. lia. }
  rewrite Hshape in *.
  assert (inside start shape (ds_dims d)) as Hin.
  { intros k a' s' dim Ha' Hs' Hd.
    pose proof (lookup_lt_Some _ _ _ Hd) as Hlt.
    destruct (lookup_lt_is_Some_2 (ts_flat start_tensor) k) as [a Ha];
      [unfold NumElements in Hns; lia|].
    destruct (lookup_lt_is_Some_2 (ts_flat stop_tensor) k) as [b Hb];
      [unfold NumElements in Hnp; lia|].
    destruct (Hpt k dim a b Hd Ha Hb) as [H1 H2].
    specialize (Hdims _ _ Hd). specialize (Hpos _ _ Ha). cbn in *.
    assert (a' = pull a (snap dim b)) as -> by congruence.
    assert (s' = snap dim b - pull a (snap dim b)) as -> by congruence.
    unfold pull, snap. repeat case_decide; lia. }
  exists start, shape. split; [done|]. split; [done|]. split; [done|].
  unfold ResourceKernel. rewrite Hnorm.
  rewrite (Read_inside r component start shape _ idx (fresh_tensor shape)
             file d dtype); try done.
  - by rewrite decode_bulk.
  - intros ->. by destruct (ds_dims d).
  - lia.
Qed.

(** X13.  The read kernel on a data set whose extents are below 2^63,
    behind a library that raises nothing, for a request
    - that passes the extent of the data set as [shape],
    - with one [start] and one [stop] element per dimension,
    - whose [stop] tensor has at least as many dimensions as the data set,
      so that the [stop] vector has an entry for every dimension,
    - whose [start] entries are at least -2^63 and so close to the extent
      that [extent - start] is below 2^63 in every dimension,
    - and with a negative [start] entry:
    the normalisation leaves a negative [start] entry as it is, and [Read]
    refuses the request: the kernel returns the out-of-boundary error of a
    dimension whose [start] entry is negative, with that entry as the
    start it reports. *)
Theorem kernel_refuses_negative_start
  r component idx file d shape_tensor start_tensor stop_tensor i neg :
  columns_index_ r !! component = Some idx →
  file_image_ r = Some (Some file) →
  openDataSet file component = inr d →
  (∀ c, ds_throws d c = None) →
  ts_flat shape_tensor = ds_dims d →
  NumElements start_tensor = length (ds_dims d) →
  NumElements stop_tensor = length (ds_dims d) →
  (length (ds_dims d) ≤ Tensor_dims stop_tensor)%nat →
  Forall (λ dim, 0 <= dim < 2 ^ 63) (ds_dims d) →
  (∀ k dim a, ds_dims d !! k = Some dim →
              ts_flat start_tensor !! k = Some a →
              - 2 ^ 63 <= a ∧ dim - a < 2 ^ 63) →
  ts_flat start_tensor !! i = Some neg → neg < 0 →
  ∃ j a b dim,
    ts_flat start_tensor !! j = Some a ∧ a < 0
    ∧ ts_flat stop_tensor !! j = Some b ∧ ds_dims d !! j = Some dim
    ∧ (ResourceKernel r component shape_tensor start_tensor stop_tensor).1
      = Returned (boundary_error j a (snap dim b - a) dim).
Proof.
  intros Hidx Hfile Hopen Hquiet Hshape Hns Hnp Hk Hdims Hrange Hi Hneg.
  rewrite Forall_lookup in Hdims.
  destruct (normalize_extent shape_tensor start_tensor stop_tensor)
    as (start & shape & Hnorm & Hl1 & Hl2 & Hpt); rewrite ?Hshape; try done.
  { intros k dim a Hd Ha. specialize (Hdims _ _ Hd).
    destruct (Hrange _ _ _ Hd Ha). cbn in *. lia. }
  rewrite Hshape in *. unfold NumElements in Hns, Hnp.
  pose proof (lookup_lt_Some _ _ _ Hi) as Hlt.
  assert (∀ k, (k < length (ds_dims d))%nat →
            ∃ dim a b, ds_dims d !! k = Some dim
                       ∧ ts_flat start_tensor !! k = Some a
                       ∧ ts_flat stop_tensor !! k = Some b
                       ∧ start !! k = Some (pull a (snap dim b))
                       ∧ shape !! k = Some (snap dim b - pull a (snap dim b))
                       ∧ 0 <= dim < 2 ^ 63 ∧ - 2 ^ 63 <= a) as Hall.
  { intros k Hk'.
    destruct (lookup_lt_is_Some_2 (ds_dims d) k) as [dim Hd]; [lia|].
    destruct (lookup_lt_is_Some_2 (ts_flat start_tensor) k) as [a Ha]; [lia|].
    destruct (lookup_lt_is_Some_2 (ts_flat stop_tensor) k) as [b Hb]; [lia|].
    destruct (Hpt k dim a b Hd Ha Hb) as [H1 H2].
    destruct (Hrange _ _ _ Hd Ha).
    exists dim, a, b. repeat split; try done; by apply (Hdims _ _ Hd). }
  destruct (Hall i) as (dim & a & b & Hd & Ha & Hb & Hs' & Hsh' & Hdim & Hlo);
    [lia|].
  assert (a = neg) as -> by congruence.
  assert (pull neg (snap dim b) = neg) as Hpull
    by (unfold pull, snap; repeat case_decide; lia).
  rewrite Hpull in Hs', Hsh'.
  destruct (select_out_of_boundary d start shape i neg (snap dim b - neg) dim)
    as (j & a' & s' & dim' & Hj & Ha' & Hsj & Hdj & Hout & Hsel); try done.
  { intros ->. cbn in *. lia. }
  { lia. }
  { left. rewrite to_hsize_neg by lia. lia. }
  destruct (Hall j) as (dim2 & a2 & b2 & Hd2 & Ha2 & Hb2 & Hs2 & Hsh2 & ? & ?);
    [lia|].
  assert (dim2 = dim') as -> by congruence.
  assert (a2 < 0) as Hneg2.
  { destruct (decide (a2 < 0)) as [|Hpos]; [done|]. exfalso.
    assert (a' = pull a2 (snap dim' b2)) as -> by congruence.
    assert (s' = snap dim' b2 - pull a2 (snap dim' b2)) as -> by congruence.
    revert Hout. apply inside_not_out_of_boundary;
      unfold pull, snap; repeat case_decide; lia. }
  assert (pull a2 (snap dim' b2) = a2) as Hpull2
    by (unfold pull, snap; repeat case_decide; lia).
  rewrite Hpull2 in Hs2, Hsh2.
  assert (a' = a2) as -> by congruence.
  assert (s' = snap dim' b2 - a2) as -> by congruence.
  exists j, a2, b2, dim'. repeat split; try done.
  unfold ResourceKernel. rewrite Hnorm.
  rewrite (Read_after_open r component start shape _ idx (fresh_tensor shape)
             file d); try done.
  by rewrite (after_open_Return _ _ _ _ _ _ _ Hsel).
Qed.

(** X14.  The shape [Spec] returns is the one a full read takes: after a
    first [Init] that returned ok, for a data set of rank greater than 0,
    [Spec] returns its extent, and a [Read] of that shape from the origin
    passes the bounds check and selects the whole extent; for the numeric
    value types it returns ok with what the library delivers for it. *)
Theorem Spec_shape_reads_the_whole_data_set
  env uninit input r file component shape dtype d alloc value :
  Init env uninit new input = (Returned OkStatus, r) →
  file_image_ r = Some (Some file) →
  Spec r component = Val (shape, dtype) →
  openDataSet file component = inr d →
  (∀ c, ds_throws d c = None) →
  ds_dims d ≠ [] → Forall (λ dim, 0 <= dim < 2 ^ 63) (ds_dims d) →
  bulk_type dtype → alloc shape = inr value →
  shape = ds_dims d
  ∧ Read r component (replicate (length shape) 0) shape alloc
    = (Returned OkStatus,
       Some (mkTensor (tensor_shape value) (tensor_strings value)
               (ds_bytes d (Simple shape SelectAll)
                  (Simple shape
                     (SelectHyperslab shape
                        (replicate (length shape) 0)))))).
Proof.
  intros (file' & dtypes & shapes & _ & -> & _ & _ & Hpt)%Init_tables
    [= ->] HSpec Hopen Hquiet Hne Hdims Hbulk Halloc.
  unfold Spec in HSpec. cbn [columns_index_ shapes_ dtypes_] in HSpec.
  destruct (index_columns (walked file uninit) ∅ !! component) as [idx|]
    eqn:Hidx; [|done].
  destruct (index_columns_lookup _ _ _ Hidx) as [_ Hpath].
  destruct (Hpt _ _ Hpath)
    as (d' & dtype' & shape' & Hopen' & Hdesc & Hd & Hs).
  rewrite Hs, Hd in HSpec. cbn in HSpec. injection HSpec as <- <-.
  assert (d' = d) as -> by congruence.
  destruct Hdesc as (_ & _ & -> & _).
  assert (Int.wrap_int64 <$> ds_dims d = ds_dims d) as Heq.
  { rewrite <- (list_fmap_id (ds_dims d)) at 2.
    apply Forall_fmap_ext_1. eapply Forall_impl; [exact Hdims|].
    intros dim Hdim. cbn in *. apply wrap_int64_id.
    unfold Int.in_int64. lia. }
  rewrite Heq in *. split; [done|].
  rewrite Forall_lookup in Hdims.
  rewrite (Read_inside _ component _ (ds_dims d) alloc idx value file d
             dtype'); try done.
  - by rewrite decode_bulk.
  - by rewrite length_replicate.
  - intros k a s dim Ha Hs' Hdim.
    apply lookup_replicate in Ha as [-> _].
    assert (s = dim) as -> by congruence.
    specialize (Hdims _ _ Hdim). cbn in Hdims. lia.
Qed.

End inside_results.

(** ** The statuses [Read] returns *)

Section statuses.
Import H5 HDF5ReadableResource.

Lemma returns_only_lift {A} P (r : Result A) :
  (∀ status, r = Return status → P status) → returns_only P (lift r).
Proof. intros Hr value status value' [= -> _]. by apply Hr. Qed.

Lemma returns_only_call {A} P d c (v : A) : returns_only P (lift (call d c v)).
Proof.
  apply returns_only_lift. unfold call. by destruct (ds_throws d c).
Qed.

Lemma returns_only_bind {A B} P (m : Body A) (k : A → Body B) :
  returns_only P m → (∀ a, returns_only P (k a)) →
  returns_only P (bbind m k).
Proof.
  intros Hm Hk value status value'. unfold bbind.
  destruct (m value) as [[a|s|e|fault] value1] eqn:Hrun; try done.
  - apply Hk.
  - intros [= <- _]. by eapply Hm.
Qed.

Lemma returns_only_set_string P i s : returns_only P (set_string i s).
Proof. intros value status value'. unfold set_string. by case_decide. Qed.

Lemma returns_only_bfor P body n :
  (∀ i, returns_only P (body i)) → ∀ i, returns_only P (bfor n i body).
Proof.
  intros Hbody. induction n as [|n IH]; intros i; [done|].
  cbn [bfor]. apply returns_only_bind; [done|]. intros _. apply IH.
Qed.

Lemma returns_only_buffer_at {A} P (buffer : list A) i :
  returns_only P (lift (buffer_at buffer i)).
Proof.
  apply returns_only_lift. unfold buffer_at. by destruct (buffer !! i).
Qed.

Lemma returns_only_read_numeric P d data_type ms fs :
  returns_only P (read_numeric d data_type ms fs).
Proof.
  unfold read_numeric. apply returns_only_bind; [apply returns_only_call|].
  intros bytes value status value'. unfold set_bytes.
  destruct ms; [by case_decide|done].
Qed.

Ltac returns :=
  repeat first
    [ apply returns_only_call
    | apply returns_only_buffer_at
    | apply returns_only_set_string
    | apply returns_only_read_numeric
    | apply returns_only_bfor; intros ?
    | apply returns_only_bind; [|intros ?]
    | by intros ??? ].

Lemma returns_only_read_string d data_type ms fs :
  getClass data_type = H5T_STRING ∨ getClass data_type = H5T_VLEN →
  returns_only invalid_argument (read_string d data_type ms fs).
Proof.
  unfold read_string.
  destruct (getClass data_type); intros [?|?]; try done; returns.
  match goal with
  | |- context [isVariableStr ?x] => destruct (isVariableStr x)
  end; returns.
  destruct (getStrpad data_type); returns.
  intros ? ? ? [= <- _]. split; [done|]. by intros ? [=].
Qed.

Lemma returns_only_read_bool d data_type ms fs :
  getClass data_type = H5T_ENUM → enum_is_bool data_type = true →
  returns_only invalid_argument (read_bool d data_type ms fs).
Proof.
  unfold read_bool. intros -> ->. apply returns_only_read_numeric.
Qed.

(** On a data set that [Init] has classified, the decoder returns no
    [Unimplemented] error and does not refuse an enumeration. *)
Lemma decode_classified names path d data_type dtype ms fs :
  classify names path data_type = Val dtype →
  returns_only invalid_argument (decode dtype d data_type ms fs).
Proof.
  unfold classify, classify_integer, classify_float, classify_compound.
  destruct (getClass data_type) eqn:Hclass; repeat case_decide;
    try destruct (enum_is_bool data_type) eqn:Hbool;
    try (by intros ?%refuse_enum_Val);
    try destruct (sign_is_set _); intros [= <-]; cbn [decode];
    try apply returns_only_read_numeric.
  all: first [ apply returns_only_read_string; auto
             | by apply returns_only_read_bool ].
Qed.

Lemma select_Return d start shape data_space status :
  select d start shape data_space = Return status →
  invalid_argument status.
Proof.
  unfold select, call. case_decide; [|done].
  destruct (ds_throws d DataSpace_getSimpleExtentNdims); [done|].
  cbn [rbind].
  case_decide; [intros [= <-]; split; [done|]; by intros ? [=]|].
  destruct (ds_throws d DataSpace_getSimpleExtentDims); [done|].
  cbn [rbind].
  destruct (rfor _ _ _ _) as [[dims dims_start]|s|e|fault] eqn:Hloop;
    try done.
  - cbn [rbind]. destruct (ds_throws d DataSpace_create); [done|].
    cbn [rbind]. by destruct (ds_throws d DataSpace_selectHyperslab).
  - intros [= <-]. revert Hloop. apply rfor_Return.
    intros i [dims dims_start] status'. unfold bounds_step.
    destruct (vec_get "start" start i); [done|]. cbn [check rbind].
    destruct (vec_get "dims" dims i); [done|]. cbn [check rbind].
    case_decide; [intros [= <-]; split; [done|]; by intros ? [=]|].
    destruct (vec_set "dims_start" _ _ _); [done|]. cbn [check rbind].
    by destruct (vec_set "dims" _ _ _).
Qed.

(** The [try] block of [Read] on a component of a resource set up by
    [Init]. *)
Lemma Read_try_classified file dtypes shapes idx component d dtype shape0
  filename index start shape :
  openDataSet file component = inr d →
  described ("r", "i") component d dtype shape0 →
  dtypes !! Z.to_nat idx = Some dtype →
  returns_only invalid_argument
    (Read_try (mk filename (Some (Some file)) dtypes shapes index ("r", "i"))
       file idx component start shape).
Proof.
  intros Hopen ((Hq1 & _ & _ & Hq2) & Hclass & _) Hdtype.
  intros value status value'. unfold Read_try, bbind, lift.
  rewrite Hopen. cbn [raise_or]. rewrite !call_quiet by done.
  destruct (select d start shape _) as [[ms fs]|s|e|fault] eqn:Hsel;
    try done.
  - cbn [dtypes_]. rewrite Hdtype. cbn [check].
    by apply (decode_classified _ _ _ _ _ _ _ Hclass).
  - intros [= <- _]. by eapply select_Return.
Qed.

End statuses.

Section status_results.
Import H5 HDF5ReadableResource.

(** X15.  On a resource set up by a first [Init] that returned ok, a
    [Read] that obtained its output tensor returns no other status than
    ok and [InvalidArgument], whatever the component and the request: for
    the data sets [Init] has classified, the [Unimplemented] branches of
    the decoder are not reachable, and neither is its refusal of an
    enumeration. *)
Theorem Read_after_Init_returns_ok_or_invalid_argument
  env uninit input r component start shape alloc value status out :
  Init env uninit new input = (Returned OkStatus, r) →
  alloc shape = inr value →
  Read r component start shape alloc = (Returned status, out) →
  code status = OK
  ∨ (code status = INVALID_ARGUMENT
     ∧ ∀ names, status ≠ unsupported_enum names).
Proof.
  intros (file & dtypes & shapes & _ & -> & _ & _ & Hpt)%Init_tables Halloc.
  unfold Read. cbn [columns_index_ file_image_]. rewrite Halloc.
  destruct (index_columns (walked file uninit) ∅ !! component) as [idx|]
    eqn:Hidx; [|intros [= <- _]; right; split; [done|]; by intros ? [=]].
  destruct (index_columns_lookup _ _ _ Hidx) as [_ Hpath].
  destruct (Hpt _ _ Hpath) as (d & dtype & shape0 & Hopen & Hdesc & Hd & _).
  pose proof (Read_try_classified file dtypes shapes idx component d dtype
                shape0 input (index_columns (walked file uninit) ∅) start
                shape Hopen Hdesc Hd value) as Htry.
  destruct (Read_try _ _ _ _ _ _ _) as [[[]|s|e|fault] value'];
    cbn [Read_catch].
  - intros [= <- _]. by left.
  - intros [= <- _]. right. by eapply Htry.
  - destruct (exc_class e); intros [= <- _]; right; split; try done;
      by intros ? [=].
  - done.
Qed.

End status_results.

(** ** The info kernel *)

Section info_kernel.
Import H5 HDF5ReadableResource HDF5ReadableInfoOp.

Local Open Scope nat_scope.

Lemma fetch_Some {A} name (v : list A) i x :
  v !! i = Some x → fetch name v i = inr x.
Proof. unfold fetch. by intros ->. Qed.

Lemma store_lt {A} name (v : list A) i x :
  i < length v → store name v i x = inr (<[i := x]> v).
Proof. unfold store. intros H. by rewrite decide_True. Qed.

(** With an index in range, [Spec] answers for every listed component. *)
Lemma Spec_listed r c :
  index_in_range r → c ∈ (Components r).2 →
  ∃ shape dtype, Spec r c = Val (shape, dtype).
Proof.
  intros Hrange Hin. unfold Components in Hin. cbn in Hin.
  apply list_elem_of_fmap in Hin as ([c' idx] & -> & Hin).
  apply elem_of_map_to_list in Hin. cbn.
  destruct (Hrange _ _ Hin) as [Hs Hd].
  destruct (lookup_lt_is_Some_2 _ _ Hs) as [shape Hshape].
  destruct (lookup_lt_is_Some_2 _ _ Hd) as [dtype Hdtype].
  exists shape, dtype. unfold Spec. by rewrite Hin, Hshape, Hdtype.
Qed.

(** The loop of lines 614-619 from index [i] on. *)
Lemma spec_loop r components n : ∀ i shapes dtypes rank,
  (∀ c, c ∈ components → ∃ shape dtype, Spec r c = Val (shape, dtype)) →
  i + n ≤ length components →
  length shapes = length components → length dtypes = length components →
  ∃ shapes' dtypes' rank',
    rfor n i (spec_step r components) (shapes, dtypes, rank)
    = Val (shapes', dtypes', rank')
    ∧ length shapes' = length components
    ∧ length dtypes' = length components
    ∧ rank ≤ rank'
    ∧ (∀ k c shape dtype,
         components !! k = Some c → Spec r c = Val (shape, dtype) →
         i ≤ k < i + n →
         shapes' !! k = Some shape ∧ dtypes' !! k = Some dtype
         ∧ length shape ≤ rank')
    ∧ (∀ k, ¬ i ≤ k < i + n →
         shapes' !! k = shapes !! k ∧ dtypes' !! k = dtypes !! k)
    ∧ (rank' = rank
       ∨ ∃ c shape dtype, c ∈ components ∧ Spec r c = Val (shape, dtype)
                          ∧ length shape = rank').
Proof.
  induction n as [|n IH]; intros i shapes dtypes rank Hspec Hi Hls Hld.
  - exists shapes, dtypes, rank. cbn. repeat split; try done; try lia.
    all: by left.
  - destruct (lookup_lt_is_Some_2 components i) as [c Hc]; [lia|].
    destruct (Hspec c) as (shape & dtype & Hsd);
      [by eapply list_elem_of_lookup_2|].
    cbn [rfor]. unfold spec_step at 1.
    rewrite (fetch_Some _ _ _ _ Hc). cbn [check rbind]. rewrite Hsd.
    cbn [rbind fst snd]. rewrite !store_lt by lia. cbn [check rbind].
    set (rank1 := if decide (rank < length shape) then length shape else rank).
    destruct (IH (S i) (<[i := shape]> shapes) (<[i := dtype]> dtypes) rank1)
      as (shapes' & dtypes' & rank' & Hrun & Hl1 & Hl2 & Hle & Hin & Hout
          & Hmax); try done; rewrite ?length_insert; try lia.
    exists shapes', dtypes', rank'. split; [done|].
    assert (rank ≤ rank1 ∧ length shape ≤ rank1) as [? ?]
      by (unfold rank1; case_decide; lia).
    split; [done|]. split; [done|]. split; [lia|]. split; [|split].
    + intros k c' shape' dtype' Hc' Hsd' Hk.
      destruct (decide (k = i)) as [->|Hne].
      * assert (c' = c) as -> by congruence.
        assert (shape' = shape) as -> by congruence.
        assert (dtype' = dtype) as -> by congruence.
        destruct (Hout i) as [-> ->]; [lia|].
        rewrite !list_lookup_insert_eq by lia. repeat split; try done. lia.
      * apply (Hin k c'); [done..|lia].
    + intros k Hk. destruct (Hout k) as [-> ->]; [lia|].
      rewrite !list_lookup_insert_ne by lia. done.
    + destruct Hmax as [->|?]; [|by right].
      unfold rank1. case_decide; [|by left].
      right. exists c, shape, dtype.
      split; [by eapply list_elem_of_lookup_2|done].
Qed.

(** A loop that writes the cells [j0 .. j0 + n - 1] of row [i]. *)
Lemma row_loop (g : nat → Z) rows cols i n : ∀ j0 m,
  i < rows → j0 + n ≤ cols → length m = rows * cols →
  ∃ m',
    for_loop n j0 (λ j m, matrix_set m (rows, cols) i j (g j)) m = inr m'
    ∧ length m' = length m
    ∧ ∀ k, m' !! k
           = if decide (i * cols + j0 ≤ k < i * cols + j0 + n)
             then Some (Some (g (k - i * cols))) else m !! k.
Proof.
  induction n as [|n IH]; intros j0 m Hi Hj Hl.
  - exists m. cbn. repeat split. intros k. case_decide; [lia|done].
  - cbn [for_loop]. unfold matrix_set at 1. cbn [fst snd].
    rewrite decide_True by lia. rewrite store_lt by nia. cbn [cbind].
    destruct (IH (S j0) (<[i * cols + j0 := Some (g j0)]> m))
      as (m' & Hrun & Hl' & Hpt); [done|lia|by rewrite length_insert|].
    exists m'. rewrite length_insert in Hl'. split; [done|]. split; [done|].
    intros k. rewrite Hpt.
    destruct (decide (k = i * cols + j0)) as [->|Hne].
    + rewrite list_lookup_insert_eq by nia.
      repeat case_decide; try lia. do 3 f_equal. lia.
    + rewrite list_lookup_insert_ne by done.
      repeat case_decide; (done || lia).
Qed.

(** One iteration of the loop of lines 634-643. *)
Lemma fill_step_row components shapes dtypes rank n i out c shape dtype :
  sized n rank out → i < n →
  components !! i = Some c → shapes !! i = Some shape →
  dtypes !! i = Some dtype → length shape ≤ rank →
  ∃ m,
    fill_step components shapes dtypes rank i out
    = inr (mkOutputs (<[i := c]> (component_tensor out)) m (n, rank)
             (<[i := Some dtype]> (dtype_tensor out)))
    ∧ length m = n * rank
    ∧ ∀ k, m !! k
           = if decide (i * rank ≤ k < i * rank + rank)
             then Some (Some (cell shape (k - i * rank)))
             else shape_tensor out !! k.
Proof.
  intros (Hl1 & Hl2 & Hdims & Hl3) Hi Hc Hshape Hdtype Hrank.
  unfold fill_step. rewrite (fetch_Some _ _ _ _ Hc). cbn [cbind].
  rewrite store_lt by lia. cbn [cbind].
  rewrite (fetch_Some _ _ _ _ Hshape). cbn [cbind].
  rewrite Hdims. unfold for_range. rewrite Nat.sub_0_r.
  destruct (row_loop (dim_size shape) n rank i (length shape) 0
              (shape_tensor out)) as (m1 & -> & Hm1 & Hpt1); [lia..|done|].
  cbn [cbind].
  destruct (row_loop (λ _, (-1)%Z) n rank i (rank - length shape)
              (length shape) m1) as (m2 & -> & Hm2 & Hpt2); [lia..|].
  cbn [cbind]. rewrite (fetch_Some _ _ _ _ Hdtype). cbn [cbind].
  rewrite store_lt by lia. cbn [cbind].
  exists m2. split; [done|]. split; [lia|].
  intros k. rewrite Hpt2, Hpt1. unfold cell.
  repeat case_decide; try lia; done.
Qed.

(** The loop of lines 634-643 from row [i] on. *)
Lemma fill_loop components shapes dtypes rank n count : ∀ i out,
  sized n rank out → i + count ≤ n →
  (∀ k, k < n →
     ∃ c shape dtype,
       components !! k = Some c ∧ shapes !! k = Some shape
       ∧ dtypes !! k = Some dtype ∧ length shape ≤ rank) →
  ∃ out',
    for_loop count i (fill_step components shapes dtypes rank) out = inr out'
    ∧ sized n rank out'
    ∧ ∀ k c shape dtype,
        components !! k = Some c → shapes !! k = Some shape →
        dtypes !! k = Some dtype →
        if decide (i ≤ k < i + count)
        then component_tensor out' !! k = Some c
             ∧ dtype_tensor out' !! k = Some (Some dtype)
             ∧ ∀ j, j < rank →
                 shape_tensor out' !! (k * rank + j) = Some (Some (cell shape j))
        else component_tensor out' !! k = component_tensor out !! k
             ∧ dtype_tensor out' !! k = dtype_tensor out !! k
             ∧ ∀ j, j < rank →
                 shape_tensor out' !! (k * rank + j)
                 = shape_tensor out !! (k * rank + j).
Proof.
  induction count as [|count IH]; intros i out Hsized Hi Htables.
  - exists out. cbn. split; [done|]. split; [done|].
    intros k c shape dtype _ _ _. by rewrite decide_False by lia.
  - destruct (Htables i) as (c & shape & dtype & Hc & Hshape & Hdtype & Hrank);
      [lia|].
    cbn [for_loop].
    destruct (fill_step_row components shapes dtypes rank n i out c shape
                dtype) as (m & -> & Hm & Hpt); try done; [lia|].
    cbn [cbind].
    set (out1 := mkOutputs _ m _ _).
    assert (sized n rank out1) as Hsized1.
    { destruct Hsized as (? & ? & ? & ?).
      unfold sized, out1. cbn. by rewrite !length_insert. }
    destruct (IH (S i) out1 Hsized1) as (out' & Hrun & Hsized' & Hrows);
      [lia|done|].
    exists out'. split; [done|]. split; [done|].
    intros k c' shape' dtype' Hc' Hshape' Hdtype'.
    specialize (Hrows k c' shape' dtype' Hc' Hshape' Hdtype').
    destruct Hsized as (Hl1 & _ & _ & Hl3).
    destruct (decide (k = i)) as [->|Hne].
    + rewrite decide_False in Hrows by lia. rewrite decide_True by lia.
      destruct Hrows as (-> & -> & Hcells). unfold out1. cbn.
      rewrite !list_lookup_insert_eq by lia.
      assert (c' = c) as -> by congruence.
      assert (shape' = shape) as -> by congruence.
      assert (dtype' = dtype) as -> by congruence.
      repeat split; try done.
      intros j Hj. rewrite Hcells by done. cbn. rewrite Hpt.
      rewrite decide_True by lia. do 3 f_equal. lia.
    + destruct (decide (i ≤ k < i + S count)) as [Hin|Hout].
      * rewrite decide_True in Hrows by lia. done.
      * rewrite decide_False in Hrows by lia.
        destruct Hrows as (-> & -> & Hcells). unfold out1. cbn.
        rewrite !list_lookup_insert_ne by done.
        repeat split; try done.
        intros j Hj. rewrite Hcells by done. cbn. rewrite Hpt.
        rewrite decide_False; [done|]. nia.
Qed.

(** The outputs of the kernel, cell by cell. *)
Lemma ResourceKernel_cells r :
  index_in_range r →
  let components := (Components r).2 in
  ∃ out rank,
    ResourceKernel r = (Returned OkStatus, Some out)
    ∧ sized (length components) rank out
    ∧ component_tensor out = components
    ∧ (∀ i c shape dtype,
         components !! i = Some c → Spec r c = Val (shape, dtype) →
         length shape ≤ rank
         ∧ dtype_tensor out !! i = Some (Some dtype)
         ∧ ∀ j, j < rank →
             shape_tensor out !! (i * rank + j) = Some (Some (cell shape j)))
    ∧ (rank = 0
       ∨ ∃ c shape dtype, c ∈ components ∧ Spec r c = Val (shape, dtype)
                          ∧ length shape = rank).
Proof.
  intros Hrange components.
  pose proof (λ c, Spec_listed r c Hrange) as Hspec. fold components in Hspec.
  unfold ResourceKernel. unfold Components in *. cbn [ok code negb fst snd] in *.
  fold components.
  destruct (spec_loop r components (length components) 0
              (replicate (length components) [])
              (replicate (length components) tensorflow.DT_INVALID) 0 Hspec)
    as (shapes & dtypes & rank & -> & Hl1 & Hl2 & _ & Hin & _ & Hmax);
    rewrite ?length_replicate; try done.
  set (out0 := mkOutputs _ _ _ _).
  assert (sized (length components) rank out0) as Hsized
    by (unfold sized, out0; cbn; by rewrite !length_replicate).
  unfold for_range. rewrite Nat.sub_0_r.
  destruct (fill_loop components shapes dtypes rank (length components)
              (length components) 0 out0 Hsized) as (out & -> & Hsized' & Hrows);
    [done| |].
  { intros k Hk.
    destruct (lookup_lt_is_Some_2 components k) as [c Hc]; [done|].
    destruct (Hspec c) as (shape & dtype & Hsd);
      [by eapply list_elem_of_lookup_2|].
    destruct (Hin k c shape dtype Hc Hsd) as (? & ? & ?); [lia|].
    by exists c, shape, dtype. }
  exists out, rank. split; [done|]. split; [done|]. split; [|split].
  - apply list_eq. intros k.
    destruct (components !! k) as [c|] eqn:Hc.
    + pose proof (lookup_lt_Some _ _ _ Hc) as Hk.
      destruct (Hspec c) as (shape & dtype & Hsd);
        [by eapply list_elem_of_lookup_2|].
      destruct (Hin k c shape dtype Hc Hsd) as (Hs & Hd & _); [lia|].
      specialize (Hrows k c shape dtype Hc Hs Hd).
      rewrite decide_True in Hrows by lia. by destruct Hrows as (-> & _).
    + apply lookup_ge_None in Hc. apply lookup_ge_None.
      destruct Hsized' as (-> & _). done.
  - intros i c shape dtype Hc Hsd.
    pose proof (lookup_lt_Some _ _ _ Hc) as Hi.
    destruct (Hin i c shape dtype Hc Hsd) as (Hs & Hd & Hle); [lia|].
    specialize (Hrows i c shape dtype Hc Hs Hd).
    rewrite decide_True in Hrows by lia.
    by destruct Hrows as (_ & ? & ?).
  - destruct Hmax as [->|?]; [by left|by right].
Qed.

(** A row whose cells are those of [shape] is [shape] padded with -1. *)
Lemma shape_row_padded n rank out i shape :
  sized n rank out → i < n → length shape ≤ rank →
  (∀ j, j < rank →
     shape_tensor out !! (i * rank + j) = Some (Some (cell shape j))) →
  shape_row out i = padded shape rank.
Proof.
  intros (_ & Hl & Hdims & _) Hi Hle Hcells.
  unfold shape_row, padded. rewrite Hdims. cbn [snd].
  apply list_eq. intros j.
  destruct (decide (j < rank)) as [Hj|Hj].
  - rewrite lookup_take_lt by done. rewrite lookup_drop, Hcells by done.
    rewrite list_lookup_fmap. unfold cell, dim_size.
    case_decide as Hjs.
    + rewrite lookup_app_l by done.
      by destruct (lookup_lt_is_Some_2 shape j Hjs) as [x ->].
    + rewrite lookup_app_r by lia.
      rewrite lookup_replicate_2 by lia. done.
  - rewrite lookup_take_ge by lia. symmetry. apply lookup_ge_None.
    rewrite length_fmap, length_app, length_replicate. lia.
Qed.

(** The padding does not hide a dimension: a shape without negative
    entries is read back from its padded row. *)
Lemma row_dims_padded shape rank :
  Forall (λ x, (0 <= x)%Z) shape → row_dims (padded shape rank) = shape.
Proof.
  intros Hpos. unfold row_dims, padded.
  assert (∀ l : list Z, omap id (Some <$> l) = l) as ->.
  { induction l as [|x l IH]; [done|]. cbn. by rewrite IH. }
  rewrite filter_app.
  assert (filter (λ z, (0 <= z)%Z) (replicate (rank - length shape) (-1)%Z)
          = []) as ->.
  { induction (rank - length shape) as [|k IH]; [done|]. cbn [replicate].
    rewrite filter_cons_False by lia. done. }
  rewrite app_nil_r.
  induction Hpos as [|x l Hx _ IH]; [done|].
  rewrite filter_cons_True by done. by rewrite IH.
Qed.

End info_kernel.

Section info_results.
Import H5 HDF5ReadableResource HDF5ReadableInfoOp.

Local Open Scope nat_scope.

(** X16.  The info kernel on a resource whose index stays inside
    [shapes_] and [dtypes_]: it returns ok; the first output lists the
    components; the second is a matrix with one row per component and as
    many columns as the largest rank (none when there is no component),
    every cell of which is written: row [i] is the shape of component [i]
    followed by -1 up to the width; the third holds the value type of each
    component. *)
Theorem info_kernel_pads_shapes r :
  index_in_range r →
  let components := (Components r).2 in
  ∃ out rank,
    ResourceKernel r = (Returned OkStatus, Some out)
    ∧ component_tensor out = components
    ∧ shape_tensor_dims out = (length components, rank)
    ∧ length (shape_tensor out) = length components * rank
    ∧ length (dtype_tensor out) = length components
    ∧ (∀ i c shape dtype,
         components !! i = Some c → Spec r c = Val (shape, dtype) →
         length shape ≤ rank
         ∧ shape_row out i = padded shape rank
         ∧ dtype_tensor out !! i = Some (Some dtype))
    ∧ (rank = 0
       ∨ ∃ c shape dtype, c ∈ components ∧ Spec r c = Val (shape, dtype)
                          ∧ length shape = rank).
Proof.
  intros Hrange components.
  destruct (ResourceKernel_cells r Hrange)
    as (out & rank & Hrun & Hsized & Hcomp & Hrows & Hmax).
  fold components in Hsized, Hcomp, Hrows, Hmax.
  exists out, rank. pose proof Hsized as (_ & ? & ? & ?).
  repeat split; try done.
  - by destruct (Hrows i c shape dtype) as (? & _).
  - destruct (Hrows i c shape dtype) as (? & _ & ?); try done.
    eapply shape_row_padded; try done. by eapply lookup_lt_Some.
  - by destruct (Hrows i c shape dtype) as (_ & ? & _).
Qed.

(** X17.  After a first [Init] that returned ok, the info kernel returns
    ok, and a reader of its outputs gets back, for every component it
    lists, the extent and the value type of the data set at that path: no
    extent has a negative entry, so dropping the -1 cells of a row yields
    the extent. *)
Theorem info_kernel_after_Init env uninit input r :
  Init env uninit new input = (Returned OkStatus, r) →
  ∃ file out,
    file_image_ r = Some (Some file)
    ∧ ResourceKernel r = (Returned OkStatus, Some out)
    ∧ (∀ path, path ∈ component_tensor out ↔ path ∈ walked file uninit)
    ∧ ∀ i path,
        component_tensor out !! i = Some path →
        ∃ d dtype,
          openDataSet file path = inr d
          ∧ classify ("r", "i") path (ds_type d) = Val dtype
          ∧ row_dims (shape_row out i) = Int.wrap_int64 <$> ds_dims d
          ∧ dtype_tensor out !! i = Some (Some dtype).
Proof.
  intros HInit.
  pose proof HInit as (file & dtypes & shapes & _ & Hr & Hl1 & Hl2 & Hpt)%Init_tables.
  pose proof (Init_index_in_range _ _ _ _ HInit) as Hrange.
  destruct (ResourceKernel_cells r Hrange)
    as (out & rank & Hrun & Hsized & Hcomp & Hrows & _).
  exists file, out. split; [by subst r|]. split; [done|]. split.
  - intros path. rewrite Hcomp. subst r. unfold Components. cbn.
    rewrite <- (index_columns_dom (walked file uninit) path).
    rewrite list_elem_of_fmap. split.
    + intros ([path' idx] & -> & Hin). apply elem_of_map_to_list in Hin.
      by eexists.
    + intros [idx Hidx]. exists (path, idx).
      split; [done|]. by apply elem_of_map_to_list.
  - intros i path Hi. rewrite Hcomp in Hi.
    assert (∃ idx, columns_index_ r !! path = Some idx) as [idx Hidx].
    { apply list_elem_of_lookup_2 in Hi. unfold Components in Hi. cbn in Hi.
      apply list_elem_of_fmap in Hi as ([path' idx] & -> & Hin).
      apply elem_of_map_to_list in Hin. by exists idx. }
    assert (∃ d dtype shape,
              openDataSet file path = inr d
              ∧ described ("r", "i") path d dtype shape
              ∧ Spec r path = Val (shape, dtype))
      as (d & dtype & shape & Hopen & Hdesc & HSpec).
    { subst r. cbn in Hidx.
      destruct (index_columns_lookup _ _ _ Hidx) as [_ Hpath].
      destruct (Hpt _ _ Hpath) as (d & dtype & shape & ? & ? & Hd & Hs).
      exists d, dtype, shape. split; [done|]. split; [done|].
      unfold Spec. cbn [columns_index_ shapes_ dtypes_].
      by rewrite Hidx, Hs, Hd. }
    destruct (Hrows i path shape dtype Hi HSpec) as (Hle & Hdt & Hcells).
    destruct Hdesc as (_ & Hclass & -> & Hpos).
    exists d, dtype. split; [done|]. split; [done|]. split; [|done].
    rewrite (shape_row_padded (length (Components r).2) rank out i
               (Int.wrap_int64 <$> ds_dims d)); try done.
    + by apply row_dims_padded.
    + by eapply lookup_lt_Some.
Qed.

End info_results.

(** ** Opening the container *)

Section opening.
Import H5 HDF5ReadableResource.

(** X18.  [Init] on a container that cannot be opened.  A name with
    ["://"] goes through the file system of the host, and a failure there
    makes [Init] return [InvalidArgument] with the name; any other name is
    opened by the library, whose exception [Init] does not catch.  In both
    cases the name is stored and the tables are left as they were. *)
Theorem Init_on_unreadable_file env uninit r input :
  (contains "://" input = true → remote_file env input = None →
   Init env uninit r input
   = (Returned (InvalidArgument
                  [MStr "unable to open hdf5 file: "; MStr input]),
      mk input (Some None) (dtypes_ r) (shapes_ r) (columns_index_ r)
        (complex_names_ r)))
  ∧ (contains "://" input = false → local_file env input = None →
     ∃ e, exc_class e = FileIException
          ∧ Init env uninit r input
            = (Propagated e,
               mk input (file_image_ r) (dtypes_ r) (shapes_ r)
                 (columns_index_ r) (complex_names_ r))).
Proof.
  split; intros Hname Hfile; unfold Init, HDF5FileImage;
    cbn [filename_ file_image_ dtypes_ shapes_ columns_index_ complex_names_];
    rewrite decide_False by (by intros ?); rewrite Hname; cbn [negb];
    rewrite Hfile; [done|].
  eexists. split; [|reflexivity]. reflexivity.
Qed.

End opening.

(** ** Enumerations *)

Section enumerations.
Import H5 HDF5ReadableResource.

(** X19.  An enumeration is classified as [DT_BOOL] exactly when it has
    size 1 and its members are ["FALSE"] with value 0 and ["TRUE"] with
    value 1, in this order.  Any other enumeration is refused, and the
    refusal reads the value of every member into an [int] and asks for its
    name with a buffer of 100 characters:
    - an enumeration of at most four bytes, with pairwise different member
      values and names shorter than 100 characters, is refused with the
      error that lists its member names in their order, separated by
      [", "] and in brackets;
    - an enumeration without members is refused with the empty list;
    - for an enumeration of more than four bytes that has a member, the
      value of the first member is written past the end of the [int]. *)
Theorem enum_classification names dataset t :
  getClass t = H5T_ENUM →
  (classify names dataset t = Val tensorflow.DT_BOOL
   ↔ getSize t = 1 ∧ enum_members t = [("FALSE", 0); ("TRUE", 1)])
  ∧ (¬ (getSize t = 1 ∧ enum_members t = [("FALSE", 0); ("TRUE", 1)]) →
     (getSize t <= 4 → NoDup (enum_members t).*2 →
      Forall (λ n, String.length n < 100)%nat (enum_members t).*1 →
      classify names dataset t
      = Return (InvalidArgument
                  [MStr "unsupported data class for enum: ";
                   MStr (bracketed (enum_members t).*1)]))
     ∧ (enum_members t = [] →
        classify names dataset t
        = Return (InvalidArgument
                    [MStr "unsupported data class for enum: "; MStr "[]"]))
     ∧ (4 < getSize t → enum_members t ≠ [] →
        classify names dataset t = Undef (OutOfRange "value" 4 4))).
Proof.
  intros Hclass. unfold classify. rewrite Hclass.
  assert (enum_is_bool t = true
          ↔ getSize t = 1 ∧ enum_members t = [("FALSE", 0); ("TRUE", 1)])
    as Hbool.
  { unfold enum_is_bool, enum_getNmembers, getMemberIndex, getMemberValue.
    destruct (enum_members t) as [|[n0 v0] [|[n1 v1] [|m ms]]]; cbn.
    1,2,4: split; [by case_decide; [cbn in *; lia|]|by intros [_ [=]]].
    case_decide as Hsize; [|split; [done|intros [? _]; tauto]].
    destruct Hsize as (Hsize & _ & _).
    repeat case_decide; cbn.
    all: split; [intros ?|intros [_ ?]]; simplify_eq/=; try done. }
  destruct (enum_is_bool t).
  - split; [|intros Hno; contradict Hno; by apply Hbool].
    split; [intros _; by apply Hbool|done].
  - split.
    + split; [by intros ?%refuse_enum_Val|intros H; by apply Hbool in H].
    + intros _. unfold refuse_enum. split; [|split].
      * intros Hsize Hnd Hshort. by rewrite enum_names_narrow.
      * intros Hnil. by rewrite enum_names_none.
      * intros Hsize Hne. by rewrite enum_names_wide.
Qed.

End enumerations.

(** ** Defaults of the read kernel *)

Section defaults.
Import HDF5ReadableReadOp.

(** X20.  Entries the [start] and [stop] tensors do not give are filled
    in: a missing [start] entry is 0, and a missing [stop] entry is the
    extent of its dimension, provided the [stop] vector has room for it.
    A [start] tensor with more elements than there are dimensions is
    written outside the [start] vector. *)
Theorem missing_entries_are_filled_in shape start_tensor stop_tensor :
  ((NumElements start_tensor ≤ length shape)%nat →
   fill_start shape start_tensor
   = inr (ts_flat start_tensor
            ++ replicate (length shape - NumElements start_tensor) 0)%list)
  ∧ ((length shape < NumElements start_tensor)%nat →
     fill_start shape start_tensor
     = inl (OutOfRange "start" (length shape) (length shape)))
  ∧ ((NumElements stop_tensor ≤ length shape)%nat →
     (length shape ≤ Tensor_dims stop_tensor)%nat →
     fill_stop shape stop_tensor
     = inr (ts_flat stop_tensor
              ++ drop (NumElements stop_tensor) shape
              ++ replicate (Tensor_dims stop_tensor - length shape) 0)%list).
Proof.
  unfold NumElements. split; [|split].
  - intros Hn. unfold fill_start, for_range, NumElements.
    rewrite Nat.sub_0_r.
    destruct (for_loop_vec_set "start" (flat start_tensor)
                (length (ts_flat start_tensor)) 0
                (replicate (length shape) 0)) as (v1 & -> & Hl1 & Hpt1).
    { rewrite length_replicate. lia. }
    cbn [cbind]. rewrite length_replicate in Hl1.
    destruct (for_loop_vec_set "start" (λ _, 0)
                (length shape - length (ts_flat start_tensor))
                (length (ts_flat start_tensor)) v1)
      as (v2 & -> & Hl2 & Hpt2); [lia|].
    f_equal. apply list_eq. intros k. rewrite Hpt2, Hpt1. unfold flat.
    destruct (decide (k < length (ts_flat start_tensor))%nat) as [Hk|Hk].
    + rewrite lookup_app_l by done.
      destruct (lookup_lt_is_Some_2 (ts_flat start_tensor) k Hk) as [x ->].
      repeat case_decide; (done || lia).
    + rewrite lookup_app_r by lia.
      destruct (decide (k < length shape)%nat) as [Hk'|Hk'].
      * rewrite !lookup_replicate_2 by lia.
        repeat case_decide; (done || lia).
      * rewrite !(lookup_ge_None_2 (replicate _ _))
          by (rewrite length_replicate; lia).
        repeat case_decide; (done || lia).
  - intros Hn. unfold fill_start, for_range, NumElements.
    rewrite Nat.sub_0_r.
    rewrite for_loop_vec_set_fault by (rewrite length_replicate; lia).
    by rewrite length_replicate.
  - intros Hn Hk. unfold fill_stop, for_range, NumElements.
    rewrite Nat.sub_0_r.
    destruct (for_loop_vec_set "stop" (flat stop_tensor)
                (length (ts_flat stop_tensor)) 0
                (replicate (Tensor_dims stop_tensor) 0))
      as (v1 & -> & Hl1 & Hpt1).
    { rewrite length_replicate. lia. }
    cbn [cbind]. rewrite length_replicate in Hl1.
    destruct (for_loop_vec_set "stop" (dim_size shape)
                (length shape - length (ts_flat stop_tensor))
                (length (ts_flat stop_tensor)) v1)
      as (v2 & -> & Hl2 & Hpt2); [lia|].
    f_equal. apply list_eq. intros k. rewrite Hpt2, Hpt1.
    unfold flat, dim_size.
    destruct (decide (k < length (ts_flat stop_tensor))%nat) as [Hk1|Hk1].
    + rewrite lookup_app_l by done.
      destruct (lookup_lt_is_Some_2 (ts_flat stop_tensor) k Hk1) as [x ->].
      repeat case_decide; (done || lia).
    + rewrite lookup_app_r by lia.
      destruct (decide (k < length shape)%nat) as [Hk2|Hk2].
      * rewrite lookup_app_l by (rewrite length_drop; lia).
        rewrite lookup_drop.
        replace (length (ts_flat stop_tensor)
                 + (k - length (ts_flat stop_tensor)))%nat with k by lia.
        destruct (lookup_lt_is_Some_2 shape k Hk2) as [x ->].
        repeat case_decide; (done || lia).
      * rewrite lookup_app_r by (rewrite length_drop; lia).
        rewrite length_drop.
        destruct (decide (k < Tensor_dims stop_tensor)%nat) as [Hk3|Hk3].
        -- rewrite !lookup_replicate_2 by lia.
           repeat case_decide; (done || lia).
        -- rewrite !(lookup_ge_None_2 (replicate _ _))
             by (rewrite length_replicate; lia).
           repeat case_decide; (done || lia).
Qed.

End defaults.

(** ** The two paddings of fixed-length strings *)

Section paddings.
Import H5 HDF5ReadableResource.

Lemma string_of_take_more ptr l1 l2 :
  (l1 ≤ l2)%nat → string_of ptr l1 = take l1 (string_of ptr l2).
Proof.
  intros Hle. unfold string_of. rewrite <- fmap_take. f_equal.
  by rewrite take_seq, Nat.min_l.
Qed.

(** X21.  On the same bytes, the null-terminated decoding of an element
    is a prefix of its null-padded decoding, and the two are equal exactly
    when the null-padded decoding has no zero byte. *)
Theorem null_terminated_is_prefix_of_null_padded buffer size i :
  decode_nullterm buffer size i `prefix_of` decode_nullpad buffer size i
  ∧ (decode_nullterm buffer size i = decode_nullpad buffer size i
     ↔ Forall (λ b, b ≠ x00) (decode_nullpad buffer size i)).
Proof.
  unfold decode_nullterm, decode_nullpad. cbn zeta.
  set (ptr := field_at buffer size i).
  destruct (nullterm_scan_spec ptr size 0) as (Hl1 & Hnz1 & Hz1).
  destruct (nullpad_scan_spec ptr size) as (Hl2 & Hz2 & Hnz2).
  set (l1 := nullterm_scan ptr size 0) in *.
  set (l2 := nullpad_scan ptr size) in *.
  assert (l1 ≤ l2)%nat as Hle.
  { destruct (decide (l1 ≤ l2)%nat) as [|Hgt]; [done|]. exfalso.
    apply (Hnz1 l2); [lia|]. apply Hz2. lia. }
  split.
  - rewrite (string_of_take_more ptr l1 l2 Hle).
    exists (drop l1 (string_of ptr l2)). by rewrite take_drop.
  - split.
    + intros <-. unfold string_of. apply Forall_fmap, Forall_forall.
      intros k Hk%elem_of_seq. apply Hnz1. lia.
    + intros Hnz. assert (l1 = l2) as ->; [|done].
      destruct (decide (l1 = l2)) as [|Hne]; [done|]. exfalso.
      rewrite Forall_lookup in Hnz. apply (Hnz l1 (ptr l1)).
      * unfold string_of. rewrite list_lookup_fmap.
        rewrite lookup_seq_lt by lia. done.
      * apply Hz1. lia.
Qed.

End paddings.

(** ** Instances on the sample containers, continued *)

Section graph_instances.
Import H5 HDF5Iterate.

(** Case analysis on the group a hypothesis [objects f !! a = Some (Group
    links)] speaks about, and on the link taken from it. *)
Ltac group_cases Ha Hin :=
  cbn in Ha;
  repeat (apply lookup_insert_Some in Ha as [[<- Ha]|[_ Ha]];
          [try done; injection Ha as <-|]);
  try done;
  repeat (apply elem_of_cons in Hin as [Hin|Hin]; [injection Hin as -> ->|]);
  try (by apply elem_of_nil in Hin).

Lemma nested_well_formed : well_formed Fixtures.nested.
Proof.
  split; [by eexists|]. split; [|split].
  - intros a links n b Ha Hin. group_cases Ha Hin; by eexists.
  - intros a links Ha. cbn in Ha.
    repeat (apply lookup_insert_Some in Ha as [[<- Ha]|[_ Ha]];
            [try done; injection Ha as <-|]); try done.
    all: split; [|repeat constructor; done].
    all: cbn; repeat (apply NoDup_cons; split;
                      [rewrite ?elem_of_cons, elem_of_nil; naive_solver|]).
    all: apply NoDup_nil_2.
  - intros a links n b Ha Hin. group_cases Ha Hin; done.
Qed.



Lemma walk_reports_no_error_witness :
  ∃ p, ∀ uninit, walk Fixtures.nested uninit = Some (0, p).
Proof.
  apply walk_reports_no_error. by destruct nested_well_formed as (_ & ? & _).
Defined.

Lemma walk_lists_paths_of_data_sets_witness :
  ∃ err p,
    walk Fixtures.nested Samples.uninit = Some (err, p)
    ∧ datasets_ p = ["/g/y"; "/x"]
    ∧ ∀ s, s ∈ datasets_ p → ∃ d, openDataSet Fixtures.nested s = inr d.
Proof.
  eexists _, _. split; [reflexivity|]. split; [reflexivity|].
  eapply (walk_lists_paths_of_data_sets Fixtures.nested Samples.uninit);
    [exact nested_well_formed|reflexivity].
Defined.

Lemma twins_well_formed : well_formed Fixtures.twins.
Proof.
  split; [by eexists|]. split; [|split].
  - intros a links n b Ha Hin. group_cases Ha Hin; by eexists.
  - intros a links Ha. cbn in Ha.
    repeat (apply lookup_insert_Some in Ha as [[<- Ha]|[_ Ha]];
            [try done; injection Ha as <-|]); try done.
    all: split; [|repeat constructor; done].
    all: cbn; repeat (apply NoDup_cons; split;
                      [rewrite ?elem_of_cons, elem_of_nil; naive_solver|]).
    all: apply NoDup_nil_2.
  - intros a links n b Ha Hin. group_cases Ha Hin; done.
Qed.

Lemma walk_lists_every_reachable_data_set_witness :
  (∃ err p,
     walk Fixtures.nested Samples.uninit = Some (err, p)
     ∧ ∃ s, s ∈ datasets_ p
            ∧ resolve Fixtures.nested (root Fixtures.nested)
                (path_components s "") = Some 4
            ∧ openDataSet Fixtures.nested s = inr Fixtures.matrix)
  ∧ ∃ err p,
      walk Fixtures.twins Samples.uninit = Some (err, p)
      ∧ (∃ s, s ∈ datasets_ p
              ∧ resolve Fixtures.twins (root Fixtures.twins)
                  (path_components s "") = Some 2
              ∧ openDataSet Fixtures.twins s = inr Samples.ten_ints)
      ∧ ∃ s, s ∈ datasets_ p
             ∧ resolve Fixtures.twins (root Fixtures.twins)
                 (path_components s "") = Some 3
             ∧ openDataSet Fixtures.twins s = inr Samples.ten_ints.
Proof.
  split.
  - eexists _, _. split; [reflexivity|].
    eapply (walk_lists_every_reachable_data_set Fixtures.nested
              Samples.uninit _ _ ["g"; "up"; "g"; "y"] 4 Fixtures.matrix);
      [exact nested_well_formed|reflexivity..].
  - eexists _, _. split; [reflexivity|]. split.
    + eapply (walk_lists_every_reachable_data_set Fixtures.twins
                Samples.uninit _ _ ["a"] 2 Samples.ten_ints);
        [exact twins_well_formed|reflexivity..].
    + eapply (walk_lists_every_reachable_data_set Fixtures.twins
                Samples.uninit _ _ ["b"] 3 Samples.ten_ints);
        [exact twins_well_formed|reflexivity..].
Defined.

Lemma walk_of_flat_container_witness :
  walk Samples.two_links Samples.uninit
  = Some (0, mk ["/a"; "/b"] {[ 1 := "" ]} 1).
Proof.
  apply (walk_of_flat_container Samples.two_links Samples.uninit
           [("a", 2); ("b", 2)]); [reflexivity|].
  repeat constructor; by eexists.
Defined.

End graph_instances.

Section table_instances.
Import H5 HDF5ReadableResource.

Lemma nested_Init :
  Init (Fixtures.host Fixtures.nested) Samples.uninit new "f.h5"
  = (Returned OkStatus, Samples.opened Fixtures.nested).
Proof. reflexivity. Qed.

Lemma Spec_after_Init_witness :
  ∃ file,
    file_image_ (Samples.opened Fixtures.nested) = Some (Some file)
    ∧ ((¬ "/g/y" ∈ walked file Samples.uninit
        ∧ Spec (Samples.opened Fixtures.nested) "/g/y"
          = Return (not_found "/g/y"))
       ∨ ("/g/y" ∈ walked file Samples.uninit
          ∧ ∃ d dtype shape,
              openDataSet file "/g/y" = inr d
              ∧ described ("r", "i") "/g/y" d dtype shape
              ∧ Spec (Samples.opened Fixtures.nested) "/g/y"
                = Val (shape, dtype))).
Proof.
  exact (Spec_after_Init (Fixtures.host Fixtures.nested) Samples.uninit
           "f.h5" (Samples.opened Fixtures.nested) "/g/y" nested_Init).
Defined.

Lemma Components_after_Init_witness :
  ∃ file components,
    file_image_ (Samples.opened Fixtures.nested) = Some (Some file)
    ∧ Components (Samples.opened Fixtures.nested) = (OkStatus, components)
    ∧ NoDup components
    ∧ ∀ path, path ∈ components ↔ path ∈ walked file Samples.uninit.
Proof.
  exact (Components_after_Init (Fixtures.host Fixtures.nested)
           Samples.uninit "f.h5" (Samples.opened Fixtures.nested)
           nested_Init).
Defined.

Lemma twins_Init :
  Init (Fixtures.host Fixtures.twins) Samples.uninit new "f.h5"
  = (Returned OkStatus, Samples.opened Fixtures.twins).
Proof. reflexivity. Qed.

Lemma Init_indexes_every_reachable_data_set_witness :
  (∃ path dtype shape,
     resolve Fixtures.nested (root Fixtures.nested) (path_components path "")
     = Some 4
     ∧ openDataSet Fixtures.nested path = inr Fixtures.matrix
     ∧ Spec (Samples.opened Fixtures.nested) path = Val (shape, dtype)
     ∧ classify ("r", "i") path (ds_type Fixtures.matrix) = Val dtype)
  ∧ (∃ path dtype shape,
       resolve Fixtures.twins (root Fixtures.twins) (path_components path "")
       = Some 2
       ∧ openDataSet Fixtures.twins path = inr Samples.ten_ints
       ∧ Spec (Samples.opened Fixtures.twins) path = Val (shape, dtype)
       ∧ classify ("r", "i") path (ds_type Samples.ten_ints) = Val dtype)
  ∧ ∃ path dtype shape,
      resolve Fixtures.twins (root Fixtures.twins) (path_components path "")
      = Some 3
      ∧ openDataSet Fixtures.twins path = inr Samples.ten_ints
      ∧ Spec (Samples.opened Fixtures.twins) path = Val (shape, dtype)
      ∧ classify ("r", "i") path (ds_type Samples.ten_ints) = Val dtype.
Proof.
  split; [|split].
  - apply (Init_indexes_every_reachable_data_set
             (Fixtures.host Fixtures.nested) Samples.uninit "f.h5"
             (Samples.opened Fixtures.nested) Fixtures.nested ["g"; "y"] 4
             Fixtures.matrix nested_Init eq_refl nested_well_formed eq_refl
             eq_refl).
  - apply (Init_indexes_every_reachable_data_set
             (Fixtures.host Fixtures.twins) Samples.uninit "f.h5"
             (Samples.opened Fixtures.twins) Fixtures.twins ["a"] 2
             Samples.ten_ints twins_Init eq_refl twins_well_formed eq_refl
             eq_refl).
  - apply (Init_indexes_every_reachable_data_set
             (Fixtures.host Fixtures.twins) Samples.uninit "f.h5"
             (Samples.opened Fixtures.twins) Fixtures.twins ["b"] 3
             Samples.ten_ints twins_Init eq_refl twins_well_formed eq_refl
             eq_refl).
Defined.

Lemma mixed_Init_fails :
  (Init (Fixtures.host Fixtures.mixed) Samples.uninit new "f.h5").1
  ≠ Returned OkStatus.
Proof. by vm_compute. Qed.

Lemma failed_Init_knows_no_component_witness :
  Spec (Samples.opened Fixtures.mixed) "/a" = Return (not_found "/a")
  ∧ Components (Samples.opened Fixtures.mixed) = (OkStatus, [])
  ∧ ∀ start shape alloc,
      Read (Samples.opened Fixtures.mixed) "/a" start shape alloc
      = (Returned (not_found "/a"), None).
Proof.
  exact (failed_Init_knows_no_component (Fixtures.host Fixtures.mixed)
           Samples.uninit "f.h5" "/a" mixed_Init_fails).
Defined.

Lemma Init_leaves_at_first_failure_witness :
  ∃ r,
    Init (Fixtures.host Fixtures.mixed) Samples.uninit new "f.h5"
    = (Returned (unsupported_size "/b" 3), r)
    ∧ columns_index_ r = ∅
    ∧ length (dtypes_ r) = 1%nat
    ∧ length (shapes_ r) = 1%nat.
Proof.
  assert (Forall (λ d, ∃ v, Init_dataset ("r", "i") Fixtures.mixed d = Val v)
            ["/a"]) as Hbefore
    by (repeat constructor; by eexists).
  apply (proj1 (Init_leaves_at_first_failure (Fixtures.host Fixtures.mixed)
                  Samples.uninit "f.h5" Fixtures.mixed ["/a"] "/b" ["/c"]
                  eq_refl eq_refl Hbefore)).
  reflexivity.
Defined.

Lemma Init_is_all_or_nothing_witness :
  (Init (Fixtures.host Fixtures.nested) Samples.uninit new "f.h5").1
  = Returned OkStatus
  ↔ Forall (λ path, ∃ d dtype shape,
                      openDataSet Fixtures.nested path = inr d
                      ∧ described ("r", "i") path d dtype shape)
      (walked Fixtures.nested Samples.uninit).
Proof.
  exact (Init_is_all_or_nothing (Fixtures.host Fixtures.nested)
           Samples.uninit "f.h5" Fixtures.nested eq_refl).
Defined.

End table_instances.

Section request_instances.
Import H5 HDF5ReadableResource HDF5ReadableReadOp.

Lemma ten_ints_bulk : bulk_type tensorflow.DT_INT32.
Proof. unfold bulk_type. rewrite !elem_of_cons. tauto. Qed.

Lemma Read_inside_selects_the_block_witness :
  Read (Samples.opened Samples.one_dataset) "/x" [3] [4] allocate_output
  = (Read_catch (Samples.opened Samples.one_dataset)
       (decode tensorflow.DT_INT32 Samples.ten_ints
          (ds_type Samples.ten_ints) (Simple [4] SelectAll)
          (Simple [10] (SelectHyperslab [4] [3])) (fresh_tensor [4])).1,
     Some (decode tensorflow.DT_INT32 Samples.ten_ints
             (ds_type Samples.ten_ints) (Simple [4] SelectAll)
             (Simple [10] (SelectHyperslab [4] [3])) (fresh_tensor [4])).2)
  ∧ (bulk_type tensorflow.DT_INT32 →
     Read (Samples.opened Samples.one_dataset) "/x" [3] [4] allocate_output
     = (Returned OkStatus,
        Some (mkTensor [4] (replicate 4 [])
                (ds_bytes Samples.ten_ints (Simple [4] SelectAll)
                   (Simple [10] (SelectHyperslab [4] [3])))))).
Proof.
  apply (Read_inside_selects_the_block (Samples.opened Samples.one_dataset)
           "/x" [3] [4] allocate_output 0 (fresh_tensor [4])
           Samples.one_dataset Samples.ten_ints tensorflow.DT_INT32);
    try reflexivity; try done.
  intros [|k] a s dim Ha Hs Hd; simplify_eq/=; lia.
Defined.

Lemma kernel_request_stays_inside_witness :
  (∃ start shape,
     normalize (mkInt64Tensor [1] [10]) (mkInt64Tensor [1] [3])
       (mkInt64Tensor [1] [12]) = inr (start, shape)
     ∧ inside start shape [10]
     ∧ (∀ k dim a b,
          [10] !! k = Some dim → [3] !! k = Some a → [12] !! k = Some b →
          start !! k = Some (pull a (snap dim b))
          ∧ shape !! k = Some (snap dim b - pull a (snap dim b)))
     ∧ ResourceKernel (Samples.opened Samples.one_dataset) "/x"
         (mkInt64Tensor [1] [10]) (mkInt64Tensor [1] [3])
         (mkInt64Tensor [1] [12])
       = (Returned OkStatus,
          Some (mkTensor shape (replicate (num_elements shape) [])
                  (ds_bytes Samples.ten_ints (Simple shape SelectAll)
                     (Simple [10] (SelectHyperslab shape start))))))
  ∧ ∃ start shape,
      normalize (mkInt64Tensor [2] [2; 3]) (mkInt64Tensor [2] [0; 1])
        (mkInt64Tensor [1; 2] [5; 2]) = inr (start, shape)
      ∧ inside start shape [2; 3]
      ∧ (∀ k dim a b,
           [2; 3] !! k = Some dim → [0; 1] !! k = Some a →
           [5; 2] !! k = Some b →
           start !! k = Some (pull a (snap dim b))
           ∧ shape !! k = Some (snap dim b - pull a (snap dim b)))
      ∧ ResourceKernel (Samples.opened Fixtures.nested) "/g/y"
          (mkInt64Tensor [2] [2; 3]) (mkInt64Tensor [2] [0; 1])
          (mkInt64Tensor [1; 2] [5; 2])
        = (Returned OkStatus,
           Some (mkTensor shape (replicate (num_elements shape) [])
                   (ds_bytes Fixtures.matrix (Simple shape SelectAll)
                      (Simple [2; 3] (SelectHyperslab shape start))))).
Proof.
  split.
  - apply (kernel_request_stays_inside (Samples.opened Samples.one_dataset)
             "/x" 0 Samples.one_dataset Samples.ten_ints tensorflow.DT_INT32
             (mkInt64Tensor [1] [10]) (mkInt64Tensor [1] [3])
             (mkInt64Tensor [1] [12]));
      try reflexivity; try done.
    + exact ten_ints_bulk.
    + repeat constructor; cbn; lia.
    + repeat constructor; cbn; lia.
  - apply (kernel_request_stays_inside (Samples.opened Fixtures.nested)
             "/g/y" 0 Fixtures.nested Fixtures.matrix tensorflow.DT_DOUBLE
             (mkInt64Tensor [2] [2; 3]) (mkInt64Tensor [2] [0; 1])
             (mkInt64Tensor [1; 2] [5; 2]));
      try reflexivity; try done.
    + unfold bulk_type. rewrite !elem_of_cons. tauto.
    + repeat constructor; cbn; lia.
    + repeat constructor; cbn; lia.
Defined.

Lemma kernel_refuses_negative_start_witness :
  (∃ j a b dim,
     [-1] !! j = Some a ∧ a < 0 ∧ [5] !! j = Some b ∧ [10] !! j = Some dim
     ∧ (ResourceKernel (Samples.opened Samples.one_dataset) "/x"
          (mkInt64Tensor [1] [10]) (mkInt64Tensor [1] [-1])
          (mkInt64Tensor [1] [5])).1
       = Returned (boundary_error j a (snap dim b - a) dim))
  ∧ ∃ j a b dim,
      [0; -1] !! j = Some a ∧ a < 0 ∧ [2; 3] !! j = Some b
      ∧ [2; 3] !! j = Some dim
      ∧ (ResourceKernel (Samples.opened Fixtures.nested) "/g/y"
           (mkInt64Tensor [2] [2; 3]) (mkInt64Tensor [2] [0; -1])
           (mkInt64Tensor [1; 2] [2; 3])).1
        = Returned (boundary_error j a (snap dim b - a) dim).
Proof.
  split.
  - apply (kernel_refuses_negative_start (Samples.opened Samples.one_dataset)
             "/x" 0 Samples.one_dataset Samples.ten_ints
             (mkInt64Tensor [1] [10]) (mkInt64Tensor [1] [-1])
             (mkInt64Tensor [1] [5]) 0 (-1));
      try reflexivity; try done.
    + repeat constructor; cbn; lia.
    + intros [|k] dim a Hd Ha; simplify_eq/=; lia.
  - apply (kernel_refuses_negative_start (Samples.opened Fixtures.nested)
             "/g/y" 0 Fixtures.nested Fixtures.matrix
             (mkInt64Tensor [2] [2; 3]) (mkInt64Tensor [2] [0; -1])
             (mkInt64Tensor [1; 2] [2; 3]) 1 (-1));
      try reflexivity; try done.
    + repeat constructor; cbn; lia.
    + intros [|[|k]] dim a Hd Ha; simplify_eq/=; lia.
Defined.

Lemma Read_after_Init_returns_ok_or_invalid_argument_witness :
  code (boundary_error 0 3 9 10) = OK
  ∨ (code (boundary_error 0 3 9 10) = INVALID_ARGUMENT
     ∧ ∀ names, boundary_error 0 3 9 10 ≠ unsupported_enum names).
Proof.
  apply (Read_after_Init_returns_ok_or_invalid_argument
           (Fixtures.host Samples.one_dataset) Samples.uninit "f.h5"
           (Samples.opened Samples.one_dataset) "/x" [3] [9] allocate_output
           (fresh_tensor [9]) (boundary_error 0 3 9 10)
           (Some (fresh_tensor [9]))); reflexivity.
Defined.

Lemma Spec_shape_reads_the_whole_data_set_witness :
  [2; 3] = ds_dims Fixtures.matrix
  ∧ Read (Samples.opened Fixtures.nested) "/g/y" (replicate 2 0) [2; 3]
      allocate_output
    = (Returned OkStatus,
       Some (mkTensor [2; 3] (replicate 6 [])
               (ds_bytes Fixtures.matrix (Simple [2; 3] SelectAll)
                  (Simple [2; 3]
                     (SelectHyperslab [2; 3] (replicate 2 0)))))).
Proof.
  apply (Spec_shape_reads_the_whole_data_set (Fixtures.host Fixtures.nested)
           Samples.uninit "f.h5" (Samples.opened Fixtures.nested)
           Fixtures.nested "/g/y" [2; 3] tensorflow.DT_DOUBLE Fixtures.matrix
           allocate_output (fresh_tensor [2; 3]));
    try reflexivity; try done.
  - repeat constructor; cbn; lia.
  - unfold bulk_type. rewrite !elem_of_cons. tauto.
Defined.

End request_instances.

Section info_instances.
Import H5 HDF5ReadableResource HDF5ReadableInfoOp.

Lemma info_kernel_pads_shapes_witness :
  ∃ out rank,
    ResourceKernel (Samples.opened Fixtures.nested)
    = (Returned OkStatus, Some out)
    ∧ component_tensor out = (Components (Samples.opened Fixtures.nested)).2
    ∧ shape_tensor_dims out
      = (length (Components (Samples.opened Fixtures.nested)).2, rank)
    ∧ length (shape_tensor out)
      = (length (Components (Samples.opened Fixtures.nested)).2 * rank)%nat
    ∧ length (dtype_tensor out)
      = length (Components (Samples.opened Fixtures.nested)).2
    ∧ (∀ i c shape dtype,
         (Components (Samples.opened Fixtures.nested)).2 !! i = Some c →
         Spec (Samples.opened Fixtures.nested) c = Val (shape, dtype) →
         (length shape ≤ rank)%nat
         ∧ shape_row out i = padded shape rank
         ∧ dtype_tensor out !! i = Some (Some dtype))
    ∧ (rank = 0%nat
       ∨ ∃ c shape dtype,
           c ∈ (Components (Samples.opened Fixtures.nested)).2
           ∧ Spec (Samples.opened Fixtures.nested) c = Val (shape, dtype)
           ∧ length shape = rank).
Proof.
  apply (info_kernel_pads_shapes (Samples.opened Fixtures.nested)).
  exact (Init_index_in_range _ _ _ _ nested_Init).
Defined.

Lemma info_kernel_after_Init_witness :
  ∃ file out,
    file_image_ (Samples.opened Fixtures.nested) = Some (Some file)
    ∧ ResourceKernel (Samples.opened Fixtures.nested)
      = (Returned OkStatus, Some out)
    ∧ (∀ path, path ∈ component_tensor out
               ↔ path ∈ walked file Samples.uninit)
    ∧ ∀ i path,
        component_tensor out !! i = Some path →
        ∃ d dtype,
          openDataSet file path = inr d
          ∧ classify ("r", "i") path (ds_type d) = Val dtype
          ∧ row_dims (shape_row out i) = Int.wrap_int64 <$> ds_dims d
          ∧ dtype_tensor out !! i = Some (Some dtype).
Proof.
  exact (info_kernel_after_Init (Fixtures.host Fixtures.nested)
           Samples.uninit "f.h5" (Samples.opened Fixtures.nested)
           nested_Init).
Defined.

(** The outputs for [Fixtures.nested]: the row of the ten integers is
    padded to the width of the matrix. *)
Example info_kernel_on_nested :
  ∃ out,
    ResourceKernel (Samples.opened Fixtures.nested)
    = (Returned OkStatus, Some out)
    ∧ shape_tensor_dims out = (2%nat, 2%nat)
    ∧ ∃ i j,
        component_tensor out !! i = Some "/x"
        ∧ shape_row out i = [Some 10; Some (-1)]
        ∧ component_tensor out !! j = Some "/g/y"
        ∧ shape_row out j = [Some 2; Some 3].
Proof.
  eexists. split; [by vm_compute|]. split; [by vm_compute|].
  destruct (decide ((Components (Samples.opened Fixtures.nested)).2
                    = ["/x"; "/g/y"])) as [Heq|Hne].
  - exists 0%nat, 1%nat. revert Heq. vm_compute. by intros [= ].
  - exists 1%nat, 0%nat. revert Hne. vm_compute. tauto.
Qed.

End info_instances.

Section other_instances.
Import H5 HDF5ReadableResource HDF5ReadableReadOp.

Lemma Init_on_unreadable_file_witness :
  Init (Fixtures.host Samples.one_dataset) Samples.uninit new
    "s3://bucket/f.h5"
  = (Returned (InvalidArgument
                 [MStr "unable to open hdf5 file: ";
                  MStr "s3://bucket/f.h5"]),
     mk "s3://bucket/f.h5" (Some None) [] [] ∅ ("r", "i"))
  ∧ ∃ e, exc_class e = FileIException
         ∧ Init (Fixtures.host Samples.one_dataset) Samples.uninit new
             "missing.h5"
           = (Propagated e, mk "missing.h5" None [] [] ∅ ("r", "i")).
Proof.
  split.
  - apply (proj1 (Init_on_unreadable_file
                    (Fixtures.host Samples.one_dataset) Samples.uninit new
                    "s3://bucket/f.h5")); reflexivity.
  - apply (proj2 (Init_on_unreadable_file
                    (Fixtures.host Samples.one_dataset) Samples.uninit new
                    "missing.h5")); reflexivity.
Defined.

Lemma enum_classification_witness :
  classify ("r", "i") "/flag" Fixtures.boolean = Val tensorflow.DT_BOOL
  ∧ classify ("r", "i") "/colour" Fixtures.colours
    = Return (InvalidArgument
                [MStr "unsupported data class for enum: ";
                 MStr "[RED, GREEN, BLUE]"])
  ∧ classify ("r", "i") "/switch" Fixtures.wide_switch
    = Undef (OutOfRange "value" 4 4).
Proof.
  assert (∀ t : H5.DataType,
            enum_members t ≠ [("FALSE", 0); ("TRUE", 1)] →
            ¬ (getSize t = 1 ∧ enum_members t = [("FALSE", 0); ("TRUE", 1)]))
    as Hno by (intros t Hne [_ Hm]; done).
  split; [|split].
  - by apply (proj1 (enum_classification ("r", "i") "/flag" Fixtures.boolean
                       eq_refl)).
  - apply (proj1 (proj2 (enum_classification ("r", "i") "/colour"
                           Fixtures.colours eq_refl)
                    (Hno Fixtures.colours ltac:(done)))).
    + by vm_compute.
    + cbn. repeat (apply NoDup_cons; split;
                   [rewrite ?elem_of_cons, ?elem_of_nil; intros ?; lia|]).
      apply NoDup_nil_2.
    + repeat constructor; cbn; lia.
  - apply (proj2 (proj2 (proj2 (enum_classification ("r", "i") "/switch"
                                  Fixtures.wide_switch eq_refl)
                           (Hno Fixtures.wide_switch ltac:(done))))).
    + by vm_compute.
    + done.
Defined.

Lemma missing_entries_are_filled_in_witness :
  fill_start [10; 20] (mkInt64Tensor [1] [3]) = inr [3; 0]
  ∧ fill_start [10] (mkInt64Tensor [2] [3; 4])
    = inl (OutOfRange "start" 1 1)
  ∧ fill_stop [10] (mkInt64Tensor [0] []) = inr [10].
Proof.
  split; [|split].
  - apply (proj1 (missing_entries_are_filled_in [10; 20]
                    (mkInt64Tensor [1] [3]) (mkInt64Tensor [1] [3]))).
    cbn. lia.
  - apply (proj1 (proj2 (missing_entries_are_filled_in [10]
                           (mkInt64Tensor [2] [3; 4])
                           (mkInt64Tensor [1] [3])))).
    cbn. lia.
  - apply (proj2 (proj2 (missing_entries_are_filled_in [10]
                           (mkInt64Tensor [1] [3])
                           (mkInt64Tensor [0] [])))); cbn; lia.
Defined.

End other_instances.
